(** * Image-description app: the store, the extraction post-processing and
      the per-image controller of [app.py]

    The script keeps one SQLite table, [image_data], in the file
    [buildings.db]; for every uploaded image it shows the image, asks the
    store whether the file name is known, and otherwise sends the image to a
    chat model and inserts the three fields of the answer.

    The development embeds the script as executable definitions over an
    explicit world (database file, connections, Streamlit output, the chat
    model and the store clock as oracles) in a state-and-exception monad, and
    proves the properties of the specification about it.

    What lies outside the script is modelled as follows.
    - [sqlite3]: a statement is prepared (schema errors), its parameters are
      bound (type errors), then it runs (constraint errors).  INSERT opens a
      transaction that [commit] publishes and [close] discards.  Row ids are
      unbounded integers.
    - Python text is a byte string (its UTF-8 encoding).
    - Pillow and the display: whether [Image.open] and [st.image] accept the
      bytes of an upload is an oracle of the world; what they raise has no
      handler in the script and ends the run.
    - The construction of the chat model object at import time (line 16) is
      outside the embedding; one [chain.invoke] is one event. *)

From Stdlib Require Import ZArith NArith List String Ascii Bool Lia Arith Sorted.
From Stdlib.Strings Require Import Byte.
From Stdlib Require Import DecimalString.
Import ListNotations.

Set Implicit Arguments.
Set Warnings "-register-all".
Open Scope string_scope.
Open Scope list_scope.
Open Scope Z_scope.

(** ** Python values that a JSON answer can hold *)

Inductive json (F : Type) : Type :=
| JNull
| JBool (b : bool)
| JInt (z : Z)
| JFloat (f : F)
| JStr (s : string)
| JList (l : list (json F))
| JObj (kv : list (string * json F)).

Arguments JNull {F}.
Arguments JBool {F} b.
Arguments JInt {F} z.
Arguments JStr {F} s.
Arguments JList {F} l.
Arguments JObj {F} kv.

(** The interpreter and the storage engine render some values as text in ways
    the script does not control: [repr] of a float, list or dict, and the
    engine's text form of a real.  They are the operations of the runtime. *)
Class PyRuntime : Type := {
  py_float : Type;
  py_repr : json py_float -> string;
  float_is_nan : py_float -> bool;
  sqlite_real_text : py_float -> string
}.

(** f-string and [+] on text. *)
Definition fstring (parts : list string) : string := String.concat "" parts.

Definition decimal (z : Z) : string := NilZero.string_of_int (Z.to_int z).

Definition decimal_nat (n : nat) : string := decimal (Z.of_nat n).

(** ** [base64.b64encode], RFC 4648 with padding *)

Definition b64_alphabet : string :=
  "ABCDEFGHIJKLMNOPQRSTUVWXYZabcdefghijklmnopqrstuvwxyz0123456789+/".

Definition b64_char (n : N) : ascii :=
  match String.get (N.to_nat n) b64_alphabet with
  | Some c => c
  | None => "="%char
  end.

Fixpoint b64encode (bs : list byte) : string :=
  match bs with
  | [] => ""
  | [a] =>
      let x := Byte.to_N a in
      String (b64_char (N.shiftr x 2))
        (String (b64_char (N.shiftl (N.land x 3) 4)) "==")
  | [a; b] =>
      let x := Byte.to_N a in
      let y := Byte.to_N b in
      String (b64_char (N.shiftr x 2))
        (String (b64_char (N.lor (N.shiftl (N.land x 3) 4) (N.shiftr y 4)))
           (String (b64_char (N.shiftl (N.land y 15) 2)) "="))
  | a :: b :: c :: rest =>
      let x := Byte.to_N a in
      let y := Byte.to_N b in
      let z := Byte.to_N c in
      String (b64_char (N.shiftr x 2))
        (String (b64_char (N.lor (N.shiftl (N.land x 3) 4) (N.shiftr y 4)))
           (String (b64_char (N.lor (N.shiftl (N.land y 15) 2) (N.shiftr z 6)))
              (String (b64_char (N.land z 63)) (b64encode rest))))
  end.

(** ** Exceptions *)

Inductive exn : Type :=
| IntegrityError (msg : string)      (* sqlite3.IntegrityError *)
| OperationalError (msg : string)    (* sqlite3.OperationalError *)
| DatabaseError (msg : string)       (* sqlite3.DatabaseError proper *)
| ProgrammingError (msg : string)    (* sqlite3.ProgrammingError *)
| OverflowError (msg : string)
| AttributeError (msg : string)
| UnidentifiedImageError (msg : string)  (* PIL.UnidentifiedImageError *)
| ExternalError (msg : string).      (* whatever chain.invoke raises *)

(** [isinstance(e, sqlite3.IntegrityError)], the test of the first handler
    of [insert_image_data]. *)
Definition is_IntegrityError (e : exn) : bool :=
  match e with
  | IntegrityError _ => true
  | _ => false
  end.

(** [str(e)] *)
Definition str_exn (e : exn) : string :=
  match e with
  | IntegrityError m | OperationalError m | DatabaseError m
  | ProgrammingError m | OverflowError m | AttributeError m
  | UnidentifiedImageError m | ExternalError m => m
  end.

(** ** The storage engine *)

Inductive sqltype : Type := INTEGER | TEXT | DATETIME.

Inductive default_expr : Type := CURRENT_TIMESTAMP.

Record column : Type := {
  col_name : string;
  col_type : sqltype;
  col_pk_autoinc : bool;      (* PRIMARY KEY AUTOINCREMENT *)
  col_not_null : bool;        (* NOT NULL *)
  col_unique : bool;          (* UNIQUE *)
  col_default : option default_expr
}.

Fixpoint col_index (cs : list column) (n : string) : option nat :=
  match cs with
  | [] => None
  | c :: cs' =>
      if String.eqb (col_name c) n then Some O
      else option_map S (col_index cs' n)
  end.

Definition has_column (cs : list column) (n : string) : bool :=
  match col_index cs n with
  | Some _ => true
  | None => false
  end.

Section Engine.
Context {RT : PyRuntime}.

Definition pyval : Type := json py_float.

(** A storage-class value. *)
Inductive value : Type :=
| VNull
| VInt (z : Z)
| VReal (f : py_float)
| VText (s : string).

(** One stored row; [cells] is aligned with the columns of the table and
    the key column holds the row id. *)
Record row : Type := { rowid : Z; cells : list value }.

(** The table with its definition and the counter that [sqlite_sequence]
    keeps for an AUTOINCREMENT key: the largest id ever assigned. *)
Record table : Type := {
  columns : list column;
  rows : list row;
  seq : Z
}.

Definition cell (cs : list column) (r : row) (n : string) : value :=
  match col_index cs n with
  | Some i => nth i (cells r) VNull
  | None => VNull
  end.

(** What the file [buildings.db] can hold: bytes that are no database, or
    a database in which the table [image_data] is absent or present.  A
    missing file is created empty on connection: [Database None]. *)
Inductive db_file : Type :=
| NotADatabase
| Database (image_data : option table).

(** *** Binding Python values to statement parameters *)

Definition int64_min : Z := - 2 ^ 63.
Definition int64_max : Z := 2 ^ 63 - 1.

Definition type_name (v : pyval) : string :=
  match v with
  | JNull => "NoneType"
  | JBool _ => "bool"
  | JInt _ => "int"
  | JFloat _ => "float"
  | JStr _ => "str"
  | JList _ => "list"
  | JObj _ => "dict"
  end.

Definition unsupported (pos : nat) (v : pyval) : exn :=
  ProgrammingError
    (fstring ["Error binding parameter "; decimal_nat pos; ": type '";
              type_name v; "' is not supported"]).

Definition bind_param (pos : nat) (v : pyval) : exn + value :=
  match v with
  | JNull => inr VNull
  | JBool b => inr (VInt (if b then 1 else 0))
  | JInt z =>
      if (int64_min <=? z) && (z <=? int64_max) then inr (VInt z)
      else inl (OverflowError
                  "Python int too large to convert to SQLite INTEGER")
  | JFloat f => inr (if float_is_nan f then VNull else VReal f)
  | JStr s => inr (VText s)
  | JList _ | JObj _ => inl (unsupported pos v)
  end.

(** Parameters are bound left to right, positions counted from 1; the
    first failure is raised. *)
Fixpoint bind_params (pos : nat) (vs : list pyval) : exn + list value :=
  match vs with
  | [] => inr []
  | v :: vs' =>
      match bind_param pos v with
      | inl e => inl e
      | inr x =>
          match bind_params (S pos) vs' with
          | inl e => inl e
          | inr xs => inr (x :: xs)
          end
      end
  end.

(** *** Column affinity and comparison *)

Definition text_affinity (v : value) : value :=
  match v with
  | VInt z => VText (decimal z)
  | VReal f => VText (sqlite_real_text f)
  | _ => v
  end.

(** Only TEXT columns receive supplied values from the statements of the
    script; a value for another column is kept as bound. *)
Definition store_value (c : column) (v : value) : value :=
  match col_type c with
  | TEXT => text_affinity v
  | _ => v
  end.

(** SQL [=] under BINARY collation; NULL equals nothing. *)
Definition sql_eq (a b : value) : bool :=
  match a, b with
  | VText s, VText t => String.eqb s t
  | VInt x, VInt y => Z.eqb x y
  | _, _ => false
  end.

Definition is_null (v : value) : bool :=
  match v with
  | VNull => true
  | _ => false
  end.

(** *** INSERT *)

Fixpoint supplied (asg : list (string * value)) (n : string) : option value :=
  match asg with
  | [] => None
  | (k, v) :: asg' => if String.eqb k n then Some v else supplied asg' n
  end.

Definition max_rowid (rs : list row) : Z :=
  fold_right (fun r m => Z.max (rowid r) m) 0 rs.

(** AUTOINCREMENT: one more than the largest id the table has ever held. *)
Definition next_rowid (t : table) : Z := Z.max (seq t) (max_rowid (rows t)) + 1.

(** The cell of a column in the new row.  The key takes the new id (the
    INSERT of the script never names the key column), a named column takes
    the supplied value under its affinity, any other column its default. *)
Definition new_cell (now : string) (id : Z) (asg : list (string * value))
           (c : column) : value :=
  if col_pk_autoinc c then VInt id
  else match supplied asg (col_name c) with
       | Some v => store_value c v
       | None =>
           match col_default c with
           | Some CURRENT_TIMESTAMP => VText now
           | None => VNull
           end
       end.

Fixpoint zip_cells (cs : list column) (vs : list value) : list (column * value) :=
  match cs, vs with
  | c :: cs', v :: vs' => (c, v) :: zip_cells cs' vs'
  | _, _ => []
  end.

Definition not_null_violation (cvs : list (column * value)) : option column :=
  option_map fst
    (find (fun cv => col_not_null (fst cv) && is_null (snd cv)) cvs).

Definition taken (cs : list column) (rs : list row) (c : column) (v : value) : bool :=
  existsb (fun r => sql_eq (cell cs r (col_name c)) v) rs.

Definition unique_violation (cs : list column) (rs : list row)
           (cvs : list (column * value)) : option column :=
  option_map fst
    (find (fun cv => col_unique (fst cv) && taken cs rs (fst cv) (snd cv)) cvs).

Definition constraint_failed (kind : string) (c : column) : exn :=
  IntegrityError (fstring [kind; " constraint failed: image_data."; col_name c]).

(** The row is built from the supplied values and the defaults, the NOT
    NULL constraints are checked before the UNIQUE ones, and a statement
    that fails leaves the table and its id counter as they were. *)
Definition exec_insert (t : table) (now : string)
           (asg : list (string * value)) : exn + table :=
  let id := next_rowid t in
  let vs := map (new_cell now id asg) (columns t) in
  let cvs := zip_cells (columns t) vs in
  match not_null_violation cvs with
  | Some c => inl (constraint_failed "NOT NULL" c)
  | None =>
      match unique_violation (columns t) (rows t) cvs with
      | Some c => inl (constraint_failed "UNIQUE" c)
      | None =>
          inr {| columns := columns t;
                 rows := rows t ++ [{| rowid := id; cells := vs |}];
                 seq := id |}
      end
  end.

(** *** SELECT COUNT( * ) ... WHERE col = ? *)

Definition compared (cs : list column) (n : string) (v : value) : value :=
  match find (fun c => String.eqb (col_name c) n) cs with
  | Some c => store_value c v
  | None => v
  end.

Definition exec_count (t : table) (n : string) (v : value) : Z :=
  Z.of_nat
    (List.length
       (filter (fun r => sql_eq (cell (columns t) r n) (compared (columns t) n v))
          (rows t))).

(** *** Statements *)

Inductive stmt : Type :=
| CREATE_TABLE_IF_NOT_EXISTS (cs : list column)
| INSERT_INTO (cols : list string)
| SELECT_COUNT_WHERE (col : string).

Definition placeholders (s : stmt) : nat :=
  match s with
  | CREATE_TABLE_IF_NOT_EXISTS _ => 0%nat
  | INSERT_INTO cols => List.length cols
  | SELECT_COUNT_WHERE _ => 1%nat
  end.

(** Compiling a statement against the schema: the table and the columns it
    names must exist. *)
Definition prepare (s : stmt) (view : option table) : option exn :=
  match s with
  | CREATE_TABLE_IF_NOT_EXISTS _ => None
  | INSERT_INTO cols =>
      match view with
      | None => Some (OperationalError "no such table: image_data")
      | Some t =>
          match find (fun n => negb (has_column (columns t) n)) cols with
          | Some n =>
              Some (OperationalError
                      (fstring ["table image_data has no column named "; n]))
          | None => None
          end
      end
  | SELECT_COUNT_WHERE n =>
      match view with
      | None => Some (OperationalError "no such table: image_data")
      | Some t =>
          if has_column (columns t) n then None
          else Some (OperationalError (fstring ["no such column: "; n]))
      end
  end.

End Engine.

(** ** The world the script runs in *)

Inductive level : Type := LInfo | LWarning | LError.

Inductive content_part : Type :=
| TextPart (text : string)
| ImageUrlPart (image_url : string).

Inductive message_content : Type :=
| Plain (text : string)
| Parts (ps : list content_part).

(** A chat prompt: the list of (role, content) pairs given to
    [ChatPromptTemplate.from_messages]. *)
Definition prompt_messages : Type := list (string * message_content).

(** What the script shows and sends, in order of occurrence. *)
Inductive event : Type :=
| StImage (col : nat) (data : list byte) (caption : string)
| StNotice (lv : level) (text : string)
| StSpinner (text : string)
| ChainInvoke (prompt : prompt_messages)
| StDownloadButton (label file_name mime : string).

(** The outcome of a call: a returned value or a raised exception. *)
Inductive result (A : Type) : Type :=
| Ret (a : A)
| Raise (e : exn).

Arguments Ret {A} a.
Arguments Raise {A} e.

Section App.
Context {RT : PyRuntime}.

(** The answer of the chain to one invocation: the parsed JSON value, or
    an exception (network, authentication, rate limit, unparseable text). *)
Inductive model_outcome : Type :=
| Answered (v : pyval)
| Failed (reason : string).

Record world : Type := {
  db : db_file;                 (* committed content of buildings.db *)
  pending : option table;       (* image_data inside the open transaction *)
  open_conns : nat;             (* connections opened and not closed *)
  trace : list event;           (* output so far, oldest first *)
  llm : nat -> model_outcome;   (* the answer to the n-th invocation *)
  llm_calls : nat;              (* invocations so far *)
  pil : list byte -> option exn;  (* what opening and showing the bytes raises *)
  clock : nat -> string;        (* CURRENT_TIMESTAMP at the n-th statement *)
  ticks : nat                   (* statements executed so far *)
}.

Definition set_db (w : world) (d : db_file) : world :=
  {| db := d; pending := pending w; open_conns := open_conns w;
     trace := trace w; llm := llm w; llm_calls := llm_calls w;
     pil := pil w; clock := clock w; ticks := ticks w |}.

Definition set_pending (w : world) (p : option table) : world :=
  {| db := db w; pending := p; open_conns := open_conns w;
     trace := trace w; llm := llm w; llm_calls := llm_calls w;
     pil := pil w; clock := clock w; ticks := ticks w |}.

Definition set_open_conns (w : world) (n : nat) : world :=
  {| db := db w; pending := pending w; open_conns := n;
     trace := trace w; llm := llm w; llm_calls := llm_calls w;
     pil := pil w; clock := clock w; ticks := ticks w |}.

Definition set_trace (w : world) (t : list event) : world :=
  {| db := db w; pending := pending w; open_conns := open_conns w;
     trace := t; llm := llm w; llm_calls := llm_calls w;
     pil := pil w; clock := clock w; ticks := ticks w |}.

Definition set_llm_calls (w : world) (n : nat) : world :=
  {| db := db w; pending := pending w; open_conns := open_conns w;
     trace := trace w; llm := llm w; llm_calls := n;
     pil := pil w; clock := clock w; ticks := ticks w |}.

Definition set_ticks (w : world) (n : nat) : world :=
  {| db := db w; pending := pending w; open_conns := open_conns w;
     trace := trace w; llm := llm w; llm_calls := llm_calls w;
     pil := pil w; clock := clock w; ticks := n |}.

(** ** State and exceptions *)

Definition M (A : Type) : Type := world -> result A * world.

Definition ret {A} (a : A) : M A := fun w => (Ret a, w).

Definition raise {A} (e : exn) : M A := fun w => (Raise e, w).

Definition bind {A B} (m : M A) (k : A -> M B) : M B :=
  fun w =>
    match m w with
    | (Ret a, w1) => k a w1
    | (Raise e, w1) => (Raise e, w1)
    end.

(** [try: body / except Exception as e: handler] *)
Definition try_except {A} (body : M A) (handler : exn -> M A) : M A :=
  fun w =>
    match body w with
    | (Ret a, w1) => (Ret a, w1)
    | (Raise e, w1) => handler e w1
    end.

(** [try: body / finally: fin]: [fin] runs on every exit of [body],
    also when [body] returns or raises. *)
Definition try_finally {A} (body : M A) (fin : M unit) : M A :=
  fun w =>
    match body w with
    | (r, w1) =>
        match fin w1 with
        | (Ret _, w2) => (r, w2)
        | (Raise e, w2) => (Raise e, w2)
        end
    end.

End App.

Declare Scope py_scope.
Delimit Scope py_scope with py.
Notation "x <- m ;; k" := (bind m (fun x => k))
  (at level 100, m at next level, right associativity) : py_scope.
Notation "m ;; k" := (bind m (fun _ => k))
  (at level 100, right associativity) : py_scope.

Section Script.
Context {RT : PyRuntime}.
Local Open Scope py_scope.

(** ** [sqlite3]: connections and cursors *)

(** [sqlite3.connect(path)]: the file is opened lazily, so this succeeds
    whatever the file holds; the new connection has no open transaction. *)
Definition sqlite3_connect (path : string) : M unit :=
  fun w => (Ret tt, set_pending (set_open_conns w (S (open_conns w))) None).

(** [db_conn.close()]: an uncommitted transaction is rolled back. *)
Definition sqlite3_close : M unit :=
  fun w => (Ret tt, set_pending (set_open_conns w (Nat.pred (open_conns w))) None).

(** [db_conn.commit()] *)
Definition commit : M unit :=
  fun w =>
    match pending w with
    | Some t => (Ret tt, set_pending (set_db w (Database (Some t))) None)
    | None => (Ret tt, w)
    end.

(** [cursor.execute(sql, params)]; the result is what the cursor then
    fetches. *)
Definition execute (s : stmt) (params : list pyval) : M (list (list value)) :=
  fun w0 =>
    let w := set_ticks w0 (S (ticks w0)) in
    match db w with
    | NotADatabase => (Raise (DatabaseError "file is not a database"), w)
    | Database committed =>
        let view := match pending w with
                    | Some t => Some t
                    | None => committed
                    end in
        match prepare s view with
        | Some e => (Raise e, w)
        | None =>
            if negb (Nat.eqb (List.length params) (placeholders s)) then
              (Raise (ProgrammingError
                        "Incorrect number of bindings supplied."), w)
            else
              match bind_params 1 params with
              | inl e => (Raise e, w)
              | inr vals =>
                  match s, view with
                  | CREATE_TABLE_IF_NOT_EXISTS cs, None =>
                      (Ret [],
                       set_db w (Database
                                   (Some {| columns := cs; rows := []; seq := 0 |})))
                  | CREATE_TABLE_IF_NOT_EXISTS _, Some _ => (Ret [], w)
                  | INSERT_INTO cols, Some t =>
                      match exec_insert t (clock w (ticks w)) (combine cols vals) with
                      | inl e => (Raise e, w)
                      | inr t' => (Ret [], set_pending w (Some t'))
                      end
                  | SELECT_COUNT_WHERE n, Some t =>
                      (Ret [[VInt (exec_count t n (hd VNull vals))]], w)
                  | _, None =>
                      (Raise (OperationalError "no such table: image_data"), w)
                  end
              end
        end
    end.

(** [cursor.fetchone()[0]] after a COUNT query. *)
Definition fetchone_0 (fetched : list (list value)) : Z :=
  match fetched with
  | (VInt n :: _) :: _ => n
  | _ => 0
  end.

(** ** Streamlit output *)

Definition emit (e : event) : M unit :=
  fun w => (Ret tt, set_trace w (trace w ++ [e])).

Definition st_info (text : string) : M unit := emit (StNotice LInfo text).
Definition st_warning (text : string) : M unit := emit (StNotice LWarning text).
Definition st_error (text : string) : M unit := emit (StNotice LError text).
Definition st_image (col : nat) (data : list byte) (caption : string) : M unit :=
  emit (StImage col data caption).
Definition st_spinner (text : string) : M unit := emit (StSpinner text).

(** [Image.open(io.BytesIO(data))], line 101, for the picture that
    [st.image] then loads and shows: Pillow identifies the format from the
    bytes and raises (as a rule [UnidentifiedImageError]) when it cannot;
    the result stands for the picture. *)
Definition image_open (data : list byte) : M (list byte) :=
  fun w =>
    match pil w data with
    | None => (Ret data, w)
    | Some e => (Raise e, w)
    end.

(** ** The store: lines 19 to 78 *)

Definition DB_FILE : string := "buildings.db".

(** The table definition of [setup_database], column by column. *)
Definition image_data_columns : list column :=
  [ {| col_name := "id"; col_type := INTEGER; col_pk_autoinc := true;
       col_not_null := false; col_unique := false; col_default := None |};
    {| col_name := "image_name"; col_type := TEXT; col_pk_autoinc := false;
       col_not_null := true; col_unique := true; col_default := None |};
    {| col_name := "title"; col_type := TEXT; col_pk_autoinc := false;
       col_not_null := true; col_unique := false; col_default := None |};
    {| col_name := "buildings"; col_type := TEXT; col_pk_autoinc := false;
       col_not_null := false; col_unique := false; col_default := None |};
    {| col_name := "description"; col_type := TEXT; col_pk_autoinc := false;
       col_not_null := false; col_unique := false; col_default := None |};
    {| col_name := "time_added"; col_type := DATETIME; col_pk_autoinc := false;
       col_not_null := false; col_unique := false;
       col_default := Some CURRENT_TIMESTAMP |} ].

Definition setup_database : M unit :=
  sqlite3_connect DB_FILE ;;
  execute (CREATE_TABLE_IF_NOT_EXISTS image_data_columns) [] ;;
  commit ;;
  sqlite3_close.

Definition insert_image_data (image_name : string)
           (title buildings description : pyval) : M bool :=
  sqlite3_connect DB_FILE ;;
  try_finally
    (try_except
       (execute (INSERT_INTO ["image_name"; "title"; "buildings"; "description"])
                [JStr image_name; title; buildings; description] ;;
        commit ;;
        ret true)
       (fun e =>
          if is_IntegrityError e then
            st_warning
              (fstring ["Bild '"; image_name;
                        "' existiert bereits in der Datenbank und wird nicht erneut hinzugefügt."]) ;;
            ret false
          else
            st_error
              (fstring ["Fehler beim Einfügen von '"; image_name;
                        "' in die Datenbank: "; str_exn e]) ;;
            ret false))
    sqlite3_close.

Definition image_exists_in_db (image_name : string) : M bool :=
  sqlite3_connect DB_FILE ;;
  fetched <- execute (SELECT_COUNT_WHERE "image_name") [JStr image_name] ;;
  let count := fetchone_0 fetched in
  sqlite3_close ;;
  ret (0 <? count).

(** ** The upload: lines 86 to 91 *)

(** An uploaded file: a byte stream with a read position, the file name
    and the MIME type the browser reported ([.type], which the script
    never reads). *)
Record UploadedFile : Type := {
  name : string;
  type_ : string;
  content : list byte;
  pos : nat
}.

(** [f.read()]: the bytes from the position to the end; the position
    moves to the end. *)
Definition read (f : UploadedFile) : list byte * UploadedFile :=
  (skipn (pos f) (content f),
   {| name := name f; type_ := type_ f; content := content f;
      pos := Nat.max (pos f) (List.length (content f)) |}).

(** [f.seek(n)] *)
Definition seek (f : UploadedFile) (n : nat) : UploadedFile :=
  {| name := name f; type_ := type_ f; content := content f; pos := n |}.

Definition encode_image_from_bytes (image_bytes : list byte) : string :=
  b64encode image_bytes.

(** ** The extraction: lines 116 to 150 *)

(** The four adjacent literals of the system message, joined as written. *)
Definition system_instruction : string :=
  fstring
    ["You are an expert at analyzing images.";
     "Extract the title, buildings, and a description from the image.";
     "Respond with a JSON object with the following keys: title, buildings, description.";
     "For each key (title, buildings, description) you only give a single short line of text. You never use nested JSON objects."].

Definition build_prompt (base64_image : string) : prompt_messages :=
  [ ("system", Plain system_instruction);
    ("human",
     Parts [ TextPart "Describe the image.";
             ImageUrlPart (fstring ["data:image/jpeg;base64,"; base64_image]) ]) ].

(** [chain.invoke({})]: one call of the chat model, answered by the
    oracle. *)
Definition chain_invoke (prompt : prompt_messages) : M pyval :=
  fun w =>
    let w1 := set_llm_calls (set_trace w (trace w ++ [ChainInvoke prompt]))
                (S (llm_calls w)) in
    match llm w (llm_calls w) with
    | Answered v => (Ret v, w1)
    | Failed reason => (Raise (ExternalError reason), w1)
    end.

(** The pairs of a dict; a key occurs once. *)
Fixpoint lookup (kv : list (string * pyval)) (key : string) : option pyval :=
  match kv with
  | [] => None
  | (k, v) :: kv' => if String.eqb k key then Some v else lookup kv' key
  end.

Definition get_or (kv : list (string * pyval)) (key : string)
           (default : pyval) : pyval :=
  match lookup kv key with
  | Some v => v
  | None => default
  end.

(** [d.get(key, default)]; only a dict has the method. *)
Definition dict_get (d : pyval) (key : string) (default : pyval) : M pyval :=
  match d with
  | JObj kv => ret (get_or kv key default)
  | _ =>
      raise (AttributeError
               (fstring ["'"; type_name d; "' object has no attribute 'get'"]))
  end.

(** [str(v)]: text is itself; anything else is its [repr]. *)
Definition py_str (v : pyval) : string :=
  match v with
  | JStr s => s
  | JNull => "None"
  | JBool true => "True"
  | JBool false => "False"
  | JInt z => decimal z
  | _ => py_repr v
  end.

(** [if isinstance(v, list): v = ", ".join(map(str, v))] *)
Definition join_if_list (v : pyval) : pyval :=
  match v with
  | JList l => JStr (String.concat ", " (map py_str l))
  | _ => v
  end.

(** ** The controller: lines 93 to 177 *)

(** The body of the [try] block, lines 112 to 158. *)
Definition analyse (f : UploadedFile) : M unit :=
  let (image_bytes_for_llm, _) := read f in
  let base64_image := encode_image_from_bytes image_bytes_for_llm in
  let prompt := build_prompt base64_image in
  extracted_data <- chain_invoke prompt ;;
  buildings <- dict_get extracted_data "buildings" (JStr "No buildings identified") ;;
  let buildings_to_insert := join_if_list buildings in
  description <- dict_get extracted_data "description" (JStr "No description") ;;
  let description_to_insert := join_if_list description in
  title <- dict_get extracted_data "title" (JStr "No title") ;;
  _ <- insert_image_data (name f) title buildings_to_insert description_to_insert ;;
  ret tt.

(** One iteration of the loop over [enumerate(uploaded_files)]. *)
Definition process_file (i : nat) (uploaded_file : UploadedFile) : M unit :=
  let (image_for_display, f1) := read uploaded_file in
  let f2 := seek f1 0 in
  image <- image_open image_for_display ;;
  st_image (i mod 4) image (name f2) ;;
  known <- image_exists_in_db (name f2) ;;
  if known then
    st_info (fstring ["Bild '"; name f2;
                      "' wurde bereits analysiert und befindet sich in der Datenbank."])
  else
    st_spinner (fstring ["Analysiere '"; name f2; "'..."]) ;;
    try_except (analyse f2)
      (fun e =>
         st_error (fstring ["Fehler bei der Analyse von '"; name f2; "': ";
                            str_exn e])).

Fixpoint process_files (i : nat) (files : list UploadedFile) : M unit :=
  match files with
  | [] => ret tt
  | f :: rest => process_file i f ;; process_files (S i) rest
  end.

(** The script from line 78 on: the table is set up, the uploads are
    processed, and the download button is offered (the file exists once a
    connection was opened on it). *)
Definition main (uploaded_files : list UploadedFile) : M unit :=
  setup_database ;;
  match uploaded_files with
  | [] =>
      st_info "Bitte laden Sie JPG-Bilder hoch, um sie hier zu analysieren und anzuzeigen."
  | _ :: _ => process_files 0 uploaded_files
  end ;;
  emit (StDownloadButton "Download created Database" "buildings.db"
          "application/octet-stream").

End Script.

(** ** A runtime for closed examples

    JSON numbers are integers here (there is no float), and [repr] puts text
    between single quotes without escaping. *)

Fixpoint plain_repr (v : json Empty_set) : string :=
  match v with
  | JNull => "None"
  | JBool true => "True"
  | JBool false => "False"
  | JInt z => decimal z
  | JFloat f => match f with end
  | JStr s => fstring ["'"; s; "'"]
  | JList l => fstring ["["; String.concat ", " (map plain_repr l); "]"]
  | JObj kv =>
      fstring ["{";
               String.concat ", "
                 (map (fun '(k, x) => fstring ["'"; k; "': "; plain_repr x]) kv);
               "}"]
  end.

Definition plain_runtime : PyRuntime :=
  {| py_float := Empty_set;
     py_repr := plain_repr;
     float_is_nan := fun f => match f with end;
     sqlite_real_text := fun f => match f with end |}.

(** ** Vocabulary of the properties *)

Section Vocabulary.
Context {RT : PyRuntime}.

(** The store as the script leaves it after [setup_database]: the file is
    a database holding [image_data] with the columns of the script. *)
Definition initialised (w : world) (t : table) : Prop :=
  db w = Database (Some t) /\ columns t = image_data_columns.

(** Pillow and the display accept what the script reads from the upload
    in order to show it (lines 99 to 102). *)
Definition displayable (w : world) (f : UploadedFile) : Prop :=
  pil w (skipn (pos f) (content f)) = None.

Definition name_cell (t : table) (r : row) : value :=
  cell (columns t) r "image_name".

(** A record with this file name is in the table. *)
Definition known (t : table) (n : string) : bool :=
  existsb (fun r => sql_eq (name_cell t r) (VText n)) (rows t).

(** The number of records with this file name. *)
Definition count_name (t : table) (n : string) : nat :=
  List.length (filter (fun r => sql_eq (name_cell t r) (VText n)) (rows t)).

(** What the UNIQUE constraint on [image_name] maintains. *)
Definition unique_names (t : table) : Prop :=
  NoDup (map (name_cell t) (rows t)).

(** The ids in insertion order. *)
Definition ids (t : table) : list Z := map rowid (rows t).

(** The text contains the name. *)
Definition mentions (text n : string) : Prop :=
  exists pre post, text = fstring [pre; n; post].

(** The value can be bound to a statement parameter. *)
Definition bindable (v : pyval) : bool :=
  match bind_param 1 v with
  | inr _ => true
  | inl _ => false
  end.

(** The prompts sent to the model, in order. *)
Fixpoint invocations (tr : list event) : list prompt_messages :=
  match tr with
  | [] => []
  | ChainInvoke p :: tr' => p :: invocations tr'
  | _ :: tr' => invocations tr'
  end.

(** The world once a statement ran on a connection that was then closed
    without a change to the file. *)
Definition after_statement (w : world) : world :=
  {| db := db w; pending := None; open_conns := open_conns w;
     trace := trace w; llm := llm w; llm_calls := llm_calls w;
     pil := pil w; clock := clock w; ticks := S (ticks w) |}.

Definition with_events (w : world) (es : list event) : world :=
  set_trace w (trace w ++ es).

(** The three values that lines 144 to 157 hand to the store for a dict
    answer. *)
Definition title_arg (kv : list (string * pyval)) : pyval :=
  get_or kv "title" (JStr "No title").

Definition buildings_arg (kv : list (string * pyval)) : pyval :=
  join_if_list (get_or kv "buildings" (JStr "No buildings identified")).

Definition description_arg (kv : list (string * pyval)) : pyval :=
  join_if_list (get_or kv "description" (JStr "No description")).

(** The notices of the script. *)
Definition duplicate_warning (n : string) : event :=
  StNotice LWarning
    (fstring ["Bild '"; n;
              "' existiert bereits in der Datenbank und wird nicht erneut hinzugefügt."]).

Definition insert_error (n : string) (e : exn) : event :=
  StNotice LError
    (fstring ["Fehler beim Einfügen von '"; n; "' in die Datenbank: "; str_exn e]).

Definition already_analysed (n : string) : event :=
  StNotice LInfo
    (fstring ["Bild '"; n;
              "' wurde bereits analysiert und befindet sich in der Datenbank."]).

Definition analysis_error (n : string) (e : exn) : event :=
  StNotice LError
    (fstring ["Fehler bei der Analyse von '"; n; "': "; str_exn e]).

(** What is shown before the model is asked about a new file, and the
    request itself. *)
Definition shown (i : nat) (f : UploadedFile) : event :=
  StImage (i mod 4) (skipn (pos f) (content f)) (name f).

Definition spinner (f : UploadedFile) : event :=
  StSpinner (fstring ["Analysiere '"; name f; "'..."]).

Definition request (f : UploadedFile) : prompt_messages :=
  build_prompt (b64encode (content f)).

(** The world in which the answer of the model to a new file arrives. *)
Definition invoked (i : nat) (f : UploadedFile) (w : world) : world :=
  {| db := db w; pending := None; open_conns := open_conns w;
     trace := trace w ++ [shown i f; spinner f; ChainInvoke (request f)];
     llm := llm w; llm_calls := S (llm_calls w);
     pil := pil w; clock := clock w; ticks := S (ticks w) |}.

(** The row that a successful insert appends. *)
Definition new_row (t : table) (now : string) (n : value)
           (title buildings description : value) : row :=
  {| rowid := next_rowid t;
     cells := [VInt (next_rowid t); n; title; buildings; description; VText now] |}.

End Vocabulary.

Section StoreVocabulary.
Context {RT : PyRuntime}.

(** The table right after its creation. *)
Definition fresh_table : table :=
  {| columns := image_data_columns; rows := []; seq := 0 |}.

(** The world when a statement failed on a connection that was left
    open. *)
Definition leaked (w : world) : world :=
  {| db := db w; pending := None; open_conns := S (open_conns w);
     trace := trace w; llm := llm w; llm_calls := llm_calls w;
     pil := pil w; clock := clock w; ticks := S (ticks w) |}.

(** The table after a successful insert of the given bound values. *)
Definition inserted (t : table) (now : string) (n : string)
           (vt vb vd : value) : table :=
  {| columns := image_data_columns;
     rows := rows t ++ [new_row t now (VText n) (text_affinity vt)
                          (text_affinity vb) (text_affinity vd)];
     seq := next_rowid t |}.

(** A sequence of calls of [insert_image_data], with their results. *)
Fixpoint insert_all (calls : list (string * pyval * pyval * pyval)) : M (list bool) :=
  match calls with
  | [] => ret []
  | (n, title, buildings, description) :: rest =>
      bind (insert_image_data n title buildings description)
        (fun ok => bind (insert_all rest) (fun oks => ret (ok :: oks)))
  end.

End StoreVocabulary.

Section SpecificationWording.
Context {RT : PyRuntime}.

(** The key is not among the keys of the answer. *)
Definition key_absent (resp : pyval) (key : string) : Prop :=
  match resp with
  | JObj kv => lookup kv key = None
  | _ => True
  end.

(** A list or a dict: the values no statement parameter accepts. *)
Definition is_container (v : pyval) : bool :=
  match v with
  | JList _ | JObj _ => true
  | _ => false
  end.

Definition is_text (v : pyval) : bool :=
  match v with
  | JStr _ => true
  | _ => false
  end.

(** The duplicate outcome in the words of the specification: no new row,
    a non-inserted result, one warning that names the image. *)
Definition duplicate_skipped (w : world) (n : string)
           (title buildings description : pyval) : Prop :=
  exists w' text,
    insert_image_data n title buildings description w = (Ret false, w')
    /\ db w' = db w
    /\ trace w' = trace w ++ [StNotice LWarning text]
    /\ mentions text n.



(** The insert for the file fails with the error notice of the store and
    the file is as before. *)
Definition title_refused (i : nat) (f : UploadedFile) (w : world) : Prop :=
  exists e,
    snd (process_file i f w)
    = with_events (after_statement (invoked i f w)) [insert_error (name f) e].

End SpecificationWording.

(** ** Closed examples *)

Definition example_clock (n : nat) : string :=
  fstring ["2025-06-01 12:00:0"; decimal_nat n].

(** The decoder of the examples: an empty stream is no picture, every other
    stream is taken for one. *)
Definition example_pil (data : list byte) : option exn :=
  match data with
  | [] =>
      Some (UnidentifiedImageError
              "cannot identify image file <_io.BytesIO object at 0x7f2b5c0a1d50>")
  | _ :: _ => None
  end.

Definition example_world (d : @db_file plain_runtime)
           (answers : nat -> @model_outcome plain_runtime) : @world plain_runtime :=
  {| db := d; pending := None; open_conns := 0; trace := [];
     llm := answers; llm_calls := 0; pil := example_pil; clock := example_clock;
     ticks := 0 |}.

Definition answering (v : @pyval plain_runtime) : nat -> @model_outcome plain_runtime :=
  fun _ => Answered v.

Definition a_jpg : UploadedFile :=
  {| name := "a.jpg"; type_ := "image/jpeg"; content := [x4d; x61; x6e]; pos := 0 |}.

Definition b_png : UploadedFile :=
  {| name := "b.png"; type_ := "image/png"; content := [x4d; x61]; pos := 0 |}.

(** An upload that is no picture: a file without content. *)
Definition empty_txt : UploadedFile :=
  {| name := "notes.txt"; type_ := "text/plain"; content := []; pos := 0 |}.

Definition table_with_a : @table plain_runtime :=
  inserted fresh_table "2025-06-01 11:00:00" "a.jpg"
    (VText "Town hall") (VText "Town hall") (VText "A square.").

Definition world_with_a : @world plain_runtime :=
  example_world (Database (Some table_with_a)) (answering (JObj [])).

Definition empty_store (answers : nat -> @model_outcome plain_runtime)
  : @world plain_runtime :=
  example_world (Database (Some fresh_table)) answers.

(** The answers used in the examples. *)
Definition title_only : @pyval plain_runtime := JObj [("title", JStr "X")].


Definition null_title : @pyval plain_runtime :=
  JObj [("title", JNull); ("buildings", JStr "B"); ("description", JStr "D")].

Definition integer_title : @pyval plain_runtime := JObj [("title", JInt 5)].

Definition list_title : @pyval plain_runtime :=
  JObj [("title", JList [JStr "Town hall"])].

(** The file is no database; the file is a database without the table. *)
Definition no_database : @world plain_runtime :=
  example_world NotADatabase (answering (JObj [])).

Definition no_table : @world plain_runtime :=
  example_world (Database None) (answering (JObj [])).

(** ** Vocabulary of the further properties *)

Section CoverageVocabulary.
Context {RT : PyRuntime}.

(** The images shown, in order: grid column, bytes, caption. *)
Fixpoint images (tr : list event) : list (nat * list byte * string) :=
  match tr with
  | [] => []
  | StImage col data caption :: tr' => (col, data, caption) :: images tr'
  | _ :: tr' => images tr'
  end.

(** The notices shown, in order. *)
Fixpoint notices (tr : list event) : list (level * string) :=
  match tr with
  | [] => []
  | StNotice lv text :: tr' => (lv, text) :: notices tr'
  | _ :: tr' => notices tr'
  end.

(** What the grid shows for the files of a batch, the first of which has
    index [i]. *)
Fixpoint grid (i : nat) (files : list UploadedFile)
  : list (nat * list byte * string) :=
  match files with
  | [] => []
  | f :: rest =>
      ((i mod 4)%nat, skipn (pos f) (content f), name f) :: grid (S i) rest
  end.

(** The output of a batch in which every file is skipped. *)
Fixpoint skipped (i : nat) (files : list UploadedFile) : list event :=
  match files with
  | [] => []
  | f :: rest => shown i f :: already_analysed (name f) :: skipped (S i) rest
  end.

(** The download buttons offered. *)
Fixpoint downloads (tr : list event) : nat :=
  match tr with
  | [] => 0%nat
  | StDownloadButton _ _ _ :: tr' => S (downloads tr')
  | _ :: tr' => downloads tr'
  end.

(** The files the loop gets through: those in front of the first one
    whose bytes the decoder [p] refuses. *)
Fixpoint processed (p : list byte -> option exn) (files : list UploadedFile)
  : list UploadedFile :=
  match files with
  | [] => []
  | f :: rest =>
      match p (skipn (pos f) (content f)) with
      | None => f :: processed p rest
      | Some _ => []
      end
  end.

(** How the loop ends: with the exception of the decoder for the first
    file it refuses, if there is one. *)
Fixpoint batch_result (p : list byte -> option exn) (files : list UploadedFile)
  : result unit :=
  match files with
  | [] => Ret tt
  | f :: rest =>
      match p (skipn (pos f) (content f)) with
      | None => batch_result p rest
      | Some e => Raise e
      end
  end.

Definition is_textv (v : value) : bool :=
  match v with
  | VText _ => true
  | _ => false
  end.

Definition text_or_null (v : value) : bool :=
  match v with
  | VText _ | VNull => true
  | _ => false
  end.

(** A row as the INSERT of the script leaves it: the key holds the row id,
    name, title and time are text, buildings and description are text or
    NULL. *)
Definition row_ok (r : row) : bool :=
  match cells r with
  | [VInt i; n; title; buildings; description; time_added] =>
      Z.eqb i (rowid r) && is_textv n && is_textv title
      && text_or_null buildings && text_or_null description
      && is_textv time_added
  | _ => false
  end.

Definition rows_ok (t : table) : Prop := forallb row_ok (rows t) = true.

Definition is_dict (v : pyval) : bool :=
  match v with
  | JObj _ => true
  | _ => false
  end.

(** The integer fits the 64-bit INTEGER of the engine. *)
Definition in_int64 (z : Z) : bool := (int64_min <=? z) && (z <=? int64_max).

End CoverageVocabulary.

(** ** Reading base64 back

    The script only encodes.  The decoder below is the inverse used to show
    that the encoding loses nothing. *)

Fixpoint index_in (c : ascii) (s : string) : N :=
  match s with
  | EmptyString => 0%N
  | String c' s' => if Ascii.eqb c c' then 0%N else N.succ (index_in c s')
  end.

Definition b64_index (c : ascii) : N := index_in c b64_alphabet.

Definition byte_of_N (n : N) : byte :=
  match Byte.of_N n with
  | Some b => b
  | None => x00
  end.

Definition first_byte (i1 i2 : N) : byte :=
  byte_of_N (N.lor (N.shiftl i1 2) (N.shiftr i2 4)).

Definition second_byte (i2 i3 : N) : byte :=
  byte_of_N (N.lor (N.shiftl (N.land i2 15) 4) (N.shiftr i3 2)).

Definition third_byte (i3 i4 : N) : byte :=
  byte_of_N (N.lor (N.shiftl (N.land i3 3) 6) i4).

Fixpoint b64decode (s : string) : list byte :=
  match s with
  | String c1 (String c2 (String c3 (String c4 rest))) =>
      let i1 := b64_index c1 in
      let i2 := b64_index c2 in
      let i3 := b64_index c3 in
      let i4 := b64_index c4 in
      if Ascii.eqb c3 "=" then [first_byte i1 i2]
      else if Ascii.eqb c4 "=" then [first_byte i1 i2; second_byte i2 i3]
      else first_byte i1 i2 :: second_byte i2 i3 :: third_byte i3 i4
             :: b64decode rest
  | _ => []
  end.

(** A character of the base64 alphabet or the padding sign. *)
Definition b64_symbol (c : ascii) : bool :=
  existsb (Ascii.eqb c) (list_ascii_of_string b64_alphabet) || Ascii.eqb c "=".

Fixpoint all_chars (p : ascii -> bool) (s : string) : bool :=
  match s with
  | EmptyString => true
  | String c s' => p c && all_chars p s'
  end.

(** The numbers below [k]. *)
Definition below (k : nat) : list N := map N.of_nat (List.seq 0 k).

(** The checks on one and on two bytes that the proof of the round trip
    evaluates over all bytes. *)
Definition sextets_ok (x y : N) : bool :=
  let i1 := N.shiftr x 2 in
  let i2 := N.lor (N.shiftl (N.land x 3) 4) (N.shiftr y 4) in
  let i3 := N.shiftl (N.land y 15) 2 in
  (i1 <? 64)%N && (i2 <? 64)%N && (i3 <? 64)%N && (N.land y 63 <? 64)%N
  && (N.lor (N.shiftl i1 2) (N.shiftr i2 4) =? x)%N
  && (N.land i2 15 =? N.shiftr y 4)%N
  && (N.lor (N.shiftl i1 2) (N.shiftr (N.shiftl (N.land x 3) 4) 4) =? x)%N
  && (N.shiftl (N.land x 3) 4 <? 64)%N
  && (N.lor (N.shiftl (N.shiftr y 4) 4) (N.shiftr i3 2) =? y)%N.

Definition sextets_join_ok (y z : N) : bool :=
  let i3 := N.lor (N.shiftl (N.land y 15) 2) (N.shiftr z 6) in
  (i3 <? 64)%N
  && (N.shiftr i3 2 =? N.land y 15)%N
  && (N.land i3 3 =? N.shiftr z 6)%N
  && (N.lor (N.shiftl (N.shiftr y 4) 4) (N.land y 15) =? y)%N
  && (N.lor (N.shiftl (N.shiftr z 6) 6) (N.land z 63) =? z)%N.

Definition symbol_ok (n : N) : bool :=
  (b64_index (b64_char n) =? n)%N && negb (Ascii.eqb (b64_char n) "=").
(** ** Basic facts about the engine *)

Unset Implicit Arguments.

(** Two worlds built from the same fields are equal. *)
Ltac world_eq :=
  unfold with_events, invoked, after_statement, analysis_error, shown, spinner,
    request, set_trace, set_llm_calls, set_db, set_pending, set_open_conns,
    set_ticks;
  cbn [db pending open_conns trace llm llm_calls pil clock ticks];
  repeat rewrite <- app_assoc; reflexivity.


Section EngineFacts.
Context {RT : PyRuntime}.

Lemma sql_eq_text (v : value) (n : string) :
  sql_eq v (VText n) = true <-> v = VText n.
Proof.
  destruct v as [ | z | x | s]; simpl; split; intro H; try discriminate.
  - apply String.eqb_eq in H. now subst.
  - injection H as ->. apply String.eqb_refl.
Qed.

Lemma text_affinity_text (s : string) : text_affinity (VText s) = VText s.
Proof. reflexivity. Qed.

Lemma max_rowid_bound (rs : list row) (r : row) :
  In r rs -> rowid r <= max_rowid rs.
Proof.
  induction rs as [ | r0 rs IH]; simpl; intros Hin.
  - contradiction.
  - destruct Hin as [-> | Hin]; [ | specialize (IH Hin) ]; lia.
Qed.

Lemma next_rowid_fresh (t : table) (r : row) :
  In r (rows t) -> rowid r < next_rowid t.
Proof.
  intro Hin. apply max_rowid_bound in Hin. unfold next_rowid. lia.
Qed.

Lemma next_rowid_above_seq (t : table) : seq t < next_rowid t.
Proof. unfold next_rowid. lia. Qed.

(** The INSERT of the script against the table of the script, case by
    case. *)
Lemma exec_insert_image_data (t : table) (now : string) (vn vt vb vd : value) :
  columns t = image_data_columns ->
  exec_insert t now
    (combine ["image_name"; "title"; "buildings"; "description"] [vn; vt; vb; vd]) =
  if is_null (text_affinity vn) then
    inl (IntegrityError "NOT NULL constraint failed: image_data.image_name")
  else if is_null (text_affinity vt) then
    inl (IntegrityError "NOT NULL constraint failed: image_data.title")
  else if existsb (fun r => sql_eq (name_cell t r) (text_affinity vn)) (rows t) then
    inl (IntegrityError "UNIQUE constraint failed: image_data.image_name")
  else
    inr {| columns := image_data_columns;
           rows := rows t ++ [new_row t now (text_affinity vn) (text_affinity vt)
                                (text_affinity vb) (text_affinity vd)];
           seq := next_rowid t |}.
Proof.
  intro Hc. unfold exec_insert, name_cell. rewrite Hc.
  cbn [map image_data_columns new_cell col_pk_autoinc col_name supplied combine
       String.eqb Ascii.eqb Bool.eqb col_default store_value col_type zip_cells].
  unfold not_null_violation, unique_violation.
  cbn [find fst snd col_not_null col_unique andb is_null option_map].
  destruct (is_null (text_affinity vn)); [reflexivity | ].
  destruct (is_null (text_affinity vt)); [reflexivity | ].
  unfold taken. cbn [col_name].
  destruct (existsb _ (rows t)); reflexivity.
Qed.

End EngineFacts.

(** ** The three store operations, as functions of the world *)

Section StoreFacts.
Context {RT : PyRuntime}.

Lemma existsb_filter_length {A : Type} (p : A -> bool) (l : list A) :
  (0 <? Z.of_nat (List.length (filter p l))) = existsb p l.
Proof.
  induction l as [ | a l IH]; simpl; [reflexivity | ].
  destruct (p a); simpl; [ | exact IH].
  apply Z.ltb_lt. lia.
Qed.

Lemma count_known (t : table) (n : string) :
  columns t = image_data_columns ->
  (0 <? exec_count t "image_name" (VText n)) = known t n.
Proof.
  intro Hc. unfold exec_count, known, name_cell, compared.
  rewrite existsb_filter_length. rewrite Hc. reflexivity.
Qed.

Lemma image_exists_in_db_spec (w : world) (t : table) (n : string) :
  initialised w t ->
  image_exists_in_db n w = (Ret (known t n), after_statement w).
Proof.
  intros [Hdb Hc].
  unfold image_exists_in_db, bind, sqlite3_connect, execute, sqlite3_close, ret.
  cbn [db set_ticks set_pending set_open_conns pending]. rewrite Hdb.
  cbn [prepare]. rewrite Hc.
  change (has_column image_data_columns "image_name") with true.
  cbn [List.length placeholders Nat.eqb negb bind_params bind_param hd fetchone_0].
  rewrite count_known by exact Hc.
  destruct w; reflexivity.
Qed.

(** The bound value of a parameter does not depend on its position. *)
Lemma bind_param_pos (p q : nat) (v : pyval) (x : value) :
  bind_param p v = inr x -> bind_param q v = inr x.
Proof.
  destruct v; simpl; try (intros H; exact H); try discriminate.
Qed.

Lemma bind_param_fails (p q : nat) (v : pyval) (e : exn) :
  bind_param p v = inl e -> exists e', bind_param q v = inl e'.
Proof.
  destruct v; simpl; try discriminate; intros H; eauto.
Qed.

Lemma bindable_inv (v : pyval) :
  bindable v = true -> forall p, exists x, bind_param p v = inr x.
Proof.
  unfold bindable. destruct (bind_param 1 v) as [e | x] eqn:E; [discriminate | ].
  intros _ p. exists x. eapply bind_param_pos; exact E.
Qed.

Lemma not_bindable_inv (v : pyval) :
  bindable v = false -> forall p, exists e, bind_param p v = inl e.
Proof.
  unfold bindable. destruct (bind_param 1 v) as [e | x] eqn:E; [ | discriminate].
  intros _ p. eapply bind_param_fails; exact E.
Qed.

(** A binding failure is a type or range error, never a constraint
    violation. *)
Lemma bind_params_error (vs : list pyval) (p : nat) (e : exn) :
  bind_params p vs = inl e -> is_IntegrityError e = false.
Proof.
  revert p. induction vs as [ | v vs IH]; intros p; simpl; [discriminate | ].
  destruct (bind_param p v) as [e0 | x] eqn:E.
  - intros H. injection H as <-.
    destruct v; simpl in E; try discriminate;
      try (injection E as <-; reflexivity).
    destruct ((int64_min <=? z) && (z <=? int64_max)); [discriminate | ].
    injection E as <-. reflexivity.
  - destruct (bind_params (S p) vs) as [e1 | xs] eqn:E1; [ | discriminate].
    intros H. injection H as <-. exact (IH _ E1).
Qed.

Lemma insert_image_data_spec (w : world) (t : table) (n : string)
      (title buildings description : pyval) :
  initialised w t ->
  insert_image_data n title buildings description w =
  match bind_params 1 [JStr n; title; buildings; description] with
  | inl e => (Ret false, with_events (after_statement w) [insert_error n e])
  | inr vals =>
      match exec_insert t (clock w (S (ticks w)))
              (combine ["image_name"; "title"; "buildings"; "description"] vals) with
      | inl e =>
          (Ret false,
           with_events (after_statement w)
             [if is_IntegrityError e then duplicate_warning n
              else insert_error n e])
      | inr t' => (Ret true, set_db (after_statement w) (Database (Some t')))
      end
  end.
Proof.
  intros [Hdb Hc].
  unfold insert_image_data, bind, try_finally, try_except, sqlite3_connect,
    execute, sqlite3_close, commit, ret.
  cbn [db set_ticks set_pending set_open_conns pending]. rewrite Hdb.
  cbn [prepare]. rewrite Hc.
  change (find (fun n0 => negb (has_column image_data_columns n0))
            ["image_name"; "title"; "buildings"; "description"]) with (@None string).
  cbn [List.length placeholders Nat.eqb negb].
  destruct (bind_params 1 [JStr n; title; buildings; description])
    as [e | vals] eqn:Eb.
  - rewrite (bind_params_error _ _ _ Eb).
    unfold st_error, emit, bind, ret. destruct w; reflexivity.
  - cbn [clock ticks set_ticks set_pending set_open_conns].
    destruct (exec_insert t (clock w (S (ticks w))) _) as [e | t'].
    + destruct (is_IntegrityError e);
        unfold st_warning, st_error, emit, bind, ret; destruct w; reflexivity.
    + destruct w; reflexivity.
Qed.

End StoreFacts.

(** ** The controller, one file at a time *)

Section ControllerFacts.
Context {RT : PyRuntime}.

Lemma invocations_app (a b : list event) :
  invocations (a ++ b) = invocations a ++ invocations b.
Proof.
  induction a as [ | e a IH]; simpl; [reflexivity | ].
  destruct e; simpl; rewrite IH; reflexivity.
Qed.

Lemma initialised_after_statement (w : world) (t : table) :
  initialised w t -> initialised (after_statement w) t.
Proof. intros [H1 H2]. split; [exact H1 | exact H2]. Qed.

Lemma initialised_with_events (w : world) (t : table) (es : list event) :
  initialised w t -> initialised (with_events w es) t.
Proof. intros [H1 H2]. split; [exact H1 | exact H2]. Qed.

Lemma initialised_invoked (i : nat) (f : UploadedFile) (w : world) (t : table) :
  initialised w t -> initialised (invoked i f w) t.
Proof. intros [H1 H2]. split; [exact H1 | exact H2]. Qed.

(** Whatever the store holds, the existence check changes neither the
    file nor the output nor the count of model calls. *)
Lemma image_exists_in_db_frame (n : string) (w w1 : world) (r : result bool) :
  image_exists_in_db n w = (r, w1) ->
  db w1 = db w /\ trace w1 = trace w /\ llm_calls w1 = llm_calls w
  /\ llm w1 = llm w.
Proof.
  unfold image_exists_in_db, bind, sqlite3_connect, execute, sqlite3_close, ret.
  cbn [db set_ticks set_pending set_open_conns pending].
  destruct (db w) as [ | tbl] eqn:Hdb.
  - intros H. injection H as _ <-. simpl. auto.
  - destruct (prepare (SELECT_COUNT_WHERE "image_name") tbl) as [e | ].
    + intros H. injection H as _ <-. simpl. auto.
    + cbn [List.length placeholders Nat.eqb negb bind_params bind_param].
      destruct tbl as [t | ].
      * intros H. injection H as _ <-. simpl. auto.
      * intros H. injection H as _ <-. simpl. auto.
Qed.

(** A file that is no picture: the exception of the decoder leaves the
    iteration before anything is shown or asked. *)
Lemma process_file_undisplayable (i : nat) (f : UploadedFile) (w : world) (e : exn) :
  pil w (skipn (pos f) (content f)) = Some e ->
  process_file i f w = (Raise e, w).
Proof.
  intro H. unfold process_file, read, seek. cbn [name].
  unfold bind at 1. unfold image_open. rewrite H. reflexivity.
Qed.

(** A file whose name the check reports as known. *)
Lemma process_file_skips (i : nat) (f : UploadedFile) (w w1 : world) :
  displayable w f ->
  image_exists_in_db (name f) (with_events w [shown i f]) = (Ret true, w1) ->
  process_file i f w = (Ret tt, with_events w1 [already_analysed (name f)]).
Proof.
  intros Hd H. unfold process_file, read, seek. cbn [name].
  unfold bind at 1. unfold image_open. rewrite Hd.
  unfold bind at 1. unfold st_image, emit.
  change (set_trace w (trace w ++ [StImage (i mod 4) (skipn (pos f) (content f)) (name f)]))
    with (with_events w [shown i f]).
  unfold bind at 1. rewrite H. reflexivity.
Qed.

Lemma process_file_known (i : nat) (f : UploadedFile) (w : world) (t : table) :
  initialised w t -> displayable w f -> known t (name f) = true ->
  process_file i f w =
  (Ret tt, with_events (after_statement w) [shown i f; already_analysed (name f)]).
Proof.
  intros Hi Hd Hk.
  rewrite (process_file_skips i f w (after_statement (with_events w [shown i f]))).
  - unfold with_events, set_trace, after_statement. simpl.
    rewrite <- app_assoc. reflexivity.
  - exact Hd.
  - rewrite (image_exists_in_db_spec _ t (name f) (initialised_with_events w t [shown i f] Hi)).
    rewrite Hk. reflexivity.
Qed.

(** A file whose name is new: the outcome follows the answer of the
    model. *)
Lemma process_file_new (i : nat) (f : UploadedFile) (w : world) (t : table) :
  initialised w t -> displayable w f -> known t (name f) = false ->
  process_file i f w =
  match llm w (llm_calls w) with
  | Failed reason =>
      (Ret tt,
       with_events (invoked i f w) [analysis_error (name f) (ExternalError reason)])
  | Answered (JObj kv) =>
      (Ret tt,
       snd (insert_image_data (name f) (title_arg kv) (buildings_arg kv)
              (description_arg kv) (invoked i f w)))
  | Answered v =>
      (Ret tt,
       with_events (invoked i f w)
         [analysis_error (name f)
            (AttributeError
               (fstring ["'"; type_name v; "' object has no attribute 'get'"]))])
  end.
Proof.
  intros Hi Hd Hk. unfold process_file, read, seek. cbn [name].
  unfold bind at 1. unfold image_open. rewrite Hd.
  unfold bind at 1. unfold st_image, emit.
  change (set_trace w (trace w ++ [StImage (i mod 4) (skipn (pos f) (content f)) (name f)]))
    with (with_events w [shown i f]).
  unfold bind at 1.
  rewrite (image_exists_in_db_spec _ t (name f) (initialised_with_events w t [shown i f] Hi)).
  rewrite Hk.
  unfold bind at 1. unfold st_spinner, emit.
  unfold try_except, analyse, read. cbn [pos content name skipn].
  unfold encode_image_from_bytes.
  unfold bind at 1. unfold chain_invoke.
  cbn [llm llm_calls set_trace set_llm_calls after_statement with_events trace].
  destruct (llm w (llm_calls w)) as [v | reason].
  - destruct v; cbn [dict_get]; unfold bind, raise, ret, st_error, emit;
      try (f_equal; world_eq).
    replace (set_llm_calls _ _) with (invoked i f w) by world_eq.
    unfold title_arg, buildings_arg, description_arg.
    destruct (insert_image_data _ _ _ _ (invoked i f w)) as [[b | e] w2] eqn:E;
      [reflexivity | ].
    exfalso.
    rewrite (insert_image_data_spec _ t _ _ _ _ (initialised_invoked i f w t Hi)) in E.
    destruct (bind_params _ _); [discriminate | ].
    destruct (exec_insert _ _ _); discriminate.
  - unfold st_error, emit. f_equal. world_eq.
Qed.

End ControllerFacts.

(** ** The outcomes of an insert *)

Section InsertFacts.
Context {RT : PyRuntime}.

Lemma bind_params_insert (n : string) (title buildings description : pyval) :
  bind_params 1 [JStr n; title; buildings; description] =
  match bind_param 2 title with
  | inl e => inl e
  | inr vt =>
      match bind_param 3 buildings with
      | inl e => inl e
      | inr vb =>
          match bind_param 4 description with
          | inl e => inl e
          | inr vd => inr [VText n; vt; vb; vd]
          end
      end
  end.
Proof.
  cbn [bind_params bind_param].
  destruct (bind_param 2 title); [reflexivity | ].
  destruct (bind_param 3 buildings); [reflexivity | ].
  destruct (bind_param 4 description); reflexivity.
Qed.

Lemma bindable_all (n : string) (title buildings description : pyval) :
  bindable title && bindable buildings && bindable description = true ->
  exists vt vb vd,
    bind_param 2 title = inr vt /\ bind_param 3 buildings = inr vb
    /\ bind_param 4 description = inr vd
    /\ bind_params 1 [JStr n; title; buildings; description]
       = inr [VText n; vt; vb; vd].
Proof.
  intro H. apply andb_true_iff in H. destruct H as [H Hd].
  apply andb_true_iff in H. destruct H as [Ht Hb].
  destruct (bindable_inv _ Ht 2%nat) as [vt Et].
  destruct (bindable_inv _ Hb 3%nat) as [vb Eb].
  destruct (bindable_inv _ Hd 4%nat) as [vd Ed].
  exists vt, vb, vd. rewrite bind_params_insert, Et, Eb, Ed. auto.
Qed.

Lemma not_bindable_some (n : string) (title buildings description : pyval) :
  bindable title && bindable buildings && bindable description = false ->
  exists e, bind_params 1 [JStr n; title; buildings; description] = inl e.
Proof.
  intro H. rewrite bind_params_insert.
  destruct (bind_param 2 title) as [e | vt] eqn:Et; [eauto | ].
  destruct (bind_param 3 buildings) as [e | vb] eqn:Eb; [eauto | ].
  destruct (bind_param 4 description) as [e | vd] eqn:Ed; [eauto | ].
  exfalso.
  assert (Ht : bindable title = true)
    by (unfold bindable; erewrite bind_param_pos by exact Et; reflexivity).
  assert (Hb : bindable buildings = true)
    by (unfold bindable; erewrite bind_param_pos by exact Eb; reflexivity).
  assert (Hd : bindable description = true)
    by (unfold bindable; erewrite bind_param_pos by exact Ed; reflexivity).
  rewrite Ht, Hb, Hd in H. discriminate.
Qed.

(** The insert never raises; it is refused with an error notice when a
    value cannot be bound, refused with the duplicate warning when a
    constraint fails, and otherwise appends one row. *)
Lemma insert_image_data_cases (w : world) (t : table) (n : string)
      (title buildings description : pyval) :
  initialised w t ->
  (exists e,
      bind_params 1 [JStr n; title; buildings; description] = inl e
      /\ insert_image_data n title buildings description w
         = (Ret false, with_events (after_statement w) [insert_error n e]))
  \/ (exists vt vb vd,
        bind_params 1 [JStr n; title; buildings; description]
        = inr [VText n; vt; vb; vd]
        /\ ((is_null (text_affinity vt) = true \/ known t n = true)
            /\ insert_image_data n title buildings description w
               = (Ret false, with_events (after_statement w) [duplicate_warning n])
            \/ is_null (text_affinity vt) = false /\ known t n = false
               /\ insert_image_data n title buildings description w
                  = (Ret true,
                     set_db (after_statement w)
                       (Database
                          (Some (inserted t (clock w (S (ticks w))) n vt vb vd)))))).
Proof.
  intros Hi. rewrite (insert_image_data_spec w t n title buildings description Hi).
  rewrite bind_params_insert.
  destruct (bind_param 2 title) as [e | vt]; [left; eauto | ].
  destruct (bind_param 3 buildings) as [e | vb]; [left; eauto | ].
  destruct (bind_param 4 description) as [e | vd]; [left; eauto | ].
  right. exists vt, vb, vd. split; [reflexivity | ].
  destruct Hi as [_ Hc].
  rewrite (exec_insert_image_data t _ _ _ _ _ Hc).
  cbn [text_affinity is_null]. fold (known t n).
  destruct (is_null (text_affinity vt)); [left; auto | ].
  destruct (known t n); [left; auto | ].
  right. auto.
Qed.

Lemma initialised_inserted (w : world) (t : table) (now n : string)
      (vt vb vd : value) :
  initialised (set_db (after_statement w)
                 (Database (Some (inserted t now n vt vb vd))))
    (inserted t now n vt vb vd).
Proof. split; reflexivity. Qed.

(** Cells of the appended row. *)
Lemma new_row_cells (t : table) (now : string) (vn vt vb vd : value) :
  let r := new_row t now vn vt vb vd in
  cell image_data_columns r "id" = VInt (rowid r)
  /\ cell image_data_columns r "image_name" = vn
  /\ cell image_data_columns r "title" = vt
  /\ cell image_data_columns r "buildings" = vb
  /\ cell image_data_columns r "description" = vd
  /\ cell image_data_columns r "time_added" = VText now.
Proof. cbv zeta. repeat split; reflexivity. Qed.

Lemma known_false_names (t : table) (n : string) (r : row) :
  known t n = false -> In r (rows t) -> name_cell t r <> VText n.
Proof.
  unfold known. intros Hk Hin Heq.
  assert (H : existsb (fun r0 => sql_eq (name_cell t r0) (VText n)) (rows t) = true).
  { apply existsb_exists. exists r. split; [exact Hin | ].
    apply sql_eq_text. exact Heq. }
  congruence.
Qed.

Lemma known_true_names (t : table) (n : string) :
  known t n = true -> In (VText n) (map (name_cell t) (rows t)).
Proof.
  unfold known. intros Hk. apply existsb_exists in Hk.
  destruct Hk as [r [Hin Heq]]. apply sql_eq_text in Heq.
  rewrite <- Heq. apply in_map. exact Hin.
Qed.

(** Under the UNIQUE invariant a known name has exactly one record. *)
Lemma count_name_unique (t : table) (n : string) :
  unique_names t -> known t n = true -> count_name t n = 1%nat.
Proof.
  unfold unique_names, known, count_name.
  induction (rows t) as [ | r rs IH]; simpl; [discriminate | ].
  intros Hnd Hk. inversion Hnd as [ | x l Hnotin Hnd']; subst.
  destruct (sql_eq (name_cell t r) (VText n)) eqn:E.
  - simpl. f_equal.
    apply sql_eq_text in E.
    assert (Hnone : forall l0, ~ In (VText n) (map (name_cell t) l0) ->
              List.length (filter (fun r0 => sql_eq (name_cell t r0) (VText n)) l0)
              = 0%nat).
    { induction l0 as [ | r0 l0 IH0]; simpl; [reflexivity | ].
      intros Hn. destruct (sql_eq (name_cell t r0) (VText n)) eqn:E0.
      - apply sql_eq_text in E0. exfalso. apply Hn. left. exact E0.
      - apply IH0. intro. apply Hn. right. assumption. }
    apply Hnone. rewrite <- E. exact Hnotin.
  - simpl in Hk. apply IH; assumption.
Qed.

(** A successful insert keeps the names distinct. *)
Lemma unique_names_inserted (t : table) (now n : string) (vt vb vd : value) :
  columns t = image_data_columns ->
  unique_names t -> known t n = false ->
  unique_names (inserted t now n vt vb vd).
Proof.
  unfold unique_names. intros Hc Hnd Hk.
  cbn [inserted rows columns]. rewrite map_app. cbn [map].
  assert (Hsame : map (name_cell (inserted t now n vt vb vd)) (rows t)
                  = map (name_cell t) (rows t)).
  { apply map_ext. intro r. unfold name_cell. cbn [inserted columns].
    rewrite Hc. reflexivity. }
  rewrite Hsame.
  assert (Hnew : name_cell (inserted t now n vt vb vd)
                   (new_row t now (VText n) (text_affinity vt) (text_affinity vb)
                      (text_affinity vd)) = VText n) by reflexivity.
  rewrite Hnew.
  assert (Hnotin : ~ In (VText n) (map (name_cell t) (rows t))).
  { intro Hin. apply in_map_iff in Hin. destruct Hin as [r [Heq Hin]].
    exact (known_false_names t n r Hk Hin Heq). }
  clear Hsame Hnew Hk.
  induction (map (name_cell t) (rows t)) as [ | v l IH]; simpl.
  - constructor; [intros [] | constructor].
  - inversion Hnd as [ | x l' Hx Hl]; subst. constructor.
    + intro Hin. apply in_app_or in Hin. destruct Hin as [Hin | [Hin | []]].
      * exact (Hx Hin).
      * apply Hnotin. left. symmetry. exact Hin.
    + apply IH; [exact Hl | ]. intro. apply Hnotin. right. assumption.
Qed.

End InsertFacts.

(** ** The controller over a batch *)

Section BatchFacts.
Context {RT : PyRuntime}.

(** A new file either leaves the table as it was and reports one notice,
    or appends the row built from the answer. *)
Lemma process_file_new_cases (i : nat) (f : UploadedFile) (w : world) (t : table) :
  initialised w t -> displayable w f -> known t (name f) = false ->
  (exists lv text,
      process_file i f w
      = (Ret tt, with_events (after_statement (invoked i f w)) [StNotice lv text])
      \/ process_file i f w
         = (Ret tt, with_events (invoked i f w) [StNotice lv text]))
  \/ (exists kv vt vb vd,
        llm w (llm_calls w) = Answered (JObj kv)
        /\ bind_params 1 [JStr (name f); title_arg kv; buildings_arg kv;
                          description_arg kv]
           = inr [VText (name f); vt; vb; vd]
        /\ is_null (text_affinity vt) = false
        /\ process_file i f w
           = (Ret tt,
              set_db (after_statement (invoked i f w))
                (Database
                   (Some (inserted t (clock w (S (S (ticks w)))) (name f)
                            vt vb vd))))).
Proof.
  intros Hi Hd Hk. rewrite (process_file_new i f w t Hi Hd Hk).
  unfold analysis_error.
  destruct (llm w (llm_calls w)) as [v | reason]; [ | left; eauto].
  destruct v; try (left; eauto; fail).
  pose proof (initialised_invoked i f w t Hi) as Hi'.
  destruct (insert_image_data_cases (invoked i f w) t (name f) (title_arg kv)
              (buildings_arg kv) (description_arg kv) Hi')
    as [[e [_ E]] | [vt [vb [vd [Eb [[_ E] | [Hn [_ E]]]]]]]];
    rewrite E; cbn [snd]; unfold insert_error, duplicate_warning.
  - left. eauto.
  - left. eauto.
  - right. exists kv, vt, vb, vd. auto.
Qed.

(** The row of a new file, when one is written, is the row built from the
    dict the model answered. *)
Lemma process_file_row (i : nat) (f : UploadedFile) (w : world) (t t' : table)
      (r : row) :
  initialised w t -> displayable w f -> known t (name f) = false ->
  db (snd (process_file i f w)) = Database (Some t') ->
  In r (rows t') -> name_cell t' r = VText (name f) ->
  exists kv vt vb vd,
    llm w (llm_calls w) = Answered (JObj kv)
    /\ bind_param 2 (title_arg kv) = inr vt
    /\ bind_param 3 (buildings_arg kv) = inr vb
    /\ bind_param 4 (description_arg kv) = inr vd
    /\ t' = inserted t (clock w (S (S (ticks w)))) (name f) vt vb vd
    /\ r = new_row t (clock w (S (S (ticks w)))) (VText (name f))
             (text_affinity vt) (text_affinity vb) (text_affinity vd).
Proof.
  intros Hi Hd Hk Hdb Hin Hname.
  assert (Hold : db (snd (process_file i f w)) = db w -> False).
  { intro Hsame. rewrite Hsame in Hdb. destruct Hi as [Hw Hc].
    rewrite Hw in Hdb. injection Hdb as <-.
    exact (known_false_names t (name f) r Hk Hin Hname). }
  destruct (process_file_new_cases i f w t Hi Hd Hk)
    as [[lv [text [E | E]]] | [kv [vt [vb [vd [Ea [Eb [Hn E]]]]]]]].
  - exfalso. apply Hold. rewrite E. reflexivity.
  - exfalso. apply Hold. rewrite E. reflexivity.
  - rewrite E in Hdb. cbn [snd set_db db] in Hdb. injection Hdb as <-.
    exists kv, vt, vb, vd.
    rewrite bind_params_insert in Eb.
    destruct (bind_param 2 (title_arg kv)) as [e | vt0]; [discriminate | ].
    destruct (bind_param 3 (buildings_arg kv)) as [e | vb0]; [discriminate | ].
    destruct (bind_param 4 (description_arg kv)) as [e | vd0]; [discriminate | ].
    injection Eb as <- <- <-.
    repeat split; try reflexivity; try assumption.
    cbn [inserted rows] in Hin. apply in_app_or in Hin.
    destruct Hin as [Hin | [Hin | []]]; [ | symmetry; exact Hin].
    exfalso. apply (known_false_names t (name f) r Hk Hin).
    unfold name_cell in *. cbn [inserted columns] in Hname.
    destruct Hi as [_ Hc]. rewrite Hc. exact Hname.
Qed.

(** The row is written when the title binds to a non-null value and the
    other two fields bind. *)
Lemma process_file_persists (i : nat) (f : UploadedFile) (w : world) (t : table)
      (kv : list (string * pyval)) (vt vb vd : value) :
  initialised w t -> displayable w f -> known t (name f) = false ->
  llm w (llm_calls w) = Answered (JObj kv) ->
  bind_param 2 (title_arg kv) = inr vt ->
  bind_param 3 (buildings_arg kv) = inr vb ->
  bind_param 4 (description_arg kv) = inr vd ->
  is_null (text_affinity vt) = false ->
  process_file i f w
  = (Ret tt,
     set_db (after_statement (invoked i f w))
       (Database
          (Some (inserted t (clock w (S (S (ticks w)))) (name f) vt vb vd)))).
Proof.
  intros Hi Hd Hk Ha Et Eb Ed Hn.
  rewrite (process_file_new i f w t Hi Hd Hk), Ha.
  pose proof (initialised_invoked i f w t Hi) as Hi'.
  destruct (insert_image_data_cases (invoked i f w) t (name f) (title_arg kv)
              (buildings_arg kv) (description_arg kv) Hi')
    as [[e [E _]] | [vt' [vb' [vd' [E [[[Hn' | Hk'] _] | [_ [_ E']]]]]]]];
    rewrite bind_params_insert, Et, Eb, Ed in E; try discriminate;
    injection E as <- <- <-.
  - congruence.
  - congruence.
  - rewrite E'. reflexivity.
Qed.

Lemma displayable_same (w w' : world) (f : UploadedFile) :
  pil w' = pil w -> displayable w f -> displayable w' f.
Proof. unfold displayable. intros ->. exact (fun H => H). Qed.

(** Every iteration on a picture returns, and the store stays initialised
    with the old rows kept in place. *)
Lemma process_file_returns (i : nat) (f : UploadedFile) (w : world) (t : table) :
  initialised w t -> displayable w f ->
  exists w' t' more,
    process_file i f w = (Ret tt, w') /\ initialised w' t'
    /\ rows t' = rows t ++ more /\ open_conns w' = open_conns w
    /\ pil w' = pil w.
Proof.
  intros Hi Hd. destruct (known t (name f)) eqn:Hk.
  - rewrite (process_file_known i f w t Hi Hd Hk).
    exists (with_events (after_statement w) [shown i f; already_analysed (name f)]),
      t, [].
    rewrite app_nil_r. repeat split; try reflexivity; apply Hi.
  - destruct (process_file_new_cases i f w t Hi Hd Hk)
      as [[lv [text [E | E]]] | [kv [vt [vb [vd [_ [_ [_ E]]]]]]]]; rewrite E.
    + eexists; exists t, []. rewrite app_nil_r.
      repeat split; try reflexivity; apply Hi.
    + eexists; exists t, []. rewrite app_nil_r.
      repeat split; try reflexivity; apply Hi.
    + eexists; eexists; eexists. split; [reflexivity | ].
      split; [apply initialised_inserted | ]. repeat split.
Qed.

Lemma process_files_app (i : nat) (pre post : list UploadedFile) (w : world) :
  process_files i (pre ++ post) w =
  match process_files i pre w with
  | (Ret _, w1) => process_files (i + List.length pre) post w1
  | (Raise e, w1) => (Raise e, w1)
  end.
Proof.
  revert i w. induction pre as [ | f pre IH]; intros i w.
  - simpl. unfold ret. rewrite Nat.add_0_r. reflexivity.
  - cbn [app process_files List.length]. unfold bind.
    destruct (process_file i f w) as [[u | e] w1]; [ | reflexivity].
    rewrite IH. rewrite Nat.add_succ_r. reflexivity.
Qed.

(** No picture of a batch stops the batch. *)
Lemma process_files_returns (files : list UploadedFile) (i : nat) (w : world)
      (t : table) :
  initialised w t -> Forall (displayable w) files ->
  exists w' t' more,
    process_files i files w = (Ret tt, w') /\ initialised w' t'
    /\ rows t' = rows t ++ more /\ open_conns w' = open_conns w
    /\ pil w' = pil w.
Proof.
  revert i w t. induction files as [ | f files IH]; intros i w t Hi Hall.
  - exists w, t, []. rewrite app_nil_r. repeat split; try reflexivity; apply Hi.
  - inversion Hall as [ | f' files' Hd Hrest]; subst.
    destruct (process_file_returns i f w t Hi Hd)
      as [w1 [t1 [m1 [E1 [Hi1 [R1 [O1 P1]]]]]]].
    assert (Hall1 : Forall (displayable w1) files).
    { eapply Forall_impl; [ | exact Hrest]. intros g. apply displayable_same.
      exact P1. }
    destruct (IH (S i) w1 t1 Hi1 Hall1) as [w2 [t2 [m2 [E2 [Hi2 [R2 [O2 P2]]]]]]].
    exists w2, t2, (m1 ++ m2). cbn [process_files]. unfold bind. rewrite E1.
    split; [exact E2 | ]. split; [exact Hi2 | ].
    split; [rewrite R2, R1, app_assoc; reflexivity | ].
    split; congruence.
Qed.

End BatchFacts.

(** ** The names stay distinct *)

Section UniqueNames.
Context {RT : PyRuntime}.

Lemma unique_names_fresh : unique_names fresh_table.
Proof. unfold unique_names. cbn [fresh_table rows map]. constructor. Qed.

Lemma process_file_keeps_unique (i : nat) (f : UploadedFile) (w : world)
      (t : table) :
  initialised w t -> unique_names t ->
  exists r w' t',
    process_file i f w = (r, w') /\ initialised w' t' /\ unique_names t'
    /\ pil w' = pil w.
Proof.
  intros Hi Hu.
  destruct (pil w (skipn (pos f) (content f))) as [e | ] eqn:Hd.
  { rewrite (process_file_undisplayable i f w e Hd). exists (Raise e), w, t.
    split; [reflexivity | ]. split; [exact Hi | ]. split; [exact Hu | reflexivity]. }
  destruct (known t (name f)) eqn:Hk.
  - rewrite (process_file_known i f w t Hi Hd Hk). eexists; eexists; exists t.
    split; [reflexivity | ]. split; [apply Hi | ]. split; [exact Hu | reflexivity].
  - destruct (process_file_new_cases i f w t Hi Hd Hk)
      as [[lv [text [E | E]]] | [kv [vt [vb [vd [_ [_ [_ E]]]]]]]]; rewrite E.
    + eexists; eexists; exists t. split; [reflexivity | ].
      split; [apply Hi | ]. split; [exact Hu | reflexivity].
    + eexists; eexists; exists t. split; [reflexivity | ].
      split; [apply Hi | ]. split; [exact Hu | reflexivity].
    + eexists; eexists; eexists. split; [reflexivity | ].
      split; [apply initialised_inserted | ].
      split; [ | reflexivity].
      apply unique_names_inserted; [apply Hi | exact Hu | exact Hk].
Qed.

(** From the table as created, every batch leaves a table in which each
    name has at most one record, whether it runs to its end or not. *)
Lemma process_files_keep_unique (files : list UploadedFile) (i : nat)
      (w : world) (t : table) :
  initialised w t -> unique_names t ->
  exists r w' t',
    process_files i files w = (r, w') /\ initialised w' t'
    /\ unique_names t'.
Proof.
  revert i w t. induction files as [ | f files IH]; intros i w t Hi Hu.
  - exists (Ret tt), w, t. split; [reflexivity | ]. split; [exact Hi | exact Hu].
  - destruct (process_file_keeps_unique i f w t Hi Hu)
      as [r1 [w1 [t1 [E1 [Hi1 [Hu1 _]]]]]].
    cbn [process_files]. unfold bind. rewrite E1.
    destruct r1 as [u | e].
    + destruct (IH (S i) w1 t1 Hi1 Hu1) as [r2 [w2 [t2 [E2 [Hi2 Hu2]]]]].
      exists r2, w2, t2. split; [exact E2 | ]. split; [exact Hi2 | exact Hu2].
    + exists (Raise e), w1, t1. split; [reflexivity | ].
      split; [exact Hi1 | exact Hu1].
Qed.

End UniqueNames.

(** ** The store: duplicates *)

Section Duplicates.
Context {RT : PyRuntime}.

Lemma mentions_duplicate_warning (n : string) :
  mentions
    (fstring ["Bild '"; n;
              "' existiert bereits in der Datenbank und wird nicht erneut hinzugefügt."])
    n.
Proof. eexists; eexists; reflexivity. Qed.

Lemma mentions_insert_error (n : string) (e : exn) :
  mentions
    (fstring ["Fehler beim Einfügen von '"; n; "' in die Datenbank: "; str_exn e])
    n.
Proof.
  exists "Fehler beim Einfügen von '", ("' in die Datenbank: " ++ str_exn e)%string.
  reflexivity.
Qed.

(** C1 (amended).  For every image name already present in the store, a
    further call of the insert with that name leaves exactly one record for
    the name, returns the non-inserted result without raising, releases its
    connection and shows one notice that names the image: the duplicate
    warning when title, buildings and description are values a statement
    can bind, the error notice of the store when one of them is not (a list
    or a dict, or an integer outside 64 bits). *)
Theorem duplicate_insert_rejected (w : world) (t : table) (n : string)
        (title buildings description : pyval) :
  initialised w t -> unique_names t -> known t n = true ->
  exists w' lv text,
    insert_image_data n title buildings description w = (Ret false, w')
    /\ initialised w' t
    /\ count_name t n = 1%nat
    /\ open_conns w' = open_conns w
    /\ trace w' = trace w ++ [StNotice lv text]
    /\ mentions text n
    /\ lv = (if bindable title && bindable buildings && bindable description
             then LWarning else LError).
Proof.
  intros Hi Hu Hk.
  pose proof (count_name_unique t n Hu Hk) as Hcount.
  destruct (bindable title && bindable buildings && bindable description) eqn:Hb.
  - destruct (bindable_all n title buildings description Hb)
      as [vt [vb [vd [_ [_ [_ Eb]]]]]].
    destruct (insert_image_data_cases w t n title buildings description Hi)
      as [[e [E _]] | [vt' [vb' [vd' [_ [[_ E] | [_ [Hk' _]]]]]]]].
    + congruence.
    + eexists; exists LWarning; eexists. split; [exact E | ].
      split; [apply Hi | ]. split; [exact Hcount | ].
      split; [reflexivity | ]. split; [reflexivity | ].
      split; [apply mentions_duplicate_warning | reflexivity].
    + congruence.
  - destruct (not_bindable_some n title buildings description Hb) as [e Eb].
    destruct (insert_image_data_cases w t n title buildings description Hi)
      as [[e' [_ E]] | [vt' [vb' [vd' [E _]]]]].
    + eexists; exists LError; eexists. split; [exact E | ].
      split; [apply Hi | ]. split; [exact Hcount | ].
      split; [reflexivity | ]. split; [reflexivity | ].
      split; [apply mentions_insert_error | reflexivity].
    + congruence.
Qed.

(** The same, from the first insert on: after an insert that succeeded, a
    second one with the same name is refused and the name has one record. *)
Lemma second_insert_rejected (w w1 : world) (t : table) (n : string)
      (title buildings description title2 buildings2 description2 : pyval) :
  initialised w t -> unique_names t ->
  insert_image_data n title buildings description w = (Ret true, w1) ->
  exists t1 w2,
    initialised w1 t1 /\ count_name t1 n = 1%nat
    /\ insert_image_data n title2 buildings2 description2 w1 = (Ret false, w2)
    /\ initialised w2 t1.
Proof.
  intros Hi Hu E.
  destruct (insert_image_data_cases w t n title buildings description Hi)
    as [[e [_ E']] | [vt [vb [vd [_ [[_ E'] | [_ [Hk E']]]]]]]];
    rewrite E' in E; try discriminate.
  injection E as <-.
  set (t1 := inserted t (clock w (S (ticks w))) n vt vb vd).
  assert (Hi1 : initialised
                  (set_db (after_statement w) (Database (Some t1))) t1)
    by apply initialised_inserted.
  assert (Hu1 : unique_names t1)
    by (apply unique_names_inserted; [apply Hi | exact Hu | exact Hk]).
  assert (Hk1 : known t1 n = true).
  { unfold known. apply existsb_exists. eexists. split.
    - unfold t1. cbn [inserted rows]. apply in_or_app. right. left. reflexivity.
    - apply sql_eq_text. reflexivity. }
  exists t1.
  destruct (insert_image_data_cases _ t1 n title2 buildings2 description2 Hi1)
    as [[e [_ E2]] | [vt2 [vb2 [vd2 [_ [[_ E2] | [_ [Hk2 _]]]]]]]].
  - eexists. split; [exact Hi1 | ].
    split; [exact (count_name_unique t1 n Hu1 Hk1) | ].
    split; [exact E2 | apply Hi1].
  - eexists. split; [exact Hi1 | ].
    split; [exact (count_name_unique t1 n Hu1 Hk1) | ].
    split; [exact E2 | apply Hi1].
  - congruence.
Qed.

End Duplicates.

(** ** The extraction post-processing *)

Section PostProcessing.
Context {RT : PyRuntime}.

Lemma get_or_absent (kv : list (string * pyval)) (key : string) (d : pyval) :
  lookup kv key = None -> get_or kv key d = d.
Proof. unfold get_or. intros ->. reflexivity. Qed.

Lemma get_or_present (kv : list (string * pyval)) (key : string) (d v : pyval) :
  lookup kv key = Some v -> get_or kv key d = v.
Proof. unfold get_or. intros ->. reflexivity. Qed.


Lemma bind_text (p : nat) (s : string) (v : value) :
  bind_param p (JStr s) = inr v -> text_affinity v = VText s.
Proof. simpl. intros H. injection H as <-. reflexivity. Qed.

(** C2.  For every answer of the extraction, each of the keys title,
    buildings, description that is absent from it is replaced by its
    default before the insert: the values handed to the store are
    ["No title"], ["No buildings identified"], ["No description"] for the
    absent keys, any row persisted for the image holds these texts in the
    columns of the absent keys, and an answer that is just [{"title": x}]
    persists the row with title [x] and the two defaults.  The upload is
    one the decoder accepts ([displayable]); any other ends the run before
    the extraction. *)
Theorem missing_keys_defaulted (i : nat) (f : UploadedFile) (w : world)
        (t : table) (resp : pyval) :
  initialised w t -> displayable w f -> known t (name f) = false ->
  llm w (llm_calls w) = Answered resp ->
  (forall kv, resp = JObj kv ->
     snd (process_file i f w)
     = snd (insert_image_data (name f) (title_arg kv) (buildings_arg kv)
              (description_arg kv) (invoked i f w))
     /\ (lookup kv "title" = None -> title_arg kv = JStr "No title")
     /\ (lookup kv "buildings" = None ->
         buildings_arg kv = JStr "No buildings identified")
     /\ (lookup kv "description" = None ->
         description_arg kv = JStr "No description"))
  /\ (forall t' r,
        db (snd (process_file i f w)) = Database (Some t') ->
        In r (rows t') -> name_cell t' r = VText (name f) ->
        (key_absent resp "title" ->
         cell (columns t') r "title" = VText "No title")
        /\ (key_absent resp "buildings" ->
            cell (columns t') r "buildings" = VText "No buildings identified")
        /\ (key_absent resp "description" ->
            cell (columns t') r "description" = VText "No description"))
  /\ (forall x, resp = JObj [("title", JStr x)] ->
        db (snd (process_file i f w))
        = Database
            (Some (inserted t (clock w (S (S (ticks w)))) (name f) (VText x)
                     (VText "No buildings identified") (VText "No description")))).
Proof.
  intros Hi Hp Hk Ha. split; [ | split].
  - intros kv ->. split.
    + rewrite (process_file_new i f w t Hi Hp Hk), Ha. reflexivity.
    + unfold title_arg, buildings_arg, description_arg.
      repeat split; intros H; rewrite (get_or_absent _ _ _ H); reflexivity.
  - intros t' r Hdb Hin Hname.
    destruct (process_file_row i f w t t' r Hi Hp Hk Hdb Hin Hname)
      as [kv [vt [vb [vd [Ha' [Et [Eb [Ed [-> ->]]]]]]]]].
    rewrite Ha in Ha'. injection Ha' as ->. cbn [key_absent].
    cbn [inserted columns].
    destruct (new_row_cells t (clock w (S (S (ticks w)))) (VText (name f))
                (text_affinity vt) (text_affinity vb) (text_affinity vd))
      as [_ [_ [Ct [Cb [Cd _]]]]].
    rewrite Ct, Cb, Cd.
    unfold title_arg, buildings_arg, description_arg in *.
    repeat split; intros H; rewrite (get_or_absent _ _ _ H) in *.
    + exact (bind_text _ _ _ Et).
    + exact (bind_text _ _ _ Eb).
    + exact (bind_text _ _ _ Ed).
  - intros x ->.
    rewrite (process_file_persists i f w t [("title", JStr x)]
               (VText x) (VText "No buildings identified") (VText "No description")
               Hi Hp Hk Ha); reflexivity.
Qed.


End PostProcessing.

(** ** The controller: skipping, requests, failures *)

Section Controller.
Context {RT : PyRuntime}.

(** C4.  For every uploaded image of a batch, if the existence check for
    its file name returns true, the model is not invoked for it: its
    iteration shows the image and the "already analysed" notice, sends no
    request, leaves the table as it is, and the batch goes on with the next
    image.  The upload is one the decoder accepts ([displayable]), so that
    the check is reached. *)
Theorem existence_short_circuit (i : nat) (pre post : list UploadedFile)
        (f : UploadedFile) (w w1 : world) :
  process_files i pre w = (Ret tt, w1) ->
  displayable w1 f ->
  fst (image_exists_in_db (name f)
         (with_events w1 [shown (i + List.length pre) f])) = Ret true ->
  exists w2,
    process_file (i + List.length pre) f w1 = (Ret tt, w2)
    /\ trace w2
       = trace w1 ++ [shown (i + List.length pre) f; already_analysed (name f)]
    /\ invocations (trace w2) = invocations (trace w1)
    /\ llm_calls w2 = llm_calls w1
    /\ db w2 = db w1
    /\ process_files i (pre ++ f :: post) w
       = process_files (S (i + List.length pre)) post w2.
Proof.
  intros Hpre Hp Hcheck.
  destruct (image_exists_in_db (name f)
              (with_events w1 [shown (i + List.length pre) f]))
    as [r wc] eqn:E.
  cbn [fst] in Hcheck. subst r.
  destruct (image_exists_in_db_frame _ _ _ _ E) as [Hdb [Htr [Hcalls _]]].
  pose proof (process_file_skips _ f w1 wc Hp E) as Hskip.
  exists (with_events wc [already_analysed (name f)]).
  split; [exact Hskip | ].
  assert (Ht : trace (with_events wc [already_analysed (name f)])
               = trace w1 ++ [shown (i + List.length pre) f;
                              already_analysed (name f)]).
  { cbn [with_events set_trace trace]. rewrite Htr.
    cbn [with_events set_trace trace]. rewrite <- app_assoc. reflexivity. }
  split; [exact Ht | ].
  split; [rewrite Ht, invocations_app, app_nil_r; reflexivity | ].
  split; [exact Hcalls | ].
  split; [exact Hdb | ].
  rewrite process_files_app, Hpre. cbn [process_files]. unfold bind at 1.
  rewrite Hskip. reflexivity.
Qed.



End Controller.

(** ** Values the store cannot bind *)

Section Refusals.
Context {RT : PyRuntime}.

Lemma bind_container (p : nat) (v : pyval) :
  is_container v = true -> bind_param p v = inl (unsupported p v).
Proof. destruct v; simpl; intros H; try discriminate; reflexivity. Qed.

(** C10 (amended).  The joining of lists is applied to buildings and
    description only.  For every answer whose title is a list or a dict,
    the value reaches the store as it is, the binding of the second
    parameter fails, the error notice of the store names the image and no
    row is written.  The upload is one the decoder accepts
    ([displayable]). *)
Theorem container_title_refused (i : nat) (f : UploadedFile) (w : world)
        (t : table) (kv : list (string * pyval)) (v : pyval) :
  initialised w t -> displayable w f -> known t (name f) = false ->
  llm w (llm_calls w) = Answered (JObj kv) ->
  lookup kv "title" = Some v -> is_container v = true ->
  title_arg kv = v
  /\ process_file i f w
     = (Ret tt,
        with_events (after_statement (invoked i f w))
          [insert_error (name f) (unsupported 2 v)])
  /\ db (snd (process_file i f w)) = db w
  /\ mentions
       (fstring ["Fehler beim Einfügen von '"; name f; "' in die Datenbank: ";
                 str_exn (unsupported 2 v)])
       (name f).
Proof.
  intros Hi Hp Hk Ha Hv Hc.
  assert (Ht : title_arg kv = v)
    by (unfold title_arg; apply get_or_present; exact Hv).
  split; [exact Ht | ].
  assert (E : process_file i f w
              = (Ret tt,
                 with_events (after_statement (invoked i f w))
                   [insert_error (name f) (unsupported 2 v)])).
  { rewrite (process_file_new i f w t Hi Hp Hk), Ha.
    rewrite (insert_image_data_spec (invoked i f w) t (name f) (title_arg kv)
               (buildings_arg kv) (description_arg kv)
               (initialised_invoked i f w t Hi)).
    rewrite bind_params_insert, Ht, (bind_container 2 v Hc). reflexivity. }
  split; [exact E | ]. split; [rewrite E; reflexivity | ].
  apply mentions_insert_error.
Qed.

End Refusals.

(** ** The store: set-up, connections, ids *)

Section Store.
Context {RT : PyRuntime}.

Lemma setup_database_spec (w : world) (tbl : option table) :
  db w = Database tbl ->
  setup_database w
  = (Ret tt,
     set_db (after_statement w)
       (Database (Some (match tbl with
                        | Some t => t
                        | None => fresh_table
                        end)))).
Proof.
  intros Hdb.
  unfold setup_database, bind, sqlite3_connect, execute, sqlite3_close, commit, ret.
  cbn [db set_ticks set_pending set_open_conns set_db pending]. rewrite Hdb.
  cbn [prepare List.length placeholders Nat.eqb negb bind_params].
  destruct tbl as [t | ];
    cbn [db set_ticks set_pending set_open_conns set_db pending];
    unfold after_statement, set_db, fresh_table; destruct w; cbn in *;
    subst; reflexivity.
Qed.

(** C7.  Setting up the database is idempotent.  When the table exists the
    call changes nothing in it, raises nothing and shows nothing; when the
    table is absent it creates the empty table with an auto-increment
    integer key [id], a unique non-null text [image_name], a non-null text
    [title], nullable texts [buildings] and [description], and [time_added]
    defaulting to the time of the store; a second call then changes
    nothing. *)
Theorem setup_database_idempotent (w : world) (tbl : option table) :
  db w = Database tbl ->
  exists w',
    setup_database w = (Ret tt, w')
    /\ db w' = Database (Some (match tbl with
                               | Some t => t
                               | None => fresh_table
                               end))
    /\ trace w' = trace w
    /\ open_conns w' = open_conns w
    /\ (exists w'', setup_database w' = (Ret tt, w'') /\ db w'' = db w')
    /\ rows fresh_table = [] /\ seq fresh_table = 0
    /\ map (fun c => (col_name c, col_type c)) (columns fresh_table)
       = [("id", INTEGER); ("image_name", TEXT); ("title", TEXT);
          ("buildings", TEXT); ("description", TEXT); ("time_added", DATETIME)]
    /\ map col_name (filter col_pk_autoinc (columns fresh_table)) = ["id"]
    /\ map col_name (filter col_not_null (columns fresh_table))
       = ["image_name"; "title"]
    /\ map col_name (filter col_unique (columns fresh_table)) = ["image_name"]
    /\ map (fun c => (col_name c, col_default c))
         (filter (fun c => match col_default c with
                           | Some _ => true
                           | None => false
                           end) (columns fresh_table))
       = [("time_added", Some CURRENT_TIMESTAMP)].
Proof.
  intros Hdb. rewrite (setup_database_spec w tbl Hdb). eexists.
  split; [reflexivity | ]. split; [reflexivity | ].
  split; [reflexivity | ]. split; [reflexivity | ].
  split; [ | repeat split; reflexivity].
  eexists.
  rewrite (setup_database_spec
             (set_db (after_statement w)
                (Database (Some (match tbl with
                                 | Some t => t
                                 | None => fresh_table
                                 end)))) _ eq_refl).
  split; reflexivity.
Qed.

(** The insert releases its connection on every path and never raises,
    whatever the file holds. *)
Lemma insert_image_data_closes (w : world) (n : string)
      (title buildings description : pyval) :
  exists ok w',
    insert_image_data n title buildings description w = (Ret ok, w')
    /\ open_conns w' = open_conns w.
Proof.
  unfold insert_image_data, bind, try_finally, try_except, sqlite3_connect,
    execute, sqlite3_close, commit, ret.
  cbn [db set_ticks set_pending set_open_conns pending].
  destruct (db w) as [ | tbl].
  - cbn. eexists; eexists; split; reflexivity.
  - destruct (prepare _ tbl) as [e | ].
    + destruct (is_IntegrityError e); cbn; eexists; eexists; split; reflexivity.
    + cbn [List.length placeholders Nat.eqb negb].
      destruct (bind_params 1 [JStr n; title; buildings; description]) as [e | vals].
      * destruct (is_IntegrityError e); cbn; eexists; eexists; split; reflexivity.
      * destruct tbl as [t | ].
        -- destruct (exec_insert t _ _) as [e | t'].
           ++ destruct (is_IntegrityError e); cbn; eexists; eexists;
                split; reflexivity.
           ++ cbn. eexists; eexists; split; reflexivity.
        -- cbn. eexists; eexists; split; reflexivity.
Qed.

(** The two other operations close their connection when they return. *)
Lemma setup_database_closes (w w' : world) :
  setup_database w = (Ret tt, w') -> open_conns w' = open_conns w.
Proof.
  destruct (db w) as [ | tbl] eqn:Hdb.
  - unfold setup_database, bind, sqlite3_connect, execute.
    cbn [db set_ticks set_pending set_open_conns]. rewrite Hdb. discriminate.
  - rewrite (setup_database_spec w tbl Hdb). intros H. injection H as <-.
    reflexivity.
Qed.

Lemma image_exists_in_db_closes (w w' : world) (n : string) (b : bool) :
  image_exists_in_db n w = (Ret b, w') -> open_conns w' = open_conns w.
Proof.
  unfold image_exists_in_db, bind, sqlite3_connect, execute, sqlite3_close, ret.
  cbn [db set_ticks set_pending set_open_conns pending].
  destruct (db w) as [ | tbl]; [discriminate | ].
  destruct (prepare _ tbl) as [e | ]; [discriminate | ].
  cbn [List.length placeholders Nat.eqb negb bind_params bind_param].
  destruct tbl as [t | ]; [ | discriminate].
  intros H. injection H as _ <-. reflexivity.
Qed.

(** They leave it open when the statement raises. *)
Lemma setup_database_leaks (w : world) :
  db w = NotADatabase ->
  setup_database w = (Raise (DatabaseError "file is not a database"), leaked w).
Proof.
  intros Hdb. unfold setup_database, bind, sqlite3_connect, execute.
  cbn [db set_ticks set_pending set_open_conns]. rewrite Hdb.
  unfold leaked. destruct w; cbn in *; subst; reflexivity.
Qed.

Lemma image_exists_in_db_leaks (w : world) (n : string) :
  db w = Database None ->
  image_exists_in_db n w
  = (Raise (OperationalError "no such table: image_data"), leaked w).
Proof.
  intros Hdb. unfold image_exists_in_db, bind, sqlite3_connect, execute.
  cbn [db set_ticks set_pending set_open_conns pending]. rewrite Hdb.
  cbn [prepare]. unfold leaked. destruct w; cbn in *; subst; reflexivity.
Qed.

End Store.

(** ** Names after an insert *)

Section NamesAfterInsert.
Context {RT : PyRuntime}.

Lemma names_known (t : table) (n : string) :
  In (VText n) (map (name_cell t) (rows t)) -> known t n = true.
Proof.
  intros Hin. apply in_map_iff in Hin. destruct Hin as [r [Heq Hin]].
  unfold known. apply existsb_exists. exists r. split; [exact Hin | ].
  apply sql_eq_text. exact Heq.
Qed.

Lemma name_cell_inserted (t : table) (now n : string) (vt vb vd : value) (r : row) :
  columns t = image_data_columns ->
  name_cell (inserted t now n vt vb vd) r = name_cell t r.
Proof. intros Hc. unfold name_cell. cbn [inserted columns]. rewrite Hc. reflexivity. Qed.

Lemma existsb_same {A : Type} (p q : A -> bool) (l : list A) :
  (forall a, p a = q a) -> existsb p l = existsb q l.
Proof.
  intros H. induction l as [ | a l IH]; simpl; [reflexivity | ].
  rewrite H, IH. reflexivity.
Qed.

Lemma known_inserted (t : table) (now n m : string) (vt vb vd : value) :
  columns t = image_data_columns ->
  known (inserted t now n vt vb vd) m = known t m || String.eqb n m.
Proof.
  intros Hc. unfold known. cbn [inserted rows]. rewrite existsb_app.
  f_equal.
  - apply existsb_same. intros r. rewrite (name_cell_inserted t now n vt vb vd r Hc).
    reflexivity.
  - cbn [existsb]. rewrite orb_false_r. reflexivity.
Qed.

End NamesAfterInsert.

(** ** Row ids *)

Section Ids.
Context {RT : PyRuntime}.

Lemma sorted_snoc (l : list Z) (y : Z) :
  StronglySorted Z.lt l -> Forall (fun x => x < y) l ->
  StronglySorted Z.lt (l ++ [y]).
Proof.
  induction l as [ | x l IH]; simpl; intros Hs Hf.
  - constructor; constructor.
  - inversion Hs as [ | a l' Hs' Hx]; subst.
    inversion Hf as [ | a l' Hxy Hf']; subst.
    constructor; [apply IH; assumption | ].
    apply Forall_app. split; [exact Hx | constructor; [exact Hxy | constructor]].
Qed.

Lemma ids_below_next (t : table) : Forall (fun x => x < next_rowid t) (ids t).
Proof.
  unfold ids. apply Forall_forall. intros x Hin. apply in_map_iff in Hin.
  destruct Hin as [r [<- Hin]]. apply next_rowid_fresh. exact Hin.
Qed.

Lemma ids_inserted (t : table) (now n : string) (vt vb vd : value) :
  ids (inserted t now n vt vb vd) = ids t ++ [next_rowid t].
Proof. unfold ids. cbn [inserted rows]. rewrite map_app. reflexivity. Qed.

(** A successful insert appends one row whose id is above every id of the
    table and above the largest id ever assigned. *)
Lemma insert_assigns_next (w w' : world) (t : table) (n : string)
      (title buildings description : pyval) :
  initialised w t ->
  insert_image_data n title buildings description w = (Ret true, w') ->
  exists vt vb vd,
    w' = set_db (after_statement w)
           (Database (Some (inserted t (clock w (S (ticks w))) n vt vb vd)))
    /\ known t n = false.
Proof.
  intros Hi E.
  destruct (insert_image_data_cases w t n title buildings description Hi)
    as [[e [_ E']] | [vt [vb [vd [_ [[_ E'] | [_ [Hk E']]]]]]]];
    rewrite E' in E; try discriminate.
  injection E as <-. exists vt, vb, vd. auto.
Qed.

Lemma insert_all_ids (calls : list (string * pyval * pyval * pyval)) :
  forall (w : world) (t : table),
    initialised w t -> StronglySorted Z.lt (ids t) ->
    exists oks w' t' more,
      insert_all calls w = (Ret oks, w') /\ initialised w' t'
      /\ ids t' = ids t ++ more
      /\ StronglySorted Z.lt (ids t')
      /\ Forall (fun x => seq t < x) more
      /\ seq t <= seq t'
      /\ List.length more = count_occ bool_dec oks true.
Proof.
  induction calls as [ | [[[n title] buildings] description] calls IH];
    intros w t Hi Hs.
  - exists [], w, t, []. rewrite app_nil_r.
    split; [reflexivity | ]. split; [exact Hi | ]. split; [reflexivity | ].
    split; [exact Hs | ]. split; [constructor | ]. split; [lia | reflexivity].
  - cbn [insert_all]. unfold bind at 1.
    destruct (insert_image_data_cases w t n title buildings description Hi)
      as [[e [_ E]] | [vt [vb [vd [_ [[_ E] | [_ [Hk E]]]]]]]]; rewrite E.
    + destruct (IH (with_events (after_statement w) [insert_error n e]) t
                  (initialised_with_events _ t _ (initialised_after_statement w t Hi))
                  Hs)
        as [oks [w' [t' [more [E' [Hi' [Hids [Hs' [Hf [Hseq Hlen]]]]]]]]]].
      exists (false :: oks), w', t', more. unfold bind, ret. rewrite E'.
      split; [reflexivity | ]. split; [exact Hi' | ]. split; [exact Hids | ].
      split; [exact Hs' | ]. split; [exact Hf | ]. split; [exact Hseq | ].
      exact Hlen.
    + destruct (IH (with_events (after_statement w) [duplicate_warning n]) t
                  (initialised_with_events _ t _ (initialised_after_statement w t Hi))
                  Hs)
        as [oks [w' [t' [more [E' [Hi' [Hids [Hs' [Hf [Hseq Hlen]]]]]]]]]].
      exists (false :: oks), w', t', more. unfold bind, ret. rewrite E'.
      split; [reflexivity | ]. split; [exact Hi' | ]. split; [exact Hids | ].
      split; [exact Hs' | ]. split; [exact Hf | ]. split; [exact Hseq | ].
      exact Hlen.
    + assert (Hs1 : StronglySorted Z.lt
                      (ids (inserted t (clock w (S (ticks w))) n vt vb vd))).
      { rewrite ids_inserted. apply sorted_snoc;
          [exact Hs | apply ids_below_next]. }
      destruct (IH _ _ (initialised_inserted w t (clock w (S (ticks w))) n vt vb vd)
                  Hs1)
        as [oks [w' [t' [more [E' [Hi' [Hids [Hs' [Hf [Hseq Hlen]]]]]]]]]].
      exists (true :: oks), w', t', (next_rowid t :: more).
      unfold bind, ret. rewrite E'.
      pose proof (next_rowid_above_seq t) as Hnext.
      cbn [inserted seq] in Hf, Hseq.
      split; [reflexivity | ]. split; [exact Hi' | ].
      split; [rewrite Hids, ids_inserted, <- app_assoc; reflexivity | ].
      split; [exact Hs' | ].
      split; [constructor; [exact Hnext | ];
              eapply Forall_impl; [ | exact Hf]; cbn; intros; lia | ].
      split; [lia | ].
      cbn [List.length count_occ]. destruct (bool_dec true true); [ | congruence].
      rewrite Hlen. reflexivity.
Qed.

(** An insert of a new name with a text title and values that can be
    bound for the other two fields succeeds. *)
Lemma insert_text_succeeds (w : world) (t : table) (n x : string)
      (buildings description : pyval) :
  initialised w t -> known t n = false ->
  bindable buildings && bindable description = true ->
  exists vb vd,
    insert_image_data n (JStr x) buildings description w
    = (Ret true,
       set_db (after_statement w)
         (Database
            (Some (inserted t (clock w (S (ticks w))) n (VText x) vb vd)))).
Proof.
  intros Hi Hk Hb.
  destruct (bindable_all n (JStr x) buildings description Hb)
    as [vt [vb [vd [Et [_ [_ Eall]]]]]].
  cbn [bind_param] in Et. injection Et as <-.
  destruct (insert_image_data_cases w t n (JStr x) buildings description Hi)
    as [[e [E _]] | [vt' [vb' [vd' [E [[[Hn | Hk'] _] | [_ [_ E']]]]]]]];
    rewrite Eall in E; try discriminate; injection E as <- <- <-.
  - discriminate Hn.
  - congruence.
  - exists vb, vd. exact E'.
Qed.

(** C9.  The id is assigned by the store.  An insert of a new name with a
    text title succeeds, and every successful insert appends one row whose
    id, held in the column [id], is one more than the largest id ever
    assigned, hence greater than every id in the table, so that across any
    sequence of inserts the ids of the table stay strictly increasing in
    insertion order and no id is used again (a refused insert takes none);
    two inserts of different names into the empty store succeed and get
    the ids 1 and 2 in that order. *)
Theorem ids_strictly_increase (w : world) (t : table) :
  initialised w t -> StronglySorted Z.lt (ids t) ->
  (forall n x buildings description,
      known t n = false ->
      bindable buildings && bindable description = true ->
      exists w' t' r,
        insert_image_data n (JStr x) buildings description w = (Ret true, w')
        /\ initialised w' t' /\ rows t' = rows t ++ [r]
        /\ cell (columns t') r "id" = VInt (rowid r)
        /\ rowid r = Z.max (seq t) (max_rowid (rows t)) + 1)
  /\ (forall n title buildings description w',
        insert_image_data n title buildings description w = (Ret true, w') ->
        exists t' r,
          initialised w' t' /\ rows t' = rows t ++ [r]
          /\ cell (columns t') r "id" = VInt (rowid r)
          /\ Forall (fun x => x < rowid r) (ids t)
          /\ seq t < rowid r
          /\ seq t' = rowid r
          /\ StronglySorted Z.lt (ids t'))
  /\ (forall calls,
        exists oks w' t' more,
          insert_all calls w = (Ret oks, w') /\ initialised w' t'
          /\ ids t' = ids t ++ more
          /\ StronglySorted Z.lt (ids t')
          /\ Forall (fun x => seq t < x) more
          /\ List.length more = count_occ bool_dec oks true)
  /\ (rows t = [] -> seq t = 0 ->
      forall n1 x1 buildings1 description1 n2 x2 buildings2 description2,
        n1 <> n2 ->
        bindable buildings1 && bindable description1 = true ->
        bindable buildings2 && bindable description2 = true ->
        exists w1 w2 t2,
          insert_image_data n1 (JStr x1) buildings1 description1 w = (Ret true, w1)
          /\ insert_image_data n2 (JStr x2) buildings2 description2 w1
             = (Ret true, w2)
          /\ initialised w2 t2 /\ ids t2 = [1; 2]
          /\ map (fun r => cell (columns t2) r "id") (rows t2) = [VInt 1; VInt 2]
          /\ map (name_cell t2) (rows t2) = [VText n1; VText n2]).
Proof.
  intros Hi Hs. split; [ | split; [ | split]].
  - intros n x buildings description Hk Hb.
    destruct (insert_text_succeeds w t n x buildings description Hi Hk Hb)
      as [vb [vd E]].
    eexists; eexists; eexists. split; [exact E | ].
    split; [apply initialised_inserted | ].
    split; [reflexivity | ]. split; reflexivity.
  - intros n title buildings description w' E.
    destruct (insert_assigns_next w w' t n title buildings description Hi E)
      as [vt [vb [vd [-> _]]]].
    eexists; eexists. split; [apply initialised_inserted | ].
    split; [reflexivity | ]. split; [reflexivity | ].
    split; [apply ids_below_next | ].
    split; [apply next_rowid_above_seq | ]. split; [reflexivity | ].
    rewrite ids_inserted. apply sorted_snoc; [exact Hs | apply ids_below_next].
  - intros calls.
    destruct (insert_all_ids calls w t Hi Hs)
      as [oks [w' [t' [more [E [Hi' [Hids [Hs' [Hf [_ Hlen]]]]]]]]]].
    exists oks, w', t', more.
    split; [exact E | ]. split; [exact Hi' | ]. split; [exact Hids | ].
    split; [exact Hs' | ]. split; [exact Hf | exact Hlen].
  - intros Hrows Hseq n1 x1 buildings1 description1 n2 x2 buildings2 description2
           Hne Hb1 Hb2.
    assert (Hk1 : known t n1 = false) by (unfold known; rewrite Hrows; reflexivity).
    destruct (insert_text_succeeds w t n1 x1 buildings1 description1 Hi Hk1 Hb1)
      as [vb1 [vd1 E1]].
    pose proof (initialised_inserted w t (clock w (S (ticks w))) n1 (VText x1)
                  vb1 vd1) as Hi1.
    assert (Hk2 : known (inserted t (clock w (S (ticks w))) n1 (VText x1) vb1 vd1)
                    n2 = false).
    { rewrite known_inserted by apply Hi. unfold known. rewrite Hrows.
      cbn [existsb orb]. apply String.eqb_neq. exact Hne. }
    destruct (insert_text_succeeds _ _ n2 x2 buildings2 description2 Hi1 Hk2 Hb2)
      as [vb2 [vd2 E2]].
    eexists; eexists; eexists. split; [exact E1 | ]. split; [exact E2 | ].
    split; [apply initialised_inserted | ].
    assert (Hn1 : next_rowid t = 1)
      by (unfold next_rowid; rewrite Hrows, Hseq; reflexivity).
    assert (Hn2 : next_rowid (inserted t (clock w (S (ticks w))) n1 (VText x1)
                                vb1 vd1) = 2).
    { unfold next_rowid at 1. cbn [inserted rows seq]. rewrite Hrows.
      unfold max_rowid. cbn [app fold_right new_row rowid].
      rewrite Hn1. reflexivity. }
    split; [ | split].
    + rewrite !ids_inserted. unfold ids. rewrite Hrows. cbn [map app].
      rewrite Hn1, Hn2. reflexivity.
    + cbn [inserted rows columns]. rewrite Hrows. cbn [app map].
      unfold new_row. rewrite Hn1, Hn2. reflexivity.
    + cbn [inserted rows]. rewrite Hrows. reflexivity.
Qed.

End Ids.

(** ** Failures inside a batch *)

Section Failures.
Context {RT : PyRuntime}.

Lemma mentions_analysis_error (n : string) (e : exn) :
  mentions (fstring ["Fehler bei der Analyse von '"; n; "': "; str_exn e]) n.
Proof.
  exists "Fehler bei der Analyse von '", ("': " ++ str_exn e)%string. reflexivity.
Qed.

(** A failed extraction is reported with an error notice that names the
    image; nothing is written for it and the next images are processed. *)
Lemma extraction_failure_reported (i : nat) (f : UploadedFile)
      (rest : list UploadedFile) (w : world) (t : table) (reason : string) :
  initialised w t -> Forall (displayable w) (f :: rest) ->
  known t (name f) = false ->
  llm w (llm_calls w) = Failed reason ->
  let w' := with_events (invoked i f w)
              [analysis_error (name f) (ExternalError reason)] in
  process_file i f w = (Ret tt, w')
  /\ db w' = db w
  /\ process_files i (f :: rest) w = process_files (S i) rest w'
  /\ exists w'' t'' more,
       process_files (S i) rest w' = (Ret tt, w'') /\ initialised w'' t''
       /\ rows t'' = rows t ++ more.
Proof.
  intros Hi Hall Hk Ha w'.
  inversion Hall as [ | f' rest' Hp Hrest]; subst.
  assert (E : process_file i f w = (Ret tt, w'))
    by (rewrite (process_file_new i f w t Hi Hp Hk), Ha; reflexivity).
  split; [exact E | ]. split; [reflexivity | ].
  split; [cbn [process_files]; unfold bind; rewrite E; reflexivity | ].
  destruct (process_files_returns rest (S i) w' t
              (initialised_with_events _ t _ (initialised_invoked i f w t Hi)) Hrest)
    as [w'' [t'' [more [E' [Hi' [Hr _]]]]]].
  exists w'', t'', more. auto.
Qed.

End Failures.

(** ** The whole script *)

Section WholeScript.
Context {RT : PyRuntime}.

(** On a database whose table, if present, is the table of the script, a
    run on pictures sets the table up, processes every upload and offers
    the download; it does not raise. *)
Lemma main_returns (files : list UploadedFile) (w : world) (tbl : option table) :
  db w = Database tbl ->
  match tbl with
  | Some t => columns t = image_data_columns
  | None => True
  end ->
  Forall (displayable w) files ->
  exists w' t',
    main files w = (Ret tt, w') /\ initialised w' t'
    /\ open_conns w' = open_conns w.
Proof.
  intros Hdb Hcols Hall. unfold main. unfold bind at 1.
  rewrite (setup_database_spec w tbl Hdb).
  set (t0 := match tbl with
             | Some t => t
             | None => fresh_table
             end).
  assert (Hi : initialised (set_db (after_statement w) (Database (Some t0))) t0).
  { split; [reflexivity | ]. unfold t0. destruct tbl; [exact Hcols | reflexivity]. }
  destruct files as [ | f files].
  - unfold bind, st_info, emit. eexists; exists t0.
    split; [reflexivity | ]. split; [apply Hi | reflexivity].
  - destruct (process_files_returns (f :: files) 0 _ t0 Hi Hall)
      as [w1 [t1 [more [E [Hi1 [_ [Ho _]]]]]]].
    unfold bind. rewrite E. unfold emit. eexists; exists t1.
    split; [reflexivity | ]. split; [apply Hi1 | exact Ho].
Qed.

(** On a file that is no database the set-up raises and the run stops
    there. *)
Lemma main_startup_failure (files : list UploadedFile) (w : world) :
  db w = NotADatabase ->
  main files w = (Raise (DatabaseError "file is not a database"), leaked w).
Proof.
  intros Hdb. unfold main. unfold bind at 1.
  rewrite (setup_database_leaks w Hdb). reflexivity.
Qed.

End WholeScript.

(** ** More on the store: look-ups after inserts *)

Section StoreLookups.
Context {RT : PyRuntime}.

(** X1.  On the table of the script the existence check returns true
    exactly when some stored row holds the given name, byte for byte, in
    [image_name]; it only reads: the file, the output and the count of
    model calls are as before and the connection is closed again. *)
Theorem exists_reports_stored (w : world) (t : table) (n : string) :
  initialised w t ->
  exists b w',
    image_exists_in_db n w = (Ret b, w')
    /\ (b = true <-> In (VText n) (map (name_cell t) (rows t)))
    /\ db w' = db w
    /\ trace w' = trace w
    /\ llm_calls w' = llm_calls w
    /\ open_conns w' = open_conns w.
Proof.
  intros Hi. exists (known t n), (after_statement w).
  split; [exact (image_exists_in_db_spec w t n Hi) | ].
  split.
  - split; [apply known_true_names | apply names_known].
  - repeat split.
Qed.

(** X2.  Insert and look-up compose: once the insert of a name has
    returned true the existence check for that name returns true, and for
    every other name it answers as it did before the insert. *)
Theorem insert_then_exists (w w1 : world) (t : table) (n m : string)
        (title buildings description : pyval) :
  initialised w t ->
  insert_image_data n title buildings description w = (Ret true, w1) ->
  fst (image_exists_in_db n w1) = Ret true
  /\ (m <> n -> fst (image_exists_in_db m w1) = fst (image_exists_in_db m w)).
Proof.
  intros Hi E.
  destruct (insert_assigns_next w w1 t n title buildings description Hi E)
    as [vt [vb [vd [-> _]]]].
  pose proof (initialised_inserted w t (clock w (S (ticks w))) n vt vb vd) as Hi1.
  destruct Hi as [Hdb Hc].
  split.
  - rewrite (image_exists_in_db_spec _ _ n Hi1). cbn [fst].
    rewrite (known_inserted t _ n n vt vb vd Hc), String.eqb_refl, orb_true_r.
    reflexivity.
  - intros Hneq.
    rewrite (image_exists_in_db_spec _ _ m Hi1).
    rewrite (image_exists_in_db_spec w t m (conj Hdb Hc)). cbn [fst].
    rewrite (known_inserted t _ n m vt vb vd Hc).
    assert (Hnm : String.eqb n m = false)
      by (apply String.eqb_neq; intro; apply Hneq; symmetry; assumption).
    rewrite Hnm, orb_false_r. reflexivity.
Qed.

Lemma exec_insert_appends (t t' : table) (now : string)
      (asg : list (string * value)) :
  exec_insert t now asg = inr t' ->
  exists r, rows t' = rows t ++ [r] /\ columns t' = columns t.
Proof.
  unfold exec_insert.
  destruct (not_null_violation _); [discriminate | ].
  destruct (unique_violation _ _ _); [discriminate | ].
  intros H. injection H as <-. eexists. split; reflexivity.
Qed.

(** X3.  Whatever the file holds and whatever the arguments are, the
    insert returns without raising and with its connection closed.  When it
    returns false the file is as before and exactly one notice naming the
    image was shown; when it returns true nothing was shown and exactly one
    row was appended behind the rows the table had. *)
Theorem insert_writes_or_reports (w : world) (n : string)
        (title buildings description : pyval) :
  exists ok w',
    insert_image_data n title buildings description w = (Ret ok, w')
    /\ open_conns w' = open_conns w
    /\ llm_calls w' = llm_calls w
    /\ (ok = false ->
        db w' = db w
        /\ exists lv text,
             trace w' = trace w ++ [StNotice lv text] /\ mentions text n)
    /\ (ok = true ->
        trace w' = trace w
        /\ exists t t' r,
             db w = Database (Some t) /\ db w' = Database (Some t')
             /\ rows t' = rows t ++ [r] /\ columns t' = columns t).
Proof.
  unfold insert_image_data, bind, try_finally, try_except, sqlite3_connect,
    execute, sqlite3_close, commit, ret.
  cbn [db set_ticks set_pending set_open_conns pending].
  destruct (db w) as [ | tbl] eqn:Hdb.
  - cbn. exists false. eexists. split; [reflexivity | ].
    split; [reflexivity | ]. split; [reflexivity | ].
    split; [ | discriminate]. intros _. cbn. split; [exact Hdb | ].
    eexists; eexists. split; [reflexivity | ].
    apply (mentions_insert_error n (DatabaseError "file is not a database")).
  - destruct (prepare _ tbl) as [e | ] eqn:Hp.
    + exists false. destruct (is_IntegrityError e) eqn:He; cbn; eexists;
        (split; [reflexivity | ]); (split; [reflexivity | ]);
        (split; [reflexivity | ]); (split; [ | discriminate]); intros _; cbn;
        (split; [exact Hdb | ]); eexists; eexists; (split; [reflexivity | ]).
      * apply mentions_duplicate_warning.
      * apply mentions_insert_error.
    + cbn [List.length placeholders Nat.eqb negb].
      destruct (bind_params 1 [JStr n; title; buildings; description])
        as [e | vals].
      * exists false. destruct (is_IntegrityError e) eqn:He; cbn; eexists;
          (split; [reflexivity | ]); (split; [reflexivity | ]);
          (split; [reflexivity | ]); (split; [ | discriminate]); intros _; cbn;
          (split; [exact Hdb | ]); eexists; eexists; (split; [reflexivity | ]).
        -- apply mentions_duplicate_warning.
        -- apply mentions_insert_error.
      * destruct tbl as [t | ].
        -- destruct (exec_insert t _ _) as [e | t'] eqn:Ex.
           ++ exists false. destruct (is_IntegrityError e) eqn:He; cbn; eexists;
                (split; [reflexivity | ]); (split; [reflexivity | ]);
                (split; [reflexivity | ]); (split; [ | discriminate]);
                intros _; cbn;
                (split; [exact Hdb | ]); eexists; eexists;
                (split; [reflexivity | ]).
              ** apply mentions_duplicate_warning.
              ** apply mentions_insert_error.
           ++ exists true. cbn. eexists. split; [reflexivity | ].
              split; [reflexivity | ]. split; [reflexivity | ].
              split; [discriminate | ]. intros _. cbn. split; [reflexivity | ].
              destruct (exec_insert_appends t t' _ _ Ex) as [r [Hr Hcols]].
              exists t, t', r. repeat split; assumption.
        -- cbn in Hp. discriminate Hp.
Qed.

(** X4.  On a file that is no database, and on a database without the
    table, the insert does not raise: it returns false, leaves the file as
    it is and shows the error notice with the message of the engine. *)
Theorem insert_on_unusable_store (w : world) (n : string)
        (title buildings description : pyval) :
  db w = NotADatabase \/ db w = Database None ->
  exists msg,
    insert_image_data n title buildings description w
    = (Ret false,
       with_events (after_statement w)
         [StNotice LError
            (fstring ["Fehler beim Einfügen von '"; n; "' in die Datenbank: ";
                      msg])])
    /\ (db w = NotADatabase -> msg = "file is not a database")
    /\ (db w = Database None -> msg = "no such table: image_data").
Proof.
  intros [Hdb | Hdb].
  - exists "file is not a database". split; [ | split; [reflexivity | ]].
    + unfold insert_image_data, bind, try_finally, try_except, sqlite3_connect,
        execute, sqlite3_close, commit, ret.
      cbn [db set_ticks set_pending set_open_conns pending]. rewrite Hdb.
      cbn. unfold with_events, after_statement, set_trace.
      destruct w; cbn in *; subst; reflexivity.
    + intros H. rewrite Hdb in H. discriminate H.
  - exists "no such table: image_data". split; [ | split; [ | reflexivity]].
    + unfold insert_image_data, bind, try_finally, try_except, sqlite3_connect,
        execute, sqlite3_close, commit, ret.
      cbn [db set_ticks set_pending set_open_conns pending]. rewrite Hdb.
      cbn. unfold with_events, after_statement, set_trace.
      destruct w; cbn in *; subst; reflexivity.
    + intros H. rewrite Hdb in H. discriminate H.
Qed.

End StoreLookups.

(** ** One iteration and a whole batch, effect by effect *)

Section BatchEffects.
Context {RT : PyRuntime}.

Lemma mentions_already_analysed (n : string) :
  mentions
    (fstring ["Bild '"; n;
              "' wurde bereits analysiert und befindet sich in der Datenbank."])
    n.
Proof. eexists; eexists; reflexivity. Qed.

Lemma images_app (a b : list event) : images (a ++ b) = images a ++ images b.
Proof.
  induction a as [ | e a IH]; simpl; [reflexivity | ].
  destruct e; simpl; rewrite IH; reflexivity.
Qed.

Lemma notices_app (a b : list event) : notices (a ++ b) = notices a ++ notices b.
Proof.
  induction a as [ | e a IH]; simpl; [reflexivity | ].
  destruct e; simpl; rewrite IH; reflexivity.
Qed.

Lemma downloads_app (a b : list event) :
  downloads (a ++ b) = (downloads a + downloads b)%nat.
Proof.
  induction a as [ | e a IH]; simpl; [reflexivity | ].
  destruct e; simpl; rewrite IH; reflexivity.
Qed.

Lemma processed_all (p : list byte -> option exn) (files : list UploadedFile) :
  Forall (fun f => p (skipn (pos f) (content f)) = None) files ->
  processed p files = files /\ batch_result p files = Ret tt.
Proof.
  induction 1 as [ | f files Hf _ [IH1 IH2]]; [split; reflexivity | ].
  cbn [processed batch_result]. rewrite Hf, IH1, IH2. split; reflexivity.
Qed.

Lemma processed_stop (p : list byte -> option exn) (pre post : list UploadedFile)
      (f : UploadedFile) (e : exn) :
  Forall (fun g => p (skipn (pos g) (content g)) = None) pre ->
  p (skipn (pos f) (content f)) = Some e ->
  processed p (pre ++ f :: post) = pre
  /\ batch_result p (pre ++ f :: post) = Raise e.
Proof.
  intros Hpre Hf. induction Hpre as [ | g pre Hg _ [IH1 IH2]].
  - cbn [app processed batch_result]. rewrite Hf. split; reflexivity.
  - cbn [app processed batch_result]. rewrite Hg, IH1, IH2. split; reflexivity.
Qed.

Lemma batch_result_raise (p : list byte -> option exn) (files : list UploadedFile)
      (e : exn) :
  batch_result p files = Raise e ->
  exists f, In f files /\ p (skipn (pos f) (content f)) = Some e.
Proof.
  induction files as [ | f files IH]; cbn [batch_result]; [discriminate | ].
  destruct (p (skipn (pos f) (content f))) as [e' | ] eqn:Hf.
  - intros H. injection H as <-. exists f. split; [left; reflexivity | exact Hf].
  - intros H. destruct (IH H) as [g [Hin Hg]]. exists g.
    split; [right; exact Hin | exact Hg].
Qed.

Lemma processed_length (p : list byte -> option exn) (files : list UploadedFile) :
  (List.length (processed p files) <= List.length files)%nat.
Proof.
  induction files as [ | f files IH]; [apply Nat.le_refl | ].
  cbn [processed]. destruct (p _); cbn [List.length]; lia.
Qed.

(** The three ways an iteration on a picture ends on the table of the
    script: the file is skipped, it is refused or fails with one notice, or
    its row is written. *)
Lemma process_file_outcome (i : nat) (f : UploadedFile) (w : world) (t : table) :
  initialised w t -> displayable w f ->
  exists w',
    process_file i f w = (Ret tt, w')
    /\ open_conns w' = open_conns w
    /\ pil w' = pil w
    /\ ((known t (name f) = true
         /\ db w' = db w /\ llm_calls w' = llm_calls w
         /\ trace w' = trace w ++ [shown i f; already_analysed (name f)])
        \/ (known t (name f) = false
            /\ db w' = db w /\ llm_calls w' = S (llm_calls w)
            /\ exists lv text,
                 mentions text (name f)
                 /\ trace w'
                    = trace w ++ [shown i f; spinner f; ChainInvoke (request f);
                                  StNotice lv text])
        \/ (known t (name f) = false
            /\ llm_calls w' = S (llm_calls w)
            /\ trace w' = trace w ++ [shown i f; spinner f; ChainInvoke (request f)]
            /\ exists vt vb vd,
                 is_null (text_affinity vt) = false
                 /\ db w'
                    = Database
                        (Some (inserted t (clock w (S (S (ticks w)))) (name f)
                                 vt vb vd)))).
Proof.
  intros Hi Hp. destruct (known t (name f)) eqn:Hk.
  - rewrite (process_file_known i f w t Hi Hp Hk). eexists.
    split; [reflexivity | ]. split; [reflexivity | ]. split; [reflexivity | ].
    left. repeat split.
  - assert (Hcase : forall lv text,
              mentions text (name f) ->
              exists w',
                (Ret tt, with_events (invoked i f w) [StNotice lv text])
                = (Ret tt, w')
                /\ open_conns w' = open_conns w
                /\ pil w' = pil w
                /\ ((false = true
                     /\ db w' = db w /\ llm_calls w' = llm_calls w
                     /\ trace w' = trace w ++ [shown i f; already_analysed (name f)])
                    \/ (false = false
                        /\ db w' = db w /\ llm_calls w' = S (llm_calls w)
                        /\ exists lv0 text0,
                             mentions text0 (name f)
                             /\ trace w'
                                = trace w ++ [shown i f; spinner f;
                                              ChainInvoke (request f);
                                              StNotice lv0 text0])
                    \/ (false = false
                        /\ llm_calls w' = S (llm_calls w)
                        /\ trace w'
                           = trace w ++ [shown i f; spinner f;
                                         ChainInvoke (request f)]
                        /\ exists vt vb vd,
                             is_null (text_affinity vt) = false
                             /\ db w'
                                = Database
                                    (Some (inserted t (clock w (S (S (ticks w))))
                                             (name f) vt vb vd))))).
    { intros lv text Hm. eexists. split; [reflexivity | ].
      split; [reflexivity | ]. split; [reflexivity | ]. right. left.
      split; [reflexivity | ]. split; [reflexivity | ]. split; [reflexivity | ].
      exists lv, text. split; [exact Hm | ].
      cbn [with_events set_trace trace invoked]. rewrite <- app_assoc.
      reflexivity. }
    rewrite (process_file_new i f w t Hi Hp Hk).
    destruct (llm w (llm_calls w)) as [v | reason];
      [ | apply Hcase; apply mentions_analysis_error].
    destruct v; try (apply Hcase; apply mentions_analysis_error).
    pose proof (initialised_invoked i f w t Hi) as Hi'.
    destruct (insert_image_data_cases (invoked i f w) t (name f) (title_arg kv)
                (buildings_arg kv) (description_arg kv) Hi')
      as [[e [_ E]] | [vt [vb [vd [_ [[_ E] | [Hn [_ E]]]]]]]];
      rewrite E; cbn [snd].
    + eexists. split; [reflexivity | ]. split; [reflexivity | ].
      split; [reflexivity | ]. right. left.
      split; [reflexivity | ]. split; [reflexivity | ]. split; [reflexivity | ].
      eexists; eexists. split; [apply (mentions_insert_error (name f) e) | ].
      cbn [with_events set_trace trace invoked after_statement].
      rewrite <- app_assoc. reflexivity.
    + eexists. split; [reflexivity | ]. split; [reflexivity | ].
      split; [reflexivity | ]. right. left.
      split; [reflexivity | ]. split; [reflexivity | ]. split; [reflexivity | ].
      eexists; eexists. split; [apply (mentions_duplicate_warning (name f)) | ].
      cbn [with_events set_trace trace invoked after_statement].
      rewrite <- app_assoc. reflexivity.
    + eexists. split; [reflexivity | ]. split; [reflexivity | ].
      split; [reflexivity | ]. right. right.
      split; [reflexivity | ]. split; [reflexivity | ]. split; [reflexivity | ].
      exists vt, vb, vd. split; [exact Hn | reflexivity].
Qed.

Lemma text_affinity_text_or_null (v : value) :
  text_or_null (text_affinity v) = true.
Proof. destruct v; reflexivity. Qed.

Lemma text_affinity_not_null (v : value) :
  is_null (text_affinity v) = false -> is_textv (text_affinity v) = true.
Proof. destruct v; simpl; intros H; try reflexivity; discriminate H. Qed.

Lemma rows_ok_inserted (t : table) (now n : string) (vt vb vd : value) :
  rows_ok t -> is_null (text_affinity vt) = false ->
  rows_ok (inserted t now n vt vb vd).
Proof.
  unfold rows_ok. intros Hok Hn. cbn [inserted rows]. rewrite forallb_app, Hok.
  cbn [forallb row_ok new_row cells rowid is_textv andb].
  rewrite Z.eqb_refl, (text_affinity_not_null vt Hn),
    (text_affinity_text_or_null vb), (text_affinity_text_or_null vd).
  reflexivity.
Qed.

Lemma known_kept (t t' : table) (more : list row) (n : string) :
  columns t = image_data_columns -> columns t' = image_data_columns ->
  rows t' = rows t ++ more -> known t n = true -> known t' n = true.
Proof.
  unfold known, name_cell. intros Hc Hc' Hr Hk. rewrite Hr, existsb_app, Hc'.
  rewrite Hc in Hk. rewrite Hk. reflexivity.
Qed.

(** All the effects of a batch on the table of the script: the loop gets
    through the files in front of the first one the decoder refuses. *)
Lemma process_files_effects (files : list UploadedFile) :
  forall (i : nat) (w : world) (t : table),
    initialised w t ->
    exists w' t' more k,
      process_files i files w = (batch_result (pil w) files, w')
      /\ initialised w' t'
      /\ rows t' = rows t ++ more
      /\ open_conns w' = open_conns w
      /\ llm_calls w' = (llm_calls w + k)%nat
      /\ List.length (invocations (trace w'))
         = (List.length (invocations (trace w)) + k)%nat
      /\ (List.length more <= k)%nat
      /\ (k <= List.length (processed (pil w) files))%nat
      /\ images (trace w') = images (trace w) ++ grid i (processed (pil w) files)
      /\ (List.length (notices (trace w')) + List.length more
          = List.length (notices (trace w))
            + List.length (processed (pil w) files))%nat
      /\ (unique_names t -> unique_names t')
      /\ (rows_ok t -> rows_ok t')
      /\ downloads (trace w') = downloads (trace w).
Proof.
  induction files as [ | f files IH]; intros i w t Hi.
  - exists w, t, [], 0%nat. cbn [processed batch_result grid List.length].
    rewrite !app_nil_r, !Nat.add_0_r.
    split; [reflexivity | ]. split; [exact Hi | ]. repeat split; auto.
  - cbn [processed batch_result].
    destruct (pil w (skipn (pos f) (content f))) as [e | ] eqn:Hp.
    { exists w, t, [], 0%nat. cbn [process_files]. unfold bind.
      rewrite (process_file_undisplayable i f w e Hp).
      cbn [grid List.length]. rewrite !app_nil_r, !Nat.add_0_r.
      split; [reflexivity | ]. split; [exact Hi | ]. repeat split; auto. }
    destruct (process_file_outcome i f w t Hi Hp)
      as [w1 [E1 [Ho1 [Hp1 [[Hk [Hdb [Hc Ht]]] | [[Hk [Hdb [Hc [lv [text [_ Ht]]]]]]
                        | [Hk [Hc [Ht [vt [vb [vd [Hn Hdb]]]]]]]]]]]]].
    + assert (Hi1 : initialised w1 t)
        by (split; [rewrite Hdb; apply Hi | apply Hi]).
      destruct (IH (S i) w1 t Hi1)
        as [w2 [t2 [more [k [E2 [Hi2 [Hr [Ho [Hl [Hinv [Hm [Hkf [Him [Hno
             [Hu [Hrk Hdl]]]]]]]]]]]]]]]].
      rewrite Hp1 in E2, Hkf, Him, Hno.
      rewrite Ht, invocations_app, length_app in Hinv.
      rewrite Ht, images_app in Him.
      rewrite Ht, notices_app, length_app in Hno.
      rewrite Ht, downloads_app in Hdl.
      cbn [invocations images notices downloads shown spinner already_analysed
           List.length] in Hinv, Him, Hno, Hdl.
      exists w2, t2, more, k. cbn [process_files]. unfold bind. rewrite E1.
      split; [exact E2 | ]. split; [exact Hi2 | ]. split; [exact Hr | ].
      split; [congruence | ]. split; [rewrite Hl, Hc; reflexivity | ].
      split; [lia | ]. split; [exact Hm | ]. split; [cbn [List.length]; lia | ].
      split; [rewrite Him, <- app_assoc; reflexivity | ].
      split; [cbn [List.length]; lia | ].
      split; [assumption | ]. split; [assumption | lia].
    + assert (Hi1 : initialised w1 t)
        by (split; [rewrite Hdb; apply Hi | apply Hi]).
      destruct (IH (S i) w1 t Hi1)
        as [w2 [t2 [more [k [E2 [Hi2 [Hr [Ho [Hl [Hinv [Hm [Hkf [Him [Hno
             [Hu [Hrk Hdl]]]]]]]]]]]]]]]].
      rewrite Hp1 in E2, Hkf, Him, Hno.
      rewrite Ht, invocations_app, length_app in Hinv.
      rewrite Ht, images_app in Him.
      rewrite Ht, notices_app, length_app in Hno.
      rewrite Ht, downloads_app in Hdl.
      cbn [invocations images notices downloads shown spinner already_analysed
           List.length] in Hinv, Him, Hno, Hdl.
      exists w2, t2, more, (S k). cbn [process_files]. unfold bind. rewrite E1.
      split; [exact E2 | ]. split; [exact Hi2 | ]. split; [exact Hr | ].
      split; [congruence | ]. split; [rewrite Hl, Hc; lia | ].
      split; [lia | ]. split; [lia | ]. split; [cbn [List.length]; lia | ].
      split; [rewrite Him, <- app_assoc; reflexivity | ].
      split; [cbn [List.length]; lia | ].
      split; [assumption | ]. split; [assumption | lia].
    + set (t1 := inserted t (clock w (S (S (ticks w)))) (name f) vt vb vd) in *.
      assert (Hi1 : initialised w1 t1) by (split; [exact Hdb | reflexivity]).
      destruct (IH (S i) w1 t1 Hi1)
        as [w2 [t2 [more [k [E2 [Hi2 [Hr [Ho [Hl [Hinv [Hm [Hkf [Him [Hno
             [Hu [Hrk Hdl]]]]]]]]]]]]]]]].
      rewrite Hp1 in E2, Hkf, Him, Hno.
      rewrite Ht, invocations_app, length_app in Hinv.
      rewrite Ht, images_app in Him.
      rewrite Ht, notices_app, length_app in Hno.
      rewrite Ht, downloads_app in Hdl.
      cbn [invocations images notices downloads shown spinner already_analysed
           List.length] in Hinv, Him, Hno, Hdl.
      exists w2, t2,
        (new_row t (clock w (S (S (ticks w)))) (VText (name f)) (text_affinity vt)
           (text_affinity vb) (text_affinity vd) :: more), (S k).
      cbn [process_files]. unfold bind. rewrite E1.
      split; [exact E2 | ]. split; [exact Hi2 | ].
      split; [rewrite Hr; unfold t1; cbn [inserted rows]; rewrite <- app_assoc;
              reflexivity | ].
      split; [congruence | ]. split; [rewrite Hl, Hc; lia | ].
      split; [lia | ]. split; [cbn [List.length]; lia | ].
      split; [cbn [List.length]; lia | ].
      split; [rewrite Him, <- app_assoc; reflexivity | ].
      split; [cbn [List.length]; lia | ].
      split; [ | split; [ | lia]].
      * intros Hun. apply Hu. unfold t1.
        apply unique_names_inserted; [apply Hi | exact Hun | exact Hk].
      * intros Hok. apply Hrk. unfold t1. apply rows_ok_inserted; assumption.
Qed.

End BatchEffects.

(** ** What a batch does and does not do *)

Section BatchProperties.
Context {RT : PyRuntime}.

(** X5.  On the table of the script the loop ends normally when the
    decoder accepts every upload, and the only exception that can leave it
    is the one the decoder raises for an upload it refuses.  Either way it
    never removes or changes a row: the rows the table had stay in place
    in front of the new ones, there is at most one new row per file, every
    name that was known stays known, and every connection opened is closed
    again. *)
Theorem batch_appends_only (files : list UploadedFile) (i : nat) (w : world)
        (t : table) :
  initialised w t ->
  exists res w' t' more,
    process_files i files w = (res, w')
    /\ (Forall (displayable w) files -> res = Ret tt)
    /\ (forall e, res = Raise e ->
          exists f, In f files /\ pil w (skipn (pos f) (content f)) = Some e)
    /\ initialised w' t'
    /\ rows t' = rows t ++ more
    /\ (List.length more <= List.length files)%nat
    /\ (forall n, known t n = true -> known t' n = true)
    /\ open_conns w' = open_conns w.
Proof.
  intros Hi.
  destruct (process_files_effects files i w t Hi)
    as [w' [t' [more [k [E [Hi' [Hr [Ho [_ [_ [Hm [Hk _]]]]]]]]]]]].
  pose proof (processed_length (pil w) files) as Hlen.
  exists (batch_result (pil w) files), w', t', more.
  split; [exact E | ].
  split; [intros Hall; apply (processed_all (pil w) files Hall) | ].
  split; [intros e He; exact (batch_result_raise (pil w) files e He) | ].
  split; [exact Hi' | ].
  split; [exact Hr | ]. split; [lia | ]. split; [ | exact Ho].
  intros n Hn. destruct Hi as [_ Hc]. destruct Hi' as [_ Hc'].
  exact (known_kept t t' more n Hc Hc' Hr Hn).
Qed.

Lemma count_name_unknown (t : table) (n : string) :
  known t n = false -> count_name t n = 0%nat.
Proof.
  unfold known, count_name. induction (rows t) as [ | r rs IH]; simpl;
    [reflexivity | ].
  destruct (sql_eq (name_cell t r) (VText n)); simpl; [discriminate | exact IH].
Qed.

(** X6.  The names stay distinct: from a table in which no name occurs
    twice (the table as created is one), a batch leads to a table in which
    no name occurs twice, so that every name has at most one record; this
    holds whether the loop runs to its end, as it does when every upload
    is a picture, or is ended by the decoder. *)
Theorem batch_keeps_names_unique (files : list UploadedFile) (i : nat)
        (w : world) (t : table) :
  initialised w t -> unique_names t ->
  exists res w' t',
    process_files i files w = (res, w')
    /\ (Forall (displayable w) files -> res = Ret tt)
    /\ initialised w' t'
    /\ unique_names t'
    /\ (forall n, (count_name t' n <= 1)%nat)
    /\ unique_names fresh_table.
Proof.
  intros Hi Hu.
  destruct (process_files_effects files i w t Hi)
    as [w' [t' [more [k [E [Hi' [_ [_ [_ [_ [_ [_ [_ [_ [Hun _]]]]]]]]]]]]]]].
  exists (batch_result (pil w) files), w', t'. split; [exact E | ].
  split; [intros Hall; apply (processed_all (pil w) files Hall) | ].
  split; [exact Hi' | ].
  split; [exact (Hun Hu) | ]. split; [ | exact unique_names_fresh].
  intros n. destruct (known t' n) eqn:Hk.
  - rewrite (count_name_unique t' n (Hun Hu) Hk). lia.
  - rewrite (count_name_unknown t' n Hk). lia.
Qed.

(** X7.  The shape of the stored rows is kept: if every row holds its id
    in the key, text in [image_name], [title] and [time_added], and text or
    NULL in [buildings] and [description], the same is true after a batch,
    whether it runs to its end (as it does when every upload is a picture)
    or not; in particular no row with a NULL or non-text title is ever
    stored. *)
Theorem batch_keeps_rows_typed (files : list UploadedFile) (i : nat)
        (w : world) (t : table) :
  initialised w t -> rows_ok t ->
  exists res w' t',
    process_files i files w = (res, w')
    /\ (Forall (displayable w) files -> res = Ret tt)
    /\ initialised w' t'
    /\ rows_ok t'
    /\ forall r, In r (rows t') ->
         cell (columns t') r "id" = VInt (rowid r)
         /\ is_textv (cell (columns t') r "title") = true
         /\ is_textv (name_cell t' r) = true.
Proof.
  intros Hi Hok.
  destruct (process_files_effects files i w t Hi)
    as [w' [t' [more [k [E [Hi' [_ [_ [_ [_ [_ [_ [_ [_ [_ [Hrk _]]]]]]]]]]]]]]]].
  exists (batch_result (pil w) files), w', t'. split; [exact E | ].
  split; [intros Hall; apply (processed_all (pil w) files Hall) | ].
  split; [exact Hi' | ].
  split; [exact (Hrk Hok) | ].
  intros r Hin. pose proof (Hrk Hok) as Hok'. unfold rows_ok in Hok'.
  rewrite forallb_forall in Hok'. specialize (Hok' r Hin).
  destruct Hi' as [_ Hc']. unfold name_cell. rewrite Hc'.
  unfold row_ok in Hok'. unfold cell. cbn [col_index image_data_columns col_name
    String.eqb Ascii.eqb Bool.eqb option_map].
  destruct (cells r) as [ | c0 [ | c1 [ | c2 [ | c3 [ | c4 [ | c5 [ | c6 cs]]]]]]];
    try discriminate Hok'.
  - destruct c0; discriminate Hok'.
  - destruct c0; discriminate Hok'.
  - destruct c0; discriminate Hok'.
  - destruct c0; discriminate Hok'.
  - destruct c0; discriminate Hok'.
  - destruct c0; try discriminate Hok'. cbn [nth].
    repeat (apply andb_true_iff in Hok'; destruct Hok' as [Hok' ?]).
    apply Z.eqb_eq in Hok'. subst z. repeat split; assumption.
  - destruct c0; discriminate Hok'.
Qed.

(** X8.  The loop shows the uploads in order up to the first one the
    decoder refuses.  When every upload is a picture the loop returns and
    every file is shown, skipped or not, failed or not: each in the grid
    column [index mod 4], captioned with its file name and holding the
    bytes from the read position of the file on.  When one is no picture,
    its exception leaves the loop and that file and the files behind it
    are not shown. *)
Theorem every_file_is_shown (files : list UploadedFile) (i : nat) (w : world)
        (t : table) :
  initialised w t ->
  exists res w' shown_files,
    process_files i files w = (res, w')
    /\ images (trace w') = images (trace w) ++ grid i shown_files
    /\ List.length (grid i shown_files) = List.length shown_files
    /\ (Forall (displayable w) files -> res = Ret tt /\ shown_files = files)
    /\ (forall pre f post e,
          files = pre ++ f :: post -> Forall (displayable w) pre ->
          pil w (skipn (pos f) (content f)) = Some e ->
          res = Raise e /\ shown_files = pre).
Proof.
  intros Hi.
  destruct (process_files_effects files i w t Hi)
    as [w' [t' [more [k [E [_ [_ [_ [_ [_ [_ [_ [Him _]]]]]]]]]]]]].
  exists (batch_result (pil w) files), w', (processed (pil w) files).
  split; [exact E | ]. split; [exact Him | ].
  split.
  { generalize (processed (pil w) files). clear. intros l. revert i.
    induction l as [ | f l IH]; intros i; [reflexivity | ].
    cbn [grid List.length]. rewrite IH. reflexivity. }
  split.
  - intros Hall. destruct (processed_all (pil w) files Hall) as [H1 H2].
    split; [exact H2 | exact H1].
  - intros pre f post e -> Hpre Hf.
    destruct (processed_stop (pil w) pre post f e Hpre Hf) as [H1 H2].
    split; [exact H2 | exact H1].
Qed.

(** X9.  On the table of the script no picture passes silently: an
    iteration either appends the row of the file and shows no notice, or
    leaves the rows as they are and shows exactly one notice, which names
    the file.  The one other way an iteration ends is the exception of
    the decoder for an upload that is no picture: it leaves the iteration
    before anything is shown, asked or written. *)
Theorem row_or_notice (i : nat) (f : UploadedFile) (w : world) (t : table) :
  initialised w t ->
  exists res w' t',
    process_file i f w = (res, w')
    /\ initialised w' t'
    /\ (displayable w f -> res = Ret tt)
    /\ ((res = Ret tt
         /\ rows t' = rows t
         /\ exists lv text,
              notices (trace w') = notices (trace w) ++ [(lv, text)]
              /\ mentions text (name f))
        \/ (res = Ret tt
            /\ notices (trace w') = notices (trace w)
            /\ exists r,
                 rows t' = rows t ++ [r]
                 /\ name_cell t' r = VText (name f))
        \/ (exists e,
              pil w (skipn (pos f) (content f)) = Some e
              /\ res = Raise e /\ w' = w /\ t' = t)).
Proof.
  intros Hi.
  destruct (pil w (skipn (pos f) (content f))) as [e | ] eqn:Hp.
  { exists (Raise e), w, t.
    split; [exact (process_file_undisplayable i f w e Hp) | ].
    split; [exact Hi | ].
    split; [unfold displayable; rewrite Hp; discriminate | ].
    right. right. exists e. repeat split. }
  destruct (process_file_outcome i f w t Hi Hp)
    as [w1 [E1 [_ [_ [[_ [Hdb [_ Ht]]] | [[_ [Hdb [_ [lv [text [Hm Ht]]]]]]
                      | [_ [_ [Ht [vt [vb [vd [_ Hdb]]]]]]]]]]]]].
  - exists (Ret tt), w1, t. split; [exact E1 | ].
    split; [split; [rewrite Hdb; apply Hi | apply Hi] | ].
    split; [reflexivity | ].
    left. split; [reflexivity | ]. split; [reflexivity | ].
    eexists; eexists. split.
    + rewrite Ht, notices_app. reflexivity.
    + apply mentions_already_analysed.
  - exists (Ret tt), w1, t. split; [exact E1 | ].
    split; [split; [rewrite Hdb; apply Hi | apply Hi] | ].
    split; [reflexivity | ].
    left. split; [reflexivity | ]. split; [reflexivity | ].
    exists lv, text. split; [ | exact Hm].
    rewrite Ht, notices_app. reflexivity.
  - exists (Ret tt), w1. eexists. split; [exact E1 | ].
    split; [split; [exact Hdb | reflexivity] | ].
    split; [reflexivity | ].
    right. left. split; [reflexivity | ]. split.
    + rewrite Ht, notices_app. cbn. rewrite app_nil_r. reflexivity.
    + eexists. split; reflexivity.
Qed.

(** X10.  A batch asks the model at most once per file: the count of model
    calls grows by the number of requests sent, which is at most the number
    of files, and no more rows are appended than requests were sent; this
    holds whether the loop runs to its end, as it does when every upload
    is a picture, or is ended by the decoder. *)
Theorem model_calls_bounded (files : list UploadedFile) (i : nat) (w : world)
        (t : table) :
  initialised w t ->
  exists res w' t' more k,
    process_files i files w = (res, w')
    /\ (Forall (displayable w) files -> res = Ret tt)
    /\ db w' = Database (Some t')
    /\ rows t' = rows t ++ more
    /\ llm_calls w' = (llm_calls w + k)%nat
    /\ List.length (invocations (trace w'))
       = (List.length (invocations (trace w)) + k)%nat
    /\ (List.length more <= k)%nat
    /\ (k <= List.length files)%nat.
Proof.
  intros Hi.
  destruct (process_files_effects files i w t Hi)
    as [w' [t' [more [k [E [Hi' [Hr [_ [Hl [Hinv [Hm [Hk _]]]]]]]]]]]].
  pose proof (processed_length (pil w) files) as Hlen.
  exists (batch_result (pil w) files), w', t', more, k. split; [exact E | ].
  split; [intros Hall; apply (processed_all (pil w) files Hall) | ].
  split; [apply Hi' | ].
  split; [exact Hr | ]. split; [exact Hl | ]. split; [exact Hinv | ].
  split; [exact Hm | lia].
Qed.

(** X11.  A batch of pictures all of whose file names are in the store
    asks the model nothing and writes nothing: it shows each image followed
    by the "already analysed" notice, in upload order.  This is what a
    rerun of the script on the same uploads does once they are stored. *)
Theorem known_batch_is_skipped (files : list UploadedFile) :
  forall (i : nat) (w : world) (t : table),
    initialised w t ->
    Forall (displayable w) files ->
    (forall f, In f files -> known t (name f) = true) ->
    exists w',
      process_files i files w = (Ret tt, w')
      /\ db w' = db w
      /\ llm_calls w' = llm_calls w
      /\ open_conns w' = open_conns w
      /\ trace w' = trace w ++ skipped i files.
Proof.
  induction files as [ | f files IH]; intros i w t Hi Hpic Hall.
  - exists w. rewrite app_nil_r. repeat split.
  - inversion Hpic as [ | f' files' Hp Hrest]; subst.
    assert (Hk : known t (name f) = true) by (apply Hall; left; reflexivity).
    pose proof (process_file_known i f w t Hi Hp Hk) as E1.
    set (w1 := with_events (after_statement w)
                 [shown i f; already_analysed (name f)]) in *.
    assert (Hi1 : initialised w1 t) by (split; apply Hi).
    assert (Hpic1 : Forall (displayable w1) files)
      by (eapply Forall_impl; [ | exact Hrest]; intros g Hg; exact Hg).
    destruct (IH (S i) w1 t Hi1 Hpic1 (fun g Hg => Hall g (or_intror Hg)))
      as [w2 [E2 [Hdb [Hl [Ho Ht]]]]].
    exists w2. cbn [process_files]. unfold bind. rewrite E1.
    split; [exact E2 | ]. split; [rewrite Hdb; reflexivity | ].
    split; [rewrite Hl; reflexivity | ]. split; [rewrite Ho; reflexivity | ].
    rewrite Ht. unfold w1. cbn [with_events set_trace trace after_statement skipped].
    rewrite <- app_assoc. reflexivity.
Qed.

End BatchProperties.

(** ** Answers at the edges

    Throughout, the upload is one the decoder accepts ([displayable]) and
    its name is not in the store, so that the model is asked. *)

Section EdgeAnswers.
Context {RT : PyRuntime}.

(** X12.  An answer that is not a dict (a list, a text, a number, null)
    has no [get]: the AttributeError is caught by the handler of the
    controller, the error notice names the image and the type of the
    answer, the store is not called and nothing is written. *)
Theorem non_dict_answer_reported (i : nat) (f : UploadedFile) (w : world)
        (t : table) (v : pyval) :
  initialised w t -> displayable w f -> known t (name f) = false ->
  llm w (llm_calls w) = Answered v -> is_dict v = false ->
  process_file i f w
  = (Ret tt,
     with_events (invoked i f w)
       [StNotice LError
          (fstring ["Fehler bei der Analyse von '"; name f; "': ";
                    fstring ["'"; type_name v; "' object has no attribute 'get'"]])])
  /\ db (snd (process_file i f w)) = db w
  /\ llm_calls (snd (process_file i f w)) = S (llm_calls w).
Proof.
  intros Hi Hp Hk Ha Hd.
  assert (E : process_file i f w
              = (Ret tt,
                 with_events (invoked i f w)
                   [StNotice LError
                      (fstring ["Fehler bei der Analyse von '"; name f; "': ";
                                fstring ["'"; type_name v;
                                         "' object has no attribute 'get'"]])])).
  { rewrite (process_file_new i f w t Hi Hp Hk), Ha.
    destruct v; try reflexivity. discriminate Hd. }
  split; [exact E | ]. rewrite E. split; reflexivity.
Qed.

(** X13.  The defaults stand in for absent keys only.  A key that is
    present with the value null is handed on as null, so buildings or
    description is stored as NULL, and a present empty list is joined to
    the empty text; in both cases the row is written. *)
Theorem present_values_are_not_defaulted (i : nat) (f : UploadedFile)
        (w : world) (t : table) (kv : list (string * pyval)) (x : string) :
  initialised w t -> displayable w f -> known t (name f) = false ->
  llm w (llm_calls w) = Answered (JObj kv) ->
  title_arg kv = JStr x ->
  (forall d, lookup kv "buildings" = Some JNull -> description_arg kv = JStr d ->
     db (snd (process_file i f w))
     = Database
         (Some (inserted t (clock w (S (S (ticks w)))) (name f) (VText x) VNull
                  (VText d))))
  /\ (forall b, lookup kv "description" = Some JNull -> buildings_arg kv = JStr b ->
        db (snd (process_file i f w))
        = Database
            (Some (inserted t (clock w (S (S (ticks w)))) (name f) (VText x)
                     (VText b) VNull)))
  /\ (forall d, lookup kv "buildings" = Some (JList []) ->
        description_arg kv = JStr d ->
        db (snd (process_file i f w))
        = Database
            (Some (inserted t (clock w (S (S (ticks w)))) (name f) (VText x)
                     (VText "") (VText d))))
  /\ cell image_data_columns
       (new_row t (clock w (S (S (ticks w)))) (VText (name f)) (VText x)
          (text_affinity VNull) (text_affinity VNull)) "buildings" = VNull.
Proof.
  intros Hi Hp Hk Ha Ht. split; [ | split; [ | split; [ | reflexivity]]].
  - intros d Hb Hd.
    rewrite (process_file_persists i f w t kv (VText x) VNull (VText d) Hi Hp Hk Ha);
      try reflexivity.
    + rewrite Ht. reflexivity.
    + unfold buildings_arg. rewrite (get_or_present _ _ _ _ Hb). reflexivity.
    + rewrite Hd. reflexivity.
  - intros b Hd Hb.
    rewrite (process_file_persists i f w t kv (VText x) (VText b) VNull Hi Hp Hk Ha);
      try reflexivity.
    + rewrite Ht. reflexivity.
    + rewrite Hb. reflexivity.
    + unfold description_arg. rewrite (get_or_present _ _ _ _ Hd). reflexivity.
  - intros d Hb Hd.
    rewrite (process_file_persists i f w t kv (VText x) (VText "") (VText d)
               Hi Hp Hk Ha); try reflexivity.
    + rewrite Ht. reflexivity.
    + unfold buildings_arg. rewrite (get_or_present _ _ _ _ Hb). reflexivity.
    + rewrite Hd. reflexivity.
Qed.

(** X14.  Only lists are joined.  A dict in buildings (or in description,
    when buildings can be bound) reaches the store as it is, the binding of
    the third (fourth) parameter fails, the error notice of the store is
    shown and nothing is written. *)
Theorem dict_field_refused (i : nat) (f : UploadedFile) (w : world)
        (t : table) (kv o : list (string * pyval)) :
  initialised w t -> displayable w f -> known t (name f) = false ->
  llm w (llm_calls w) = Answered (JObj kv) ->
  bindable (title_arg kv) = true ->
  (lookup kv "buildings" = Some (JObj o) ->
   process_file i f w
   = (Ret tt,
      with_events (after_statement (invoked i f w))
        [insert_error (name f) (unsupported 3 (JObj o))]))
  /\ (lookup kv "description" = Some (JObj o) ->
      bindable (buildings_arg kv) = true ->
      process_file i f w
      = (Ret tt,
         with_events (after_statement (invoked i f w))
           [insert_error (name f) (unsupported 4 (JObj o))]))
  /\ db (with_events (after_statement (invoked i f w))
           [insert_error (name f) (unsupported 3 (JObj o))]) = db w.
Proof.
  intros Hi Hp Hk Ha Hbt.
  destruct (bindable_inv _ Hbt 2%nat) as [vt Et].
  pose proof (initialised_invoked i f w t Hi) as Hi'.
  split; [ | split; [ | reflexivity]].
  - intros Hb.
    rewrite (process_file_new i f w t Hi Hp Hk), Ha.
    rewrite (insert_image_data_spec (invoked i f w) t (name f) (title_arg kv)
               (buildings_arg kv) (description_arg kv) Hi').
    rewrite bind_params_insert, Et.
    unfold buildings_arg. rewrite (get_or_present _ _ _ _ Hb).
    reflexivity.
  - intros Hd Hbb.
    destruct (bindable_inv _ Hbb 3%nat) as [vb Eb].
    rewrite (process_file_new i f w t Hi Hp Hk), Ha.
    rewrite (insert_image_data_spec (invoked i f w) t (name f) (title_arg kv)
               (buildings_arg kv) (description_arg kv) Hi').
    rewrite bind_params_insert, Et, Eb.
    unfold description_arg. rewrite (get_or_present _ _ _ _ Hd).
    reflexivity.
Qed.

(** X15.  Numbers and booleans are bound as they are and the TEXT columns
    keep them as text: an integer title within 64 bits is stored as its
    decimal text, the booleans as ["1"] and ["0"]. *)
Theorem numeric_title_stored_as_text (i : nat) (f : UploadedFile) (w : world)
        (t : table) (kv : list (string * pyval)) (b d : string) :
  initialised w t -> displayable w f -> known t (name f) = false ->
  llm w (llm_calls w) = Answered (JObj kv) ->
  buildings_arg kv = JStr b -> description_arg kv = JStr d ->
  (forall z, lookup kv "title" = Some (JInt z) -> in_int64 z = true ->
     exists r,
       db (snd (process_file i f w))
       = Database
           (Some {| columns := image_data_columns; rows := rows t ++ [r];
                    seq := next_rowid t |})
       /\ cell image_data_columns r "title" = VText (decimal z))
  /\ (forall bo, lookup kv "title" = Some (JBool bo) ->
        exists r,
          db (snd (process_file i f w))
          = Database
              (Some {| columns := image_data_columns; rows := rows t ++ [r];
                       seq := next_rowid t |})
          /\ cell image_data_columns r "title"
             = VText (if bo then "1" else "0")).
Proof.
  intros Hi Hp Hk Ha Hb Hd. split.
  - intros z Hz Hr. eexists.
    rewrite (process_file_persists i f w t kv (VInt z) (VText b) (VText d)
               Hi Hp Hk Ha).
    + split; reflexivity.
    + unfold title_arg. rewrite (get_or_present _ _ _ _ Hz). cbn [bind_param].
      unfold in_int64 in Hr. rewrite Hr. reflexivity.
    + rewrite Hb. reflexivity.
    + rewrite Hd. reflexivity.
    + reflexivity.
  - intros bo Hz. eexists.
    rewrite (process_file_persists i f w t kv (VInt (if bo then 1 else 0))
               (VText b) (VText d) Hi Hp Hk Ha).
    + split; [reflexivity | ]. destruct bo; reflexivity.
    + unfold title_arg. rewrite (get_or_present _ _ _ _ Hz). reflexivity.
    + rewrite Hb. reflexivity.
    + rewrite Hd. reflexivity.
    + reflexivity.
Qed.

(** X16.  An integer outside 64 bits cannot be bound: with such a title
    the insert fails with the OverflowError of the binding, the error
    notice of the store is shown and nothing is written. *)
Theorem huge_integer_refused (i : nat) (f : UploadedFile) (w : world)
        (t : table) (kv : list (string * pyval)) (z : Z) :
  initialised w t -> displayable w f -> known t (name f) = false ->
  llm w (llm_calls w) = Answered (JObj kv) ->
  lookup kv "title" = Some (JInt z) -> in_int64 z = false ->
  process_file i f w
  = (Ret tt,
     with_events (after_statement (invoked i f w))
       [insert_error (name f)
          (OverflowError "Python int too large to convert to SQLite INTEGER")])
  /\ db (snd (process_file i f w)) = db w.
Proof.
  intros Hi Hp Hk Ha Hz Hr.
  assert (E : process_file i f w
              = (Ret tt,
                 with_events (after_statement (invoked i f w))
                   [insert_error (name f)
                      (OverflowError
                         "Python int too large to convert to SQLite INTEGER")])).
  { rewrite (process_file_new i f w t Hi Hp Hk), Ha.
    rewrite (insert_image_data_spec (invoked i f w) t (name f) (title_arg kv)
               (buildings_arg kv) (description_arg kv)
               (initialised_invoked i f w t Hi)).
    rewrite bind_params_insert. unfold title_arg.
    rewrite (get_or_present _ _ _ _ Hz). cbn [bind_param].
    unfold in_int64 in Hr. rewrite Hr. reflexivity. }
  split; [exact E | rewrite E; reflexivity].
Qed.

End EdgeAnswers.

(** ** The whole script, once more *)

Section ScriptRuns.
Context {RT : PyRuntime}.

(** X17.  With no upload the script sets the table up, shows the request
    to upload JPG images and offers the download, in that order; it asks
    the model nothing and writes no row. *)
Theorem main_without_uploads (w : world) (tbl : option table) :
  db w = Database tbl ->
  exists w',
    main [] w = (Ret tt, w')
    /\ trace w'
       = trace w
         ++ [StNotice LInfo
               "Bitte laden Sie JPG-Bilder hoch, um sie hier zu analysieren und anzuzeigen.";
             StDownloadButton "Download created Database" "buildings.db"
               "application/octet-stream"]
    /\ db w' = Database (Some (match tbl with
                               | Some t => t
                               | None => fresh_table
                               end))
    /\ llm_calls w' = llm_calls w
    /\ open_conns w' = open_conns w.
Proof.
  intros Hdb. unfold main. unfold bind at 1.
  rewrite (setup_database_spec w tbl Hdb).
  unfold bind, st_info, emit. eexists. split; [reflexivity | ].
  cbn [set_trace trace set_db after_statement db llm_calls open_conns].
  rewrite <- app_assoc. repeat split.
Qed.

(** X18.  On a database whose table, if present, is the table of the
    script, a run with uploads that are all pictures never raises: it
    shows every upload in order, asks the model at most once per file,
    keeps the rows the table had, closes every connection and offers the
    download as the last thing. *)
Theorem main_with_uploads (f : UploadedFile) (files : list UploadedFile)
        (w : world) (tbl : option table) :
  db w = Database tbl ->
  match tbl with
  | Some t => columns t = image_data_columns
  | None => True
  end ->
  Forall (displayable w) (f :: files) ->
  exists w' t' more before,
    main (f :: files) w = (Ret tt, w')
    /\ initialised w' t'
    /\ rows t' = match tbl with
                 | Some t => rows t
                 | None => []
                 end ++ more
    /\ trace w'
       = before ++ [StDownloadButton "Download created Database" "buildings.db"
                      "application/octet-stream"]
    /\ images (trace w') = images (trace w) ++ grid 0 (f :: files)
    /\ (llm_calls w' <= llm_calls w + S (List.length files))%nat
    /\ open_conns w' = open_conns w.
Proof.
  intros Hdb Hcols Hall. unfold main. unfold bind at 1.
  rewrite (setup_database_spec w tbl Hdb).
  set (t0 := match tbl with
             | Some t => t
             | None => fresh_table
             end).
  set (w0 := set_db (after_statement w) (Database (Some t0))).
  assert (Hi : initialised w0 t0).
  { split; [reflexivity | ]. unfold t0. destruct tbl; [exact Hcols | reflexivity]. }
  destruct (process_files_effects (f :: files) 0 w0 t0 Hi)
    as [w1 [t1 [more [k [E [Hi1 [Hr [Ho [Hl [_ [_ [Hk [Him _]]]]]]]]]]]]].
  change (pil w0) with (pil w) in E, Hk, Him.
  destruct (processed_all (pil w) (f :: files) Hall) as [Hdone Hres].
  rewrite Hres in E. rewrite Hdone in Hk, Him.
  unfold bind. rewrite E. unfold emit.
  exists (set_trace w1
            (trace w1 ++ [StDownloadButton "Download created Database"
                            "buildings.db" "application/octet-stream"])),
    t1, more, (trace w1).
  split; [reflexivity | ]. split; [apply Hi1 | ].
  split; [rewrite Hr; unfold t0; destruct tbl; reflexivity | ].
  split; [reflexivity | ].
  split; [cbn [set_trace trace]; rewrite images_app, Him; cbn;
          rewrite app_nil_r; reflexivity | ].
  split; [cbn [set_trace llm_calls]; rewrite Hl; cbn in Hk |- *; lia | ].
  cbn [set_trace open_conns]. rewrite Ho. reflexivity.
Qed.

(** X19.  On a file that is no database the set-up raises and the run
    stops there: the error of the engine leaves the script, nothing has
    been shown, no upload is looked at, the model is not asked and no
    download is offered. *)
Theorem startup_failure_stops_run (files : list UploadedFile) (w : world) :
  db w = NotADatabase ->
  exists w',
    main files w = (Raise (DatabaseError "file is not a database"), w')
    /\ db w' = db w
    /\ trace w' = trace w
    /\ llm_calls w' = llm_calls w.
Proof.
  intros Hdb. exists (leaked w). unfold main. unfold bind at 1.
  rewrite (setup_database_leaks w Hdb). repeat split.
Qed.

(** X22.  An upload that is no picture ends the run: on a database whose
    table, if present, is the table of the script, the exception of the
    decoder for the first such upload leaves the script.  The uploads in
    front of it were shown and processed, the rows the table had are
    kept and every connection is closed; that upload and the ones behind
    it are not shown, and the download is not offered. *)
Theorem non_picture_stops_run (pre post : list UploadedFile) (f : UploadedFile)
        (w : world) (tbl : option table) (e : exn) :
  db w = Database tbl ->
  match tbl with
  | Some t => columns t = image_data_columns
  | None => True
  end ->
  Forall (displayable w) pre ->
  pil w (skipn (pos f) (content f)) = Some e ->
  exists w' t' more,
    main (pre ++ f :: post) w = (Raise e, w')
    /\ initialised w' t'
    /\ rows t' = match tbl with
                 | Some t => rows t
                 | None => []
                 end ++ more
    /\ (List.length more <= List.length pre)%nat
    /\ images (trace w') = images (trace w) ++ grid 0 pre
    /\ downloads (trace w') = downloads (trace w)
    /\ open_conns w' = open_conns w.
Proof.
  intros Hdb Hcols Hpre Hf. unfold main. unfold bind at 1.
  rewrite (setup_database_spec w tbl Hdb).
  set (t0 := match tbl with
             | Some t => t
             | None => fresh_table
             end).
  set (w0 := set_db (after_statement w) (Database (Some t0))).
  assert (Hi : initialised w0 t0).
  { split; [reflexivity | ]. unfold t0. destruct tbl; [exact Hcols | reflexivity]. }
  destruct (process_files_effects (pre ++ f :: post) 0 w0 t0 Hi)
    as [w1 [t1 [more [k [E [Hi1 [Hr [Ho [_ [_ [Hm [Hk [Him [_ [_ [_ Hdl]]]]]]]]]]]]]]]].
  change (pil w0) with (pil w) in E, Hk, Him.
  destruct (processed_stop (pil w) pre post f e Hpre Hf) as [Hdone Hres].
  rewrite Hres in E. rewrite Hdone in Hk, Him.
  assert (Hmain : (match pre ++ f :: post with
                   | [] =>
                       st_info
                         "Bitte laden Sie JPG-Bilder hoch, um sie hier zu analysieren und anzuzeigen."
                   | _ :: _ => process_files 0 (pre ++ f :: post)
                   end) w0 = (Raise e, w1)).
  { destruct (pre ++ f :: post) as [ | g rest] eqn:Hfiles; [ | exact E].
    destruct pre; discriminate Hfiles. }
  unfold bind. fold w0. rewrite Hmain.
  exists w1, t1, more.
  split; [reflexivity | ]. split; [exact Hi1 | ].
  split; [rewrite Hr; unfold t0; destruct tbl; reflexivity | ].
  split; [lia | ]. split; [exact Him | ]. split; [exact Hdl | exact Ho].
Qed.

End ScriptRuns.

(** ** The base64 text of an image *)

Section Base64.

Lemma list_ind3 {A : Type} (P : list A -> Prop) :
  P [] -> (forall a, P [a]) -> (forall a b, P [a; b]) ->
  (forall a b c l, P l -> P (a :: b :: c :: l)) ->
  forall l, P l.
Proof.
  intros H0 H1 H2 H3.
  assert (Hall : forall l, P l /\ (forall a, P (a :: l))
                            /\ (forall a b, P (a :: b :: l))).
  { induction l as [ | x l [IH0 [IH1 IH2]]].
    - repeat split; auto.
    - split; [apply IH1 | ]. split; [intros a; apply IH2 | ].
      intros a b. apply H3. exact IH0. }
  intros l. apply (Hall l).
Qed.

Lemma in_below (k : nat) (n : N) : (n < N.of_nat k)%N -> In n (below k).
Proof.
  intros H. unfold below. apply in_map_iff. exists (N.to_nat n).
  split; [apply N2Nat.id | ]. apply in_seq. lia.
Qed.

Lemma bytes_checked : forallb (fun x => forallb (sextets_ok x) (below 256)) (below 256) = true.
Proof. vm_compute. reflexivity. Qed.

Lemma bytes_join_checked :
  forallb (fun y => forallb (sextets_join_ok y) (below 256)) (below 256) = true.
Proof. vm_compute. reflexivity. Qed.

Lemma symbols_checked : forallb symbol_ok (below 64) = true.
Proof. vm_compute. reflexivity. Qed.

Lemma byte_below (a : byte) : (Byte.to_N a < N.of_nat 256)%N.
Proof. pose proof (Byte.to_N_bounded a). lia. Qed.

Lemma sextets_ok_bytes (a b : byte) : sextets_ok (Byte.to_N a) (Byte.to_N b) = true.
Proof.
  pose proof bytes_checked as H. rewrite forallb_forall in H.
  specialize (H _ (in_below 256 _ (byte_below a))).
  rewrite forallb_forall in H. exact (H _ (in_below 256 _ (byte_below b))).
Qed.

Lemma sextets_join_ok_bytes (b c : byte) :
  sextets_join_ok (Byte.to_N b) (Byte.to_N c) = true.
Proof.
  pose proof bytes_join_checked as H. rewrite forallb_forall in H.
  specialize (H _ (in_below 256 _ (byte_below b))).
  rewrite forallb_forall in H. exact (H _ (in_below 256 _ (byte_below c))).
Qed.

Lemma symbol_ok_below (n : N) :
  (n <? 64)%N = true ->
  b64_index (b64_char n) = n /\ Ascii.eqb (b64_char n) "=" = false.
Proof.
  intros Hn. apply N.ltb_lt in Hn.
  pose proof symbols_checked as H. rewrite forallb_forall in H.
  assert (Hin : In n (below 64)) by (apply in_below; lia).
  specialize (H n Hin). unfold symbol_ok in H.
  apply andb_true_iff in H. destruct H as [H1 H2].
  apply N.eqb_eq in H1. apply negb_true_iff in H2. split; assumption.
Qed.

Lemma byte_of_to_N (a : byte) : byte_of_N (Byte.to_N a) = a.
Proof. unfold byte_of_N. rewrite Byte.of_to_N. reflexivity. Qed.

Ltac conjuncts H := unfold sextets_ok, sextets_join_ok in H;
  repeat rewrite andb_true_iff in H; repeat rewrite N.eqb_eq in H.

(** X20.  The base64 text of an image can be read back: decoding the text
    built for the request gives the bytes of the image, so two images with
    different bytes never get the same text. *)
Theorem encode_image_loses_nothing (image_bytes other : list byte) :
  b64decode (encode_image_from_bytes image_bytes) = image_bytes
  /\ (encode_image_from_bytes image_bytes = encode_image_from_bytes other ->
      image_bytes = other).
Proof.
  assert (Hround : forall bs, b64decode (b64encode bs) = bs).
  { apply (list_ind3 (fun bs => b64decode (b64encode bs) = bs)).
    - reflexivity.
    - intros a. pose proof (sextets_ok_bytes a a) as H. conjuncts H.
      destruct H as [[[[[[[[F1 _] _] _] _] _] F7] F8] _].
      destruct (symbol_ok_below _ F1) as [I1 _].
      destruct (symbol_ok_below _ F8) as [I2 _].
      cbn [b64encode b64decode]. cbn [Ascii.eqb Bool.eqb].
      unfold first_byte. rewrite I1, I2, F7, byte_of_to_N. reflexivity.
    - intros a b. pose proof (sextets_ok_bytes a b) as H. conjuncts H.
      destruct H as [[[[[[[[F1 F2] F3] _] F5] F6] _] _] F9].
      destruct (symbol_ok_below _ F1) as [I1 _].
      destruct (symbol_ok_below _ F2) as [I2 _].
      destruct (symbol_ok_below _ F3) as [I3 E3].
      cbn [b64encode b64decode]. rewrite E3. cbn [Ascii.eqb Bool.eqb].
      unfold first_byte, second_byte. rewrite I1, I2, I3, F5, F6, F9.
      rewrite !byte_of_to_N. reflexivity.
    - intros a b c l IH.
      pose proof (sextets_ok_bytes a b) as H. conjuncts H.
      destruct H as [[[[[[[[F1 F2] _] _] F5] F6] _] _] _].
      pose proof (sextets_join_ok_bytes b c) as J. conjuncts J.
      destruct J as [[[[J1 J2] J3] J4] J5].
      pose proof (sextets_ok_bytes a c) as K. conjuncts K.
      destruct K as [[[[[[[[_ _] _] K4] _] _] _] _] _].
      destruct (symbol_ok_below _ F1) as [I1 _].
      destruct (symbol_ok_below _ F2) as [I2 _].
      destruct (symbol_ok_below _ J1) as [I3 E3].
      destruct (symbol_ok_below _ K4) as [I4 E4].
      cbn [b64encode b64decode]. rewrite E3, E4.
      unfold first_byte, second_byte, third_byte.
      rewrite I1, I2, I3, I4, F5, F6, J2, J3, J4, J5, IH.
      rewrite !byte_of_to_N. reflexivity. }
  split; [exact (Hround image_bytes) | ].
  unfold encode_image_from_bytes. intros Heq.
  rewrite <- (Hround image_bytes), <- (Hround other), Heq. reflexivity.
Qed.

Lemma get_symbol (s : string) (n : nat) (c : ascii) :
  String.get n s = Some c -> existsb (Ascii.eqb c) (list_ascii_of_string s) = true.
Proof.
  revert n. induction s as [ | c' s IH]; intros n; simpl; [discriminate | ].
  destruct n as [ | n].
  - intros H. injection H as ->. rewrite Ascii.eqb_refl. reflexivity.
  - intros H. rewrite (IH n H). apply orb_true_r.
Qed.

Lemma b64_char_symbol (n : N) : b64_symbol (b64_char n) = true.
Proof.
  unfold b64_symbol, b64_char.
  destruct (String.get (N.to_nat n) b64_alphabet) as [c | ] eqn:E.
  - rewrite (get_symbol _ _ _ E). reflexivity.
  - apply orb_true_r.
Qed.

(** X21.  The base64 text has four characters for every three bytes of
    the image, rounded up, and each of them is a letter, a digit, [+], [/]
    or the padding [=]; in particular it holds no brace, so the prompt
    template it is put into has no variable to fill. *)
Theorem encode_image_shape (image_bytes : list byte) :
  String.length (encode_image_from_bytes image_bytes)
  = (4 * ((List.length image_bytes + 2) / 3))%nat
  /\ all_chars b64_symbol (encode_image_from_bytes image_bytes) = true
  /\ b64_symbol "{" = false /\ b64_symbol "}" = false.
Proof.
  unfold encode_image_from_bytes. split; [ | split; [ | split; reflexivity]].
  - apply (list_ind3 (fun bs => String.length (b64encode bs)
                                = (4 * ((List.length bs + 2) / 3))%nat)).
    + reflexivity.
    + intros a. reflexivity.
    + intros a b. reflexivity.
    + intros a b c l IH. cbn [b64encode String.length List.length]. rewrite IH.
      replace (S (S (S (List.length l))) + 2)%nat
        with (List.length l + 2 + 1 * 3)%nat by lia.
      rewrite Nat.div_add by lia. lia.
  - apply (list_ind3 (fun bs => all_chars b64_symbol (b64encode bs) = true)).
    + reflexivity.
    + intros a. cbn [b64encode all_chars]. rewrite !b64_char_symbol. reflexivity.
    + intros a b. cbn [b64encode all_chars]. rewrite !b64_char_symbol. reflexivity.
    + intros a b c l IH. cbn [b64encode all_chars]. rewrite !b64_char_symbol, IH.
      reflexivity.
Qed.

End Base64.

(** ** Closed instances *)

#[local] Existing Instance plain_runtime.

(** C5: the script contradicts the claim on a null title.  With an empty
    table and the answer [{"title": null, "buildings": "B", "description":
    "D"}] for [a.jpg], the insert fails on the NOT NULL constraint of
    [title]; the batch goes on and nothing is written, but what is shown is
    the duplicate warning ("existiert bereits"), not an error notice, for an
    image the store does not hold. *)
Theorem null_title_reported_as_duplicate :
  known fresh_table "a.jpg" = false
  /\ exists w',
       process_files 0 [a_jpg] (empty_store (answering null_title)) = (Ret tt, w')
       /\ db w' = Database (Some fresh_table)
       /\ trace w'
          = [shown 0 a_jpg; spinner a_jpg; ChainInvoke (request a_jpg);
             StNotice LWarning
               "Bild 'a.jpg' existiert bereits in der Datenbank und wird nicht erneut hinzugefügt."].
Proof.
  split; [vm_compute; reflexivity | ].
  exists (snd (process_files 0 [a_jpg] (empty_store (answering null_title)))).
  split; [ | split]; vm_compute; reflexivity.
Qed.

(** C6: the script contradicts the claim on the error paths of two of the
    three operations.  [setup_database] on a file that is no database and
    [image_exists_in_db] on a database without the table raise with their
    connection still open; [insert_image_data], which closes in a [finally],
    returns with its connection closed on the same inputs. *)
Theorem connection_left_open_on_error :
  (exists w',
      setup_database no_database
      = (Raise (DatabaseError "file is not a database"), w')
      /\ open_conns no_database = 0%nat /\ open_conns w' = 1%nat)
  /\ (exists w',
        image_exists_in_db "a.jpg" no_table
        = (Raise (OperationalError "no such table: image_data"), w')
        /\ open_conns no_table = 0%nat /\ open_conns w' = 1%nat)
  /\ (exists w',
        insert_image_data "a.jpg" (JStr "T") (JStr "B") (JStr "D") no_table
        = (Ret false, w')
        /\ open_conns w' = 0%nat).
Proof.
  split; [ | split].
  - exists (snd (setup_database no_database)).
    split; [ | split]; vm_compute; reflexivity.
  - exists (snd (image_exists_in_db "a.jpg" no_table)).
    split; [ | split]; vm_compute; reflexivity.
  - exists (snd (insert_image_data "a.jpg" (JStr "T") (JStr "B") (JStr "D") no_table)).
    split; vm_compute; reflexivity.
Qed.

(** C1, counterexample: the name is in the store and the title is a list;
    the call is refused with the error notice of the store, not with the
    duplicate warning. *)
Lemma duplicate_with_list_title_not_warned :
  known table_with_a "a.jpg" = true
  /\ ~ duplicate_skipped world_with_a "a.jpg"
         (JList [JStr "Town hall"]) (JStr "B") (JStr "D").
Proof.
  split; [vm_compute; reflexivity | ].
  intros [w' [text [E [_ [Ht _]]]]].
  assert (H : insert_image_data "a.jpg" (JList [JStr "Town hall"]) (JStr "B")
                (JStr "D") world_with_a
              = (Ret false,
                 with_events (after_statement world_with_a)
                   [insert_error "a.jpg"
                      (unsupported 2 (JList [JStr "Town hall"]))]))
    by (vm_compute; reflexivity).
  rewrite H in E. injection E as <-.
  cbn [with_events set_trace trace after_statement world_with_a example_world app]
    in Ht.
  unfold insert_error in Ht. discriminate Ht.
Qed.

Lemma duplicate_insert_rejected_witness :
  exists w' lv text,
    insert_image_data "a.jpg" (JStr "Town hall") (JStr "B") (JStr "D") world_with_a
    = (Ret false, w')
    /\ initialised w' table_with_a
    /\ count_name table_with_a "a.jpg" = 1%nat
    /\ open_conns w' = open_conns world_with_a
    /\ trace w' = trace world_with_a ++ [StNotice lv text]
    /\ mentions text "a.jpg"
    /\ lv = LWarning.
Proof.
  apply (duplicate_insert_rejected world_with_a table_with_a "a.jpg"
           (JStr "Town hall") (JStr "B") (JStr "D")).
  - split; vm_compute; reflexivity.
  - unfold unique_names. cbn. constructor; [intros [] | constructor].
  - vm_compute; reflexivity.
Defined.

Lemma missing_keys_defaulted_witness :
  db (snd (process_file 0 a_jpg (empty_store (answering title_only))))
  = Database
      (Some (inserted fresh_table (example_clock 2) "a.jpg" (VText "X")
               (VText "No buildings identified") (VText "No description"))).
Proof.
  apply (missing_keys_defaulted 0 a_jpg (empty_store (answering title_only))
           fresh_table title_only).
  - split; vm_compute; reflexivity.
  - vm_compute; reflexivity.
  - vm_compute; reflexivity.
  - vm_compute; reflexivity.
  - vm_compute; reflexivity.
Defined.


Lemma existence_short_circuit_witness :
  exists w2,
    process_file 0 a_jpg world_with_a = (Ret tt, w2)
    /\ trace w2 = trace world_with_a ++ [shown 0 a_jpg; already_analysed "a.jpg"]
    /\ invocations (trace w2) = invocations (trace world_with_a)
    /\ llm_calls w2 = llm_calls world_with_a
    /\ db w2 = db world_with_a
    /\ process_files 0 ([] ++ a_jpg :: [b_png]) world_with_a
       = process_files 1 [b_png] w2.
Proof.
  apply (existence_short_circuit 0 [] [b_png] a_jpg world_with_a world_with_a).
  - vm_compute; reflexivity.
  - vm_compute; reflexivity.
  - vm_compute; reflexivity.
Defined.



Lemma setup_database_idempotent_witness :
  exists w',
    setup_database no_table = (Ret tt, w')
    /\ db w' = Database (Some fresh_table)
    /\ trace w' = trace no_table
    /\ open_conns w' = open_conns no_table
    /\ exists w'', setup_database w' = (Ret tt, w'') /\ db w'' = db w'.
Proof.
  destruct (setup_database_idempotent no_table None eq_refl)
    as [w' [E [Hdb [Ht [Ho [Hagain _]]]]]].
  exists w'. repeat split; assumption.
Defined.

Lemma ids_strictly_increase_witness :
  exists w1 w2 t2,
    insert_image_data "a.jpg" (JStr "Town hall") (JStr "B") (JStr "D")
      (empty_store (answering title_only)) = (Ret true, w1)
    /\ insert_image_data "b.jpg" (JStr "Market") JNull (JStr "D") w1 = (Ret true, w2)
    /\ initialised w2 t2
    /\ ids t2 = [1; 2]
    /\ map (fun r => cell (columns t2) r "id") (rows t2) = [VInt 1; VInt 2]
    /\ map (name_cell t2) (rows t2) = [VText "a.jpg"; VText "b.jpg"].
Proof.
  destruct (ids_strictly_increase (empty_store (answering title_only)) fresh_table)
    as [_ [_ [_ H]]].
  - split; vm_compute; reflexivity.
  - constructor.
  - apply H.
    + reflexivity.
    + reflexivity.
    + intro E. discriminate E.
    + vm_compute; reflexivity.
    + vm_compute; reflexivity.
Defined.

(** C10, counterexample: the title is the integer 5, not text; the insert
    succeeds and the row is written with the title in text form. *)
Lemma integer_title_persisted :
  is_text (JInt 5 : @pyval plain_runtime) = false
  /\ known fresh_table "a.jpg" = false
  /\ ~ title_refused 0 a_jpg (empty_store (answering integer_title))
  /\ db (snd (process_file 0 a_jpg (empty_store (answering integer_title))))
     = Database
         (Some (inserted fresh_table (example_clock 2) "a.jpg" (VInt 5)
                  (VText "No buildings identified") (VText "No description"))).
Proof.
  split; [reflexivity | ]. split; [vm_compute; reflexivity | ].
  split; [ | vm_compute; reflexivity].
  intros [e H]. apply (f_equal (fun x => List.length (trace x))) in H.
  vm_compute in H. discriminate H.
Qed.

Lemma container_title_refused_witness :
  title_arg [("title", JList [JStr "Town hall"])] = JList [JStr "Town hall"]
  /\ process_file 0 a_jpg (empty_store (answering list_title))
     = (Ret tt,
        with_events
          (after_statement (invoked 0 a_jpg (empty_store (answering list_title))))
          [insert_error "a.jpg" (unsupported 2 (JList [JStr "Town hall"]))])
  /\ db (snd (process_file 0 a_jpg (empty_store (answering list_title))))
     = db (empty_store (answering list_title))
  /\ mentions
       (fstring ["Fehler beim Einfügen von '"; "a.jpg"; "' in die Datenbank: ";
                 str_exn (unsupported 2 (JList [JStr "Town hall"]))])
       "a.jpg".
Proof.
  apply (container_title_refused 0 a_jpg (empty_store (answering list_title))
           fresh_table [("title", JList [JStr "Town hall"])]
           (JList [JStr "Town hall"])).
  - split; vm_compute; reflexivity.
  - vm_compute; reflexivity.
  - vm_compute; reflexivity.
  - vm_compute; reflexivity.
  - vm_compute; reflexivity.
  - vm_compute; reflexivity.
Defined.

(** ** Closed instances of the further properties *)

Ltac pictures := repeat (constructor; [vm_compute; reflexivity | ]); constructor.

Lemma exists_reports_stored_witness :
  exists b w',
    image_exists_in_db "a.jpg" world_with_a = (Ret b, w')
    /\ (b = true <-> In (VText "a.jpg") (map (name_cell table_with_a) (rows table_with_a)))
    /\ db w' = db world_with_a
    /\ trace w' = trace world_with_a
    /\ llm_calls w' = llm_calls world_with_a
    /\ open_conns w' = open_conns world_with_a.
Proof.
  apply (exists_reports_stored world_with_a table_with_a "a.jpg").
  split; vm_compute; reflexivity.
Defined.

Lemma insert_then_exists_witness :
  fst (image_exists_in_db "a.jpg"
         (snd (insert_image_data "a.jpg" (JStr "T") (JStr "B") (JStr "D")
                 (empty_store (answering title_only)))))
  = Ret true
  /\ ("b.png" <> "a.jpg" ->
      fst (image_exists_in_db "b.png"
             (snd (insert_image_data "a.jpg" (JStr "T") (JStr "B") (JStr "D")
                     (empty_store (answering title_only)))))
      = fst (image_exists_in_db "b.png" (empty_store (answering title_only)))).
Proof.
  apply (insert_then_exists (empty_store (answering title_only))
           (snd (insert_image_data "a.jpg" (JStr "T") (JStr "B") (JStr "D")
                   (empty_store (answering title_only))))
           fresh_table "a.jpg" "b.png" (JStr "T") (JStr "B") (JStr "D")).
  - split; vm_compute; reflexivity.
  - vm_compute; reflexivity.
Defined.

Lemma insert_on_unusable_store_witness :
  exists msg,
    insert_image_data "a.jpg" (JStr "T") (JStr "B") (JStr "D") no_table
    = (Ret false,
       with_events (after_statement no_table)
         [StNotice LError
            (fstring ["Fehler beim Einfügen von '"; "a.jpg"; "' in die Datenbank: ";
                      msg])])
    /\ (db no_table = NotADatabase -> msg = "file is not a database")
    /\ (db no_table = Database None -> msg = "no such table: image_data").
Proof.
  apply (insert_on_unusable_store no_table "a.jpg" (JStr "T") (JStr "B") (JStr "D")).
  right. vm_compute; reflexivity.
Defined.

Lemma batch_appends_only_witness :
  exists res w' t' more,
    process_files 0 [a_jpg; b_png; empty_txt] world_with_a = (res, w')
    /\ (Forall (displayable world_with_a) [a_jpg; b_png; empty_txt] -> res = Ret tt)
    /\ (forall e, res = Raise e ->
          exists f, In f [a_jpg; b_png; empty_txt]
                    /\ pil world_with_a (skipn (pos f) (content f)) = Some e)
    /\ initialised w' t'
    /\ rows t' = rows table_with_a ++ more
    /\ (List.length more <= List.length [a_jpg; b_png; empty_txt])%nat
    /\ (forall n, known table_with_a n = true -> known t' n = true)
    /\ open_conns w' = open_conns world_with_a.
Proof.
  apply (batch_appends_only [a_jpg; b_png; empty_txt] 0 world_with_a table_with_a).
  split; vm_compute; reflexivity.
Defined.

Lemma batch_keeps_names_unique_witness :
  exists res w' t',
    process_files 0 [a_jpg; b_png; a_jpg] (empty_store (answering title_only))
    = (res, w')
    /\ (Forall (displayable (empty_store (answering title_only)))
          [a_jpg; b_png; a_jpg] -> res = Ret tt)
    /\ initialised w' t'
    /\ unique_names t'
    /\ (forall n, (count_name t' n <= 1)%nat)
    /\ unique_names fresh_table.
Proof.
  apply (batch_keeps_names_unique [a_jpg; b_png; a_jpg] 0
           (empty_store (answering title_only)) fresh_table).
  - split; vm_compute; reflexivity.
  - unfold unique_names. cbn. constructor.
Defined.

Lemma batch_keeps_rows_typed_witness :
  exists res w' t',
    process_files 0 [a_jpg; b_png] world_with_a = (res, w')
    /\ (Forall (displayable world_with_a) [a_jpg; b_png] -> res = Ret tt)
    /\ initialised w' t'
    /\ rows_ok t'
    /\ forall r, In r (rows t') ->
         cell (columns t') r "id" = VInt (rowid r)
         /\ is_textv (cell (columns t') r "title") = true
         /\ is_textv (name_cell t' r) = true.
Proof.
  apply (batch_keeps_rows_typed [a_jpg; b_png] 0 world_with_a table_with_a).
  - split; vm_compute; reflexivity.
  - vm_compute; reflexivity.
Defined.

Lemma every_file_is_shown_witness :
  (exists w',
      process_files 0 [a_jpg; b_png] world_with_a = (Ret tt, w')
      /\ images (trace w')
         = [(0%nat, [x4d; x61; x6e], "a.jpg"); (1%nat, [x4d; x61], "b.png")])
  /\ (exists w',
        process_files 0 [a_jpg; empty_txt; b_png] world_with_a
        = (Raise (UnidentifiedImageError
                    "cannot identify image file <_io.BytesIO object at 0x7f2b5c0a1d50>"),
           w')
        /\ images (trace w') = [(0%nat, [x4d; x61; x6e], "a.jpg")]).
Proof.
  split.
  - destruct (every_file_is_shown [a_jpg; b_png] 0 world_with_a table_with_a)
      as [res [w' [sf [E [Him [_ [Hall _]]]]]]].
    + split; vm_compute; reflexivity.
    + destruct Hall as [-> ->]; [pictures | ].
      exists w'. split; [exact E | ]. rewrite Him. vm_compute; reflexivity.
  - destruct (every_file_is_shown [a_jpg; empty_txt; b_png] 0 world_with_a
                table_with_a)
      as [res [w' [sf [E [Him [_ [_ Hstop]]]]]]].
    + split; vm_compute; reflexivity.
    + destruct (Hstop [a_jpg] empty_txt [b_png]
                  (UnidentifiedImageError
                     "cannot identify image file <_io.BytesIO object at 0x7f2b5c0a1d50>"))
        as [-> ->]; [reflexivity | pictures | vm_compute; reflexivity | ].
      exists w'. split; [exact E | ]. rewrite Him. vm_compute; reflexivity.
Defined.

Lemma row_or_notice_witness :
  exists res w' t',
    process_file 0 b_png world_with_a = (res, w')
    /\ initialised w' t'
    /\ (displayable world_with_a b_png -> res = Ret tt)
    /\ ((res = Ret tt
         /\ rows t' = rows table_with_a
         /\ exists lv text,
              notices (trace w') = notices (trace world_with_a) ++ [(lv, text)]
              /\ mentions text (name b_png))
        \/ (res = Ret tt
            /\ notices (trace w') = notices (trace world_with_a)
            /\ exists r,
                 rows t' = rows table_with_a ++ [r]
                 /\ name_cell t' r = VText (name b_png))
        \/ (exists e,
              pil world_with_a (skipn (pos b_png) (content b_png)) = Some e
              /\ res = Raise e /\ w' = world_with_a /\ t' = table_with_a)).
Proof.
  apply (row_or_notice 0 b_png world_with_a table_with_a).
  split; vm_compute; reflexivity.
Defined.

Lemma model_calls_bounded_witness :
  exists res w' t' more k,
    process_files 0 [a_jpg; b_png] world_with_a = (res, w')
    /\ (Forall (displayable world_with_a) [a_jpg; b_png] -> res = Ret tt)
    /\ db w' = Database (Some t')
    /\ rows t' = rows table_with_a ++ more
    /\ llm_calls w' = (llm_calls world_with_a + k)%nat
    /\ List.length (invocations (trace w'))
       = (List.length (invocations (trace world_with_a)) + k)%nat
    /\ (List.length more <= k)%nat
    /\ (k <= List.length [a_jpg; b_png])%nat.
Proof.
  apply (model_calls_bounded [a_jpg; b_png] 0 world_with_a table_with_a).
  split; vm_compute; reflexivity.
Defined.

Lemma known_batch_is_skipped_witness :
  exists w',
    process_files 0 [a_jpg; a_jpg] world_with_a = (Ret tt, w')
    /\ db w' = db world_with_a
    /\ llm_calls w' = llm_calls world_with_a
    /\ open_conns w' = open_conns world_with_a
    /\ trace w' = trace world_with_a ++ skipped 0 [a_jpg; a_jpg].
Proof.
  apply (known_batch_is_skipped [a_jpg; a_jpg] 0 world_with_a table_with_a).
  - split; vm_compute; reflexivity.
  - pictures.
  - intros f [<- | [<- | []]]; vm_compute; reflexivity.
Defined.

Lemma non_dict_answer_reported_witness :
  process_file 0 a_jpg (empty_store (answering (JList [JStr "Town hall"])))
  = (Ret tt,
     with_events (invoked 0 a_jpg (empty_store (answering (JList [JStr "Town hall"]))))
       [StNotice LError
          "Fehler bei der Analyse von 'a.jpg': 'list' object has no attribute 'get'"])
  /\ db (snd (process_file 0 a_jpg (empty_store (answering (JList [JStr "Town hall"])))))
     = Database (Some fresh_table)
  /\ llm_calls
       (snd (process_file 0 a_jpg (empty_store (answering (JList [JStr "Town hall"])))))
     = 1%nat.
Proof.
  apply (non_dict_answer_reported 0 a_jpg
           (empty_store (answering (JList [JStr "Town hall"]))) fresh_table
           (JList [JStr "Town hall"])).
  - split; vm_compute; reflexivity.
  - vm_compute; reflexivity.
  - vm_compute; reflexivity.
  - vm_compute; reflexivity.
  - vm_compute; reflexivity.
Defined.

Lemma present_values_are_not_defaulted_witness :
  db (snd (process_file 0 a_jpg
             (empty_store (answering (JObj [("title", JStr "X"); ("buildings", JNull)])))))
  = Database
      (Some (inserted fresh_table (example_clock 2) "a.jpg" (VText "X") VNull
               (VText "No description"))).
Proof.
  destruct (present_values_are_not_defaulted 0 a_jpg
              (empty_store (answering (JObj [("title", JStr "X"); ("buildings", JNull)])))
              fresh_table [("title", JStr "X"); ("buildings", JNull)] "X")
    as [H _].
  - split; vm_compute; reflexivity.
  - vm_compute; reflexivity.
  - vm_compute; reflexivity.
  - vm_compute; reflexivity.
  - vm_compute; reflexivity.
  - apply (H "No description"); vm_compute; reflexivity.
Defined.

Lemma dict_field_refused_witness :
  process_file 0 a_jpg
    (empty_store (answering (JObj [("title", JStr "X"); ("buildings", JObj [])])))
  = (Ret tt,
     with_events
       (after_statement
          (invoked 0 a_jpg
             (empty_store
                (answering (JObj [("title", JStr "X"); ("buildings", JObj [])])))))
       [insert_error "a.jpg" (unsupported 3 (JObj []))]).
Proof.
  destruct (dict_field_refused 0 a_jpg
              (empty_store
                 (answering (JObj [("title", JStr "X"); ("buildings", JObj [])])))
              fresh_table [("title", JStr "X"); ("buildings", JObj [])] [])
    as [H _].
  - split; vm_compute; reflexivity.
  - vm_compute; reflexivity.
  - vm_compute; reflexivity.
  - vm_compute; reflexivity.
  - vm_compute; reflexivity.
  - apply H. vm_compute; reflexivity.
Defined.

Lemma numeric_title_stored_as_text_witness :
  exists r,
    db (snd (process_file 0 a_jpg (empty_store (answering integer_title))))
    = Database
        (Some {| columns := image_data_columns; rows := rows fresh_table ++ [r];
                 seq := next_rowid fresh_table |})
    /\ cell image_data_columns r "title" = VText "5".
Proof.
  destruct (numeric_title_stored_as_text 0 a_jpg
              (empty_store (answering integer_title)) fresh_table
              [("title", JInt 5)] "No buildings identified" "No description")
    as [H _].
  - split; vm_compute; reflexivity.
  - vm_compute; reflexivity.
  - vm_compute; reflexivity.
  - vm_compute; reflexivity.
  - vm_compute; reflexivity.
  - vm_compute; reflexivity.
  - apply (H 5); vm_compute; reflexivity.
Defined.

Lemma huge_integer_refused_witness :
  process_file 0 a_jpg
    (empty_store (answering (JObj [("title", JInt 9223372036854775808)])))
  = (Ret tt,
     with_events
       (after_statement
          (invoked 0 a_jpg
             (empty_store (answering (JObj [("title", JInt 9223372036854775808)])))))
       [insert_error "a.jpg"
          (OverflowError "Python int too large to convert to SQLite INTEGER")])
  /\ db (snd (process_file 0 a_jpg
                (empty_store (answering (JObj [("title", JInt 9223372036854775808)])))))
     = Database (Some fresh_table).
Proof.
  apply (huge_integer_refused 0 a_jpg
           (empty_store (answering (JObj [("title", JInt 9223372036854775808)])))
           fresh_table [("title", JInt 9223372036854775808)] 9223372036854775808).
  - split; vm_compute; reflexivity.
  - vm_compute; reflexivity.
  - vm_compute; reflexivity.
  - vm_compute; reflexivity.
  - vm_compute; reflexivity.
  - vm_compute; reflexivity.
Defined.

Lemma main_without_uploads_witness :
  exists w',
    main [] no_table = (Ret tt, w')
    /\ trace w'
       = trace no_table
         ++ [StNotice LInfo
               "Bitte laden Sie JPG-Bilder hoch, um sie hier zu analysieren und anzuzeigen.";
             StDownloadButton "Download created Database" "buildings.db"
               "application/octet-stream"]
    /\ db w' = Database (Some fresh_table)
    /\ llm_calls w' = llm_calls no_table
    /\ open_conns w' = open_conns no_table.
Proof.
  apply (main_without_uploads no_table None). vm_compute; reflexivity.
Defined.

Lemma main_with_uploads_witness :
  exists w' t' more before,
    main [a_jpg; b_png] no_table = (Ret tt, w')
    /\ initialised w' t'
    /\ rows t' = [] ++ more
    /\ trace w'
       = before ++ [StDownloadButton "Download created Database" "buildings.db"
                      "application/octet-stream"]
    /\ images (trace w') = images (trace no_table) ++ grid 0 [a_jpg; b_png]
    /\ (llm_calls w' <= llm_calls no_table + 2)%nat
    /\ open_conns w' = open_conns no_table.
Proof.
  apply (main_with_uploads a_jpg [b_png] no_table None).
  - vm_compute; reflexivity.
  - exact I.
  - pictures.
Defined.

Lemma startup_failure_stops_run_witness :
  exists w',
    main [a_jpg] no_database = (Raise (DatabaseError "file is not a database"), w')
    /\ db w' = db no_database
    /\ trace w' = trace no_database
    /\ llm_calls w' = llm_calls no_database.
Proof.
  apply (startup_failure_stops_run [a_jpg] no_database). vm_compute; reflexivity.
Defined.

Lemma non_picture_stops_run_witness :
  exists w' t' more,
    main ([a_jpg] ++ empty_txt :: [b_png]) no_table
    = (Raise (UnidentifiedImageError
                "cannot identify image file <_io.BytesIO object at 0x7f2b5c0a1d50>"),
       w')
    /\ initialised w' t'
    /\ rows t' = [] ++ more
    /\ (List.length more <= List.length [a_jpg])%nat
    /\ images (trace w') = images (trace no_table) ++ grid 0 [a_jpg]
    /\ downloads (trace w') = downloads (trace no_table)
    /\ open_conns w' = open_conns no_table.
Proof.
  apply (non_picture_stops_run [a_jpg] [b_png] empty_txt no_table None).
  - vm_compute; reflexivity.
  - exact I.
  - pictures.
  - vm_compute; reflexivity.
Defined.
